(** * The ZMON client request layer ([zmon_cli/client.py])

    A shallow embedding of the client library: entity-id normalisation,
    entity comparison, client construction, endpoint building, the HTTP
    error mapping and the resource operations, followed by the properties
    the specification states about them, and by further properties of the
    same code, of the other operations of the client and of [get_client]
    ([zmon_cli/cmds/cli.py]).

    Conventions of the model:
    - a Python [str] is a [string]; its characters are the code points
      U+0000..U+00FF (one [ascii] each), on which [str.lower] is exact;
    - a Python exception is a constructor of [exn]; code that may raise
      returns a [result];
    - an operation of the client that talks to the backend is a computation
      in the monad [M]: it threads a [world] made of the heap of the
      caller's mutable mappings, the list of requests issued so far and the
      backend that answers them;
    - the Python standard library and [requests] are not part of the
      repository: the parts the client calls are modelled next to their
      first use, from their documented behaviour (CPython 3.11). *)

From Stdlib Require Import String Ascii List ZArith Bool Lia DecimalString.
From stdpp Require Import gmap strings.
From Equations Require Import Equations.
Import ListNotations.

Local Open Scope string_scope.
Local Open Scope Z_scope.

(* ================================================================== *)
(** * Part I: definitions                                              *)
(* ================================================================== *)

(** ** Text: the [str] methods the client uses *)

(** The double quote character, for messages that quote a field name. *)
Definition dq : string := String "034"%char EmptyString.

Definition code (c : ascii) : nat := nat_of_ascii c.

Definition in_range (lo hi c : ascii) : bool :=
  (code lo <=? code c)%nat && (code c <=? code hi)%nat.

(** [str.lower] on one code point below U+0100: A-Z, and the Latin-1
    capitals U+00C0..U+00DE except the multiplication sign U+00D7. *)
Definition lower_char (c : ascii) : ascii :=
  let n := code c in
  if ((65 <=? n) && (n <=? 90))%nat
     || ((192 <=? n) && (n <=? 222) && negb (n =? 215))%nat
  then ascii_of_nat (n + 32)
  else c.

Fixpoint lower (s : string) : string :=
  match s with
  | EmptyString => EmptyString
  | String c s' => String (lower_char c) (lower s')
  end.

Fixpoint lstrip_by (p : ascii -> bool) (s : string) : string :=
  match s with
  | EmptyString => EmptyString
  | String c s' => if p c then lstrip_by p s' else s
  end.

Fixpoint rstrip_by (p : ascii -> bool) (s : string) : string :=
  match s with
  | EmptyString => EmptyString
  | String c s' =>
      match rstrip_by p s' with
      | EmptyString => if p c then EmptyString else String c EmptyString
      | r => String c r
      end
  end.

(** [s.strip(chars)], with [chars] given as a predicate. *)
Definition strip_by (p : ascii -> bool) (s : string) : string :=
  rstrip_by p (lstrip_by p s).

Definition is_char (c : ascii) : ascii -> bool := Ascii.eqb c.

(** [sep.join(parts)] *)
Fixpoint join (sep : string) (parts : list string) : string :=
  match parts with
  | [] => EmptyString
  | [p] => p
  | p :: rest => p +:+ sep +:+ join sep rest
  end.

(** [c in s] *)
Fixpoint contains (c : ascii) (s : string) : bool :=
  match s with
  | EmptyString => false
  | String a s' => Ascii.eqb a c || contains c s'
  end.

(** [s.split(c)]: the fields between the occurrences of [c]; never empty. *)
Fixpoint split (c : ascii) (s : string) : list string :=
  match s with
  | EmptyString => [EmptyString]
  | String a s' =>
      if Ascii.eqb a c then EmptyString :: split c s'
      else match split c s' with
           | f :: fs => String a f :: fs
           | [] => [String a EmptyString]
           end
  end.

(** [s.partition(c)] without the separator: the text before the first [c]
    and the text after it ([None] when [c] does not occur). *)
Fixpoint cut (c : ascii) (s : string) : string * option string :=
  match s with
  | EmptyString => (EmptyString, None)
  | String a s' =>
      if Ascii.eqb a c then (EmptyString, Some s')
      else let '(h, t) := cut c s' in (String a h, t)
  end.

(** [str(n)] for an [int]. *)
Definition str_of_int (n : Z) : string := NilZero.string_of_int (Z.to_int n).

(** Whether [s] starts with, or ends in, a character of the class. *)
Definition starts_in (cls : ascii -> bool) (s : string) : bool :=
  match s with
  | String c _ => cls c
  | EmptyString => false
  end.

Fixpoint ends_in (cls : ascii -> bool) (s : string) : bool :=
  match s with
  | EmptyString => false
  | String a EmptyString => cls a
  | String _ s' => ends_in cls s'
  end.

(** [s.startswith(c)] and [s.endswith(c)] *)
Definition starts_with (c : ascii) (s : string) : bool := starts_in (is_char c) s.
Definition ends_with (c : ascii) (s : string) : bool := ends_in (is_char c) s.

Fixpoint forall_chars (p : ascii -> bool) (s : string) : bool :=
  match s with
  | EmptyString => true
  | String c s' => p c && forall_chars p s'
  end.

(** ** Regular expressions

    Both patterns of the module are alternations of character classes
    under [+]. A pattern is the list of its alternatives, each the
    membership test of its class. *)

Definition pattern := list (ascii -> bool).

(** The longest prefix of [s] inside the class, and what follows it. *)
Fixpoint span (cls : ascii -> bool) (s : string) : string * string :=
  match s with
  | EmptyString => (EmptyString, EmptyString)
  | String c s' =>
      if cls c then let '(m, rest) := span cls s' in (String c m, rest)
      else (EmptyString, s)
  end.

(** A match anchored at the start of [s]: the first alternative whose class
    holds the first character takes the whole run ([+] is greedy, and
    nothing follows it that could force it to give characters back). *)
Fixpoint re_match_at (p : pattern) (s : string) : option (string * string) :=
  match p with
  | [] => None
  | cls :: alts =>
      match s with
      | String c _ => if cls c then Some (span cls s) else re_match_at alts s
      | EmptyString => None
      end
  end.

(** [p.search(s)]: the text of the leftmost match, if any. *)
Fixpoint re_search (p : pattern) (s : string) : option string :=
  match re_match_at p s with
  | Some (m, _) => Some m
  | None =>
      match s with
      | EmptyString => None
      | String _ s' => re_search p s'
      end
  end.

Lemma span_length cls s :
  (String.length (fst (span cls s)) + String.length (snd (span cls s)))%nat
  = String.length s.
Proof.
  induction s as [|c s IH]; simpl; [reflexivity|].
  destruct (cls c); simpl; [|reflexivity].
  destruct (span cls s) as [m rest]; simpl in *. lia.
Qed.

Lemma re_match_at_shorter p s m rest :
  re_match_at p s = Some (m, rest) ->
  (String.length rest < String.length s)%nat.
Proof.
  induction p as [|cls alts IH]; simpl; [discriminate|].
  destruct s as [|c s]; [discriminate|].
  destruct (cls c) eqn:Hc; [|apply IH].
  intros Hspan. simpl in Hspan. rewrite Hc in Hspan.
  pose proof (span_length cls s) as Hlen.
  destruct (span cls s) as [m' rest']. injection Hspan as <- <-.
  simpl in *. lia.
Qed.

Definition inspect {A} (a : A) : {b : A | a = b} := exist _ a eq_refl.

(** [p.sub(repl, s)] with a callable [repl] that receives the matched text:
    matches are found left to right and do not overlap; the text between
    them is copied. *)
Equations? re_sub (p : pattern) (repl : string -> string) (s : string) : string
  by wf (String.length s) lt :=
re_sub p repl EmptyString := EmptyString;
re_sub p repl (String c s') with inspect (re_match_at p (String c s')) := {
  | exist _ (Some (m, rest)) Hm => repl m +:+ re_sub p repl rest
  | exist _ None _ => String c (re_sub p repl s') }.
Proof.
  exact (re_match_at_shorter _ _ _ _ Hm).
Qed.

(** [parentheses_re = re.compile('[(]+|[)]+')] *)
Definition parentheses_re : pattern := [is_char "("; is_char ")"].

(** The characters of the class [a-zA-Z0-9-@_.\[\]\:]: after the range
    [0-9] the hyphen stands for itself. *)
Definition entity_id_char (c : ascii) : bool :=
  in_range "a" "z" c || in_range "A" "Z" c || in_range "0" "9" c
  || is_char "-" c || is_char "@" c || is_char "_" c || is_char "." c
  || is_char "[" c || is_char "]" c || is_char ":" c.

(** [invalid_entity_id_re = re.compile('[^a-zA-Z0-9-@_.\[\]\:]+')] *)
Definition invalid_entity_id_re : pattern := [fun c => negb (entity_id_char c)].

(** [lambda m: '[' if '(' in m.group() else ']'] *)
Definition bracket_of (m : string) : string :=
  if contains "(" m then "[" else "]".

Definition get_valid_entity_id (e : string) : string :=
  re_sub invalid_entity_id_re (fun _ => "-")
    (re_sub parentheses_re bracket_of (lower e)).

(** [Zmon.is_valid_entity_id] (a static method) *)
Definition is_valid_entity_id (entity_id : string) : bool :=
  match re_search invalid_entity_id_re entity_id with
  | None => true
  | Some _ => false
  end.

Example get_valid_entity_id_ex1 : get_valid_entity_id "Host (A)" = "host-[a]".
Proof. reflexivity. Qed.
Example get_valid_entity_id_ex2 : get_valid_entity_id "((a)) b" = "[a]-b".
Proof. reflexivity. Qed.

(** ** Exceptions and results *)

(** A [requests.Response], as far as the client reads it. *)
Record Response := mkResponse {
  status_code : Z;
  reason : string;
  text : string
}.

Inductive exn :=
| ZmonError (message : string)
| ZmonArgumentError (message : string)
| HTTPError (response : Response)
| TypeError (message : string)
| KeyError (key : string)
| ValueError (message : string)
| JSONDecodeError
| RequestException (message : string).

(** [str(e)] for the two exception classes of the module: [ZmonError.__init__]
    prefixes the message, and [ZmonArgumentError] inherits it. *)
Definition zmon_error_text (message : string) : string :=
  "ZMON client error: " +:+ message.

Inductive result (A : Type) :=
| Ok (a : A)
| Raise (e : exn).
Arguments Ok {A} a.
Arguments Raise {A} e.

#[global] Instance result_ret : MRet result := fun _ a => Ok a.
#[global] Instance result_bind : MBind result := fun _ _ f r =>
  match r with
  | Ok a => f a
  | Raise e => Raise e
  end.
#[global] Instance result_fmap : FMap result := fun _ _ f r =>
  match r with
  | Ok a => Ok (f a)
  | Raise e => Raise e
  end.

(** [try: body except: handler] *)
Definition try_except {A} (body : result A) (handler : exn -> result A) : result A :=
  match body with
  | Ok a => Ok a
  | Raise e => handler e
  end.

Fixpoint mapM {A B} (f : A -> result B) (l : list A) : result (list B) :=
  match l with
  | [] => Ok []
  | x :: xs => y ← f x; ys ← mapM f xs; Ok (y :: ys)
  end.

(** ** Python values *)

(** A [float]: not-a-number, an infinity, or the finite value [m * 2^e]. *)
Inductive pyfloat :=
| FNaN
| FInf (negative : bool)
| FFin (m e : Z).

(** Hashable values, as the keys of a [dict]. [KObj] stands for a key of any
    other hashable type (a tuple, a frozenset, ...), told apart by identity. *)
Inductive pykey :=
| KNone
| KBool (b : bool)
| KInt (n : Z)
| KFloat (f : pyfloat)
| KStr (s : string)
| KObj (id : nat).

(** [PyDatetime] carries the text [isoformat()] returns for it. [PyObject]
    stands for an object of any other type (a set, a Decimal, ...): only
    its truth value and its identity are known. *)
#[local] Unset Elimination Schemes.
Inductive pyval :=
| PyNone
| PyBool (b : bool)
| PyInt (n : Z)
| PyFloat (f : pyfloat)
| PyStr (s : string)
| PyList (items : list pyval)
| PyTuple (items : list pyval)
| PyDict (entries : list (pykey * pyval))
| PyDatetime (iso : string)
| PyObject (truth : bool) (id : nat).
#[local] Set Elimination Schemes.

(** A [dict] keeps its entries in insertion order. *)
Abbreviation dict := (list (pykey * pyval)).

(** A JSON document. The text [json.dumps] writes and [json.loads] reads is
    represented by the document it denotes; the members of an object keep
    the order, and the repetitions, of the text. *)
#[local] Unset Elimination Schemes.
Inductive jdoc :=
| JNull
| JBool (b : bool)
| JInt (n : Z)
| JFloat (f : pyfloat)
| JStr (s : string)
| JArr (items : list jdoc)
| JObj (members : list (string * jdoc)).
#[local] Set Elimination Schemes.

(** What the interpreter and the standard library contribute beyond the
    functions modelled in this file. *)
Class Python := {
  (** the text [json] writes for a float used as a key: [repr(f)] for a
      finite one, NaN, Infinity and -Infinity for the others *)
  float_repr : pyfloat -> string;
  (** [ast.parse(src)]: [None] when it returns a tree, [Some msg] when it
      raises an exception [e] with [str(e) = msg] *)
  ast_parse : pyval -> option string;
  (** the parser behind [Response.json()]: the document a text denotes,
      [None] when the text is not a JSON document *)
  json_decode : string -> option jdoc;
  (** [urllib.parse._check_bracketed_netloc]: whether a network location
      with a bracketed host passes the address check *)
  bracketed_netloc_ok : string -> bool;
  (** [str(v)] for a value that is neither a [str] nor an [int] *)
  str_other : pyval -> string
}.

(** *** Truth values and equality *)

Definition float_truthy (f : pyfloat) : bool :=
  match f with
  | FFin m _ => negb (m =? 0)
  | _ => true
  end.

(** [bool(v)] *)
Definition truthy (v : pyval) : bool :=
  match v with
  | PyNone => false
  | PyBool b => b
  | PyInt n => negb (n =? 0)
  | PyFloat f => float_truthy f
  | PyStr s => negb (String.eqb s EmptyString)
  | PyList l | PyTuple l => match l with [] => false | _ => true end
  | PyDict d => match d with [] => false | _ => true end
  | PyDatetime _ => true
  | PyObject t _ => t
  end.

(** [m1 * 2^e1 == m2 * 2^e2], exactly. *)
Definition fin_eqb (m1 e1 m2 e2 : Z) : bool :=
  let k := Z.min e1 e2 in
  m1 * 2 ^ (e1 - k) =? m2 * 2 ^ (e2 - k).

(** [f1 == f2] on floats: a NaN equals nothing. *)
Definition float_eqb (f1 f2 : pyfloat) : bool :=
  match f1, f2 with
  | FInf a, FInf b => Bool.eqb a b
  | FFin m1 e1, FFin m2 e2 => fin_eqb m1 e1 m2 e2
  | _, _ => false
  end.

(** Numbers compare by value across [bool], [int] and [float]. *)
Inductive pynum :=
| NInt (n : Z)
| NFloat (f : pyfloat).

Definition num_eqb (a b : pynum) : bool :=
  match a, b with
  | NInt x, NInt y => x =? y
  | NInt x, NFloat f | NFloat f, NInt x => float_eqb f (FFin x 0)
  | NFloat f, NFloat g => float_eqb f g
  end.

Definition num_of_key (k : pykey) : option pynum :=
  match k with
  | KBool b => Some (NInt (if b then 1 else 0))
  | KInt n => Some (NInt n)
  | KFloat f => Some (NFloat f)
  | _ => None
  end.

(** Equality of keys, as a [dict] looks them up. *)
Definition key_eqb (k1 k2 : pykey) : bool :=
  match num_of_key k1, num_of_key k2 with
  | Some a, Some b => num_eqb a b
  | None, None =>
      match k1, k2 with
      | KNone, KNone => true
      | KStr a, KStr b => String.eqb a b
      | KObj i, KObj j => (i =? j)%nat
      | _, _ => false
      end
  | _, _ => false
  end.

(** *** Dictionaries *)

(** [d.get(k)] *)
Fixpoint dict_get (k : pykey) (d : dict) : option pyval :=
  match d with
  | [] => None
  | (k', v) :: d' => if key_eqb k' k then Some v else dict_get k d'
  end.

(** [k in d] *)
Definition dict_mem (k : pykey) (d : dict) : bool :=
  match dict_get k d with
  | Some _ => true
  | None => false
  end.

(** [d[k] = v]: the value of a present key is replaced where it stands,
    a new key goes to the end. *)
Fixpoint dict_set (k : pykey) (v : pyval) (d : dict) : dict :=
  match d with
  | [] => [(k, v)]
  | (k', v') :: d' =>
      if key_eqb k' k then (k', v) :: d' else (k', v') :: dict_set k v d'
  end.

(** [d.pop(k, None)], for its effect on [d]. A dict holds a key once;
    on a list that repeats the key every entry of it goes. *)
Fixpoint dict_pop (k : pykey) (d : dict) : dict :=
  match d with
  | [] => []
  | (k', v) :: d' => if key_eqb k' k then dict_pop k d' else (k', v) :: dict_pop k d'
  end.

(** [d[k]] *)
Definition dict_item (k : string) (d : dict) : result pyval :=
  match dict_get (KStr k) d with
  | Some v => Ok v
  | None => Raise (KeyError k)
  end.

(** *** Equality of values *)

Definition num_of (v : pyval) : option pynum :=
  match v with
  | PyBool b => Some (NInt (if b then 1 else 0))
  | PyInt n => Some (NInt n)
  | PyFloat f => Some (NFloat f)
  | _ => None
  end.

Definition is_nan (v : pyval) : bool :=
  match v with
  | PyFloat FNaN => true
  | _ => false
  end.

(** [x == y] for values that are not containers. *)
Definition scalar_eqb (x y : pyval) : bool :=
  match num_of x, num_of y with
  | Some a, Some b => num_eqb a b
  | None, None =>
      match x, y with
      | PyNone, PyNone => true
      | PyStr a, PyStr b => String.eqb a b
      | PyDatetime a, PyDatetime b => String.eqb a b
      | PyObject _ i, PyObject _ j => (i =? j)%nat
      | _, _ => false
      end
  | _, _ => false
  end.

(** Two sequences are equal when they have the same length and equal
    items, position by position. *)
Definition forall2b {A} (f : A -> A -> bool) : list A -> list A -> bool :=
  fix go (l1 l2 : list A) : bool :=
    match l1, l2 with
    | [], [] => true
    | x :: l1', y :: l2' => f x y && go l1' l2'
    | _, _ => false
    end.

(** [x == y]. The items of two containers are compared the way CPython
    does it: identical objects are equal without asking [==]. The values
    compared by the client all come out of [json.loads], which returns one
    and the same float object for every [NaN] of a text and a fresh object
    for everything else; so with [inside = true] (an item of a container)
    a NaN equals a NaN, and with [inside = false] it does not. *)
Fixpoint py_cmp (inside : bool) (x y : pyval) {struct x} : bool :=
  match x with
  | PyList a =>
      match y with
      | PyList b => forall2b (py_cmp true) a b
      | _ => false
      end
  | PyTuple a =>
      match y with
      | PyTuple b => forall2b (py_cmp true) a b
      | _ => false
      end
  | PyDict a =>
      match y with
      | PyDict b =>
          (length a =? length b)%nat
          && forallb (fun kv => match dict_get (fst kv) b with
                                | Some v => py_cmp true (snd kv) v
                                | None => false
                                end) a
      | _ => false
      end
  | _ => (inside && is_nan x && is_nan y) || scalar_eqb x y
  end.

(** [x == y] between two results of [json.loads]. *)
Definition py_eqb (x y : pyval) : bool := py_cmp false x y.

(** ** JSON

    [json.dumps(v, cls=E)] writes a document or raises [TypeError];
    [json.loads] reads a document back. *)

(** [json.JSONEncoder.default]: the base encoder knows no other type. *)
Definition JSONEncoder_default (obj : pyval) : result string :=
  Raise (TypeError "Object is not JSON serializable").

(** [JSONDateEncoder.default]:
    [obj.isoformat() if isinstance(obj, datetime) else super().default(obj)] *)
Definition JSONDateEncoder_default (obj : pyval) : result string :=
  match obj with
  | PyDatetime iso => Ok iso
  | _ => JSONEncoder_default obj
  end.

(** The text of a key in a JSON object: a [str] as it is, a number, a
    boolean or [None] by its JSON spelling; any other key is refused. *)
Definition json_key `{Python} (k : pykey) : result string :=
  match k with
  | KStr s => Ok s
  | KFloat f => Ok (float_repr f)
  | KBool true => Ok "true"
  | KBool false => Ok "false"
  | KNone => Ok "null"
  | KInt n => Ok (str_of_int n)
  | KObj _ => Raise (TypeError "keys must be str, int, float, bool or None")
  end.

(** [json.dumps(v, cls=E)], where [default] is the hook of the encoder
    class [E]: it receives a value of a type the encoder does not know, and
    the text it returns is written as a string (both encoders of the
    client return a [str] or raise).

    Two limits of the interpreter are left out: [json_dumps] writes every
    [int] and follows every nesting, where CPython 3.11 refuses to write
    an [int] of more than 4300 digits ([ValueError]) and gives up on a
    value nested deeper than its recursion limit allows
    ([RecursionError]). A document [json_dumps] returns for a value inside
    these limits is the one CPython writes; where a property below depends
    on a value being written, it assumes [within_limits] of the value. *)
Fixpoint json_dumps `{Python} (default : pyval -> result string) (v : pyval)
  : result jdoc :=
  match v with
  | PyNone => Ok JNull
  | PyBool b => Ok (JBool b)
  | PyInt n => Ok (JInt n)
  | PyFloat f => Ok (JFloat f)
  | PyStr s => Ok (JStr s)
  | PyList l | PyTuple l => JArr <$> mapM (json_dumps default) l
  | PyDict d =>
      JObj <$> mapM (fun kv => k ← json_key (fst kv);
                               j ← json_dumps default (snd kv);
                               Ok (k, j)) d
  | PyDatetime _ | PyObject _ _ => JStr <$> default v
  end.

(** [json.loads]: an object becomes a [dict] built member by member, so a
    repeated name keeps its first place and its last value. *)
Fixpoint json_loads (j : jdoc) : pyval :=
  match j with
  | JNull => PyNone
  | JBool b => PyBool b
  | JInt n => PyInt n
  | JFloat f => PyFloat f
  | JStr s => PyStr s
  | JArr l => PyList (map json_loads l)
  | JObj ms =>
      PyDict (fold_left (fun d kv => dict_set (KStr (fst kv)) (snd kv) d)
                        (map (fun m => (fst m, json_loads (snd m))) ms) [])
  end.

(** ** [compare_entities] *)

Definition compare_entities `{Python} (e1 e2 : dict) : result bool :=
  try_except
    (let e1_copy := dict_pop (KStr "last_modified") e1 in
     let e2_copy := dict_pop (KStr "last_modified") e2 in
     s1 ← json_dumps JSONDateEncoder_default (PyDict e1_copy);
     let v1 := json_loads s1 in
     s2 ← json_dumps JSONDateEncoder_default (PyDict e2_copy);
     let v2 := json_loads s2 in
     Ok (py_eqb v1 v2))
    (fun _ => Ok false).

(** ** [urllib.parse]: [urlsplit], [urlunsplit] and [urljoin] *)

Record SplitResult := mkSplit {
  scheme : string;
  netloc : string;
  path : string;
  query : string;
  fragment : string
}.

Definition uses_relative : list string :=
  [""; "ftp"; "http"; "gopher"; "nntp"; "imap"; "wais"; "file"; "https";
   "shttp"; "mms"; "prospero"; "rtsp"; "rtspu"; "sftp"; "svn"; "svn+ssh";
   "ws"; "wss"].

Definition uses_netloc : list string :=
  [""; "ftp"; "http"; "gopher"; "nntp"; "telnet"; "imap"; "wais"; "file";
   "mms"; "https"; "shttp"; "snews"; "prospero"; "rtsp"; "rtspu"; "rsync";
   "svn"; "svn+ssh"; "sftp"; "nfs"; "git"; "git+ssh"; "ws"; "wss"].

Definition uses_params : list string :=
  [""; "ftp"; "hdl"; "prospero"; "http"; "imap"; "https"; "shttp"; "rtsp";
   "rtspu"; "sip"; "sips"; "mms"; "sftp"; "tel"].

Definition str_in (s : string) (l : list string) : bool :=
  existsb (String.eqb s) l.

Definition is_ascii_letter (c : ascii) : bool :=
  in_range "a" "z" c || in_range "A" "Z" c.

Definition scheme_char (c : ascii) : bool :=
  is_ascii_letter c || in_range "0" "9" c
  || is_char "+" c || is_char "-" c || is_char "." c.

(** The C0 control characters and the space. *)
Definition c0_control_or_space (c : ascii) : bool := (code c <=? 32)%nat.

(** Tab, carriage return and line feed. *)
Definition unsafe_url_byte (c : ascii) : bool :=
  (code c =? 9)%nat || (code c =? 13)%nat || (code c =? 10)%nat.

Fixpoint remove_chars (p : ascii -> bool) (s : string) : string :=
  match s with
  | EmptyString => EmptyString
  | String c s' => if p c then remove_chars p s' else String c (remove_chars p s')
  end.

Definition nonempty (s : string) : bool := negb (String.eqb s EmptyString).

(** [url[:2] == '//'], and the text after the two slashes. *)
Definition after_two_slashes (url : string) : option string :=
  match url with
  | String "/" (String "/" rest) => Some rest
  | _ => None
  end.

(** [_splitnetloc(url, 2)] on the text after the slashes: the network
    location ends before the first of the three delimiters. *)
Definition splitnetloc (rest : string) : string * string :=
  span (fun c => negb (is_char "/" c || is_char "?" c || is_char "#" c)) rest.

(** [urlsplit(url, scheme)] *)
Definition urlsplit `{Python} (url default_scheme : string) : result SplitResult :=
  let url := lstrip_by c0_control_or_space url in
  let sch := strip_by c0_control_or_space default_scheme in
  let url := remove_chars unsafe_url_byte url in
  let sch := remove_chars unsafe_url_byte sch in
  let '(sch, url) :=
    match cut ":" url with
    | (String c0 _ as head, Some rest) =>
        if is_ascii_letter c0 && forall_chars scheme_char head
        then (lower head, rest)
        else (sch, url)
    | _ => (sch, url)
    end in
  '(loc, url) ←
    match after_two_slashes url with
    | Some rest =>
        let '(loc, url') := splitnetloc rest in
        if (contains "[" loc && negb (contains "]" loc))
           || (contains "]" loc && negb (contains "[" loc))
        then Raise (ValueError "Invalid IPv6 URL")
        else if contains "[" loc && contains "]" loc
                && negb (bracketed_netloc_ok loc)
        then Raise (ValueError "Invalid IPv6 URL")
        else Ok (loc, url')
    | None => Ok (EmptyString, url)
    end;
  let '(url, frag) :=
    match cut "#" url with
    | (head, Some rest) => (head, rest)
    | (_, None) => (url, EmptyString)
    end in
  let '(url, qry) :=
    match cut "?" url with
    | (head, Some rest) => (head, rest)
    | (_, None) => (url, EmptyString)
    end in
  Ok (mkSplit sch loc url qry frag).

(** [urlunsplit((scheme, netloc, url, query, fragment))] *)
Definition urlunsplit (c : SplitResult) : string :=
  let url := path c in
  let url :=
    if nonempty (netloc c)
       || (nonempty (scheme c) && str_in (scheme c) uses_netloc
           && negb (match after_two_slashes url with Some _ => true | None => false end))
    then
      let url := if nonempty url && negb (starts_with "/" url)
                 then "/" +:+ url else url in
      "//" +:+ netloc c +:+ url
    else url in
  let url := if nonempty (scheme c) then scheme c +:+ ":" +:+ url else url in
  let url := if nonempty (query c) then url +:+ "?" +:+ query c else url in
  if nonempty (fragment c) then url +:+ "#" +:+ fragment c else url.

(** The text up to and including the last [c] of [s], and what follows it
    ([None] when [c] does not occur). *)
Fixpoint rcut (c : ascii) (s : string) : option (string * string) :=
  match s with
  | EmptyString => None
  | String a s' =>
      match rcut c s' with
      | Some (h, t) => Some (String a h, t)
      | None => if Ascii.eqb a c then Some (String a EmptyString, s') else None
      end
  end.

(** [_splitparams(url)], called when [url] holds a semicolon: the
    parameters start at the first semicolon of the last path segment. *)
Definition splitparams (url : string) : string * string :=
  match rcut "/" url with
  | Some (h, t) =>
      match cut ";" t with
      | (before, Some params) => (h +:+ before, params)
      | (_, None) => (url, EmptyString)
      end
  | None =>
      match cut ";" url with
      | (before, Some params) => (before, params)
      | (_, None) => (url, EmptyString)
      end
  end.

(** [urlparse(url, scheme)]: the split result and the parameters. *)
Definition urlparse `{Python} (url default_scheme : string)
  : result (SplitResult * string) :=
  r ← urlsplit url default_scheme;
  if str_in (scheme r) uses_params && contains ";" (path r)
  then let '(p, params) := splitparams (path r) in
       Ok (mkSplit (scheme r) (netloc r) p (query r) (fragment r), params)
  else Ok (r, EmptyString).

(** [urlunparse] *)
Definition urlunparse (c : SplitResult) (params : string) : string :=
  let url := if nonempty params then path c +:+ ";" +:+ params else path c in
  urlunsplit (mkSplit (scheme c) (netloc c) url (query c) (fragment c)).

(** [segments[1:-1] = filter(None, segments[1:-1])] *)
Definition filter_middle (segments : list string) : list string :=
  match segments with
  | [] => []
  | first :: rest =>
      match rest with
      | [] => [first]
      | _ => (first :: List.filter nonempty (removelast rest) ++ [List.last rest EmptyString])%list
      end
  end.

(** The loop of [urljoin] over the segments: [..] drops the last segment
    kept so far (if any), [.] is skipped. *)
Definition resolve_segments (segments : list string) : list string :=
  fold_left (fun resolved seg =>
               if String.eqb seg ".." then removelast resolved
               else if String.eqb seg "." then resolved
               else (resolved ++ [seg])%list)
            segments [].

(** [urljoin(base, url)] *)
Definition urljoin `{Python} (base url : string) : result string :=
  if negb (nonempty base) then Ok url
  else if negb (nonempty url) then Ok base
  else
    '(b, bparams) ← urlparse base EmptyString;
    '(u, params) ← urlparse url (scheme b);
    if negb (String.eqb (scheme u) (scheme b)) || negb (str_in (scheme u) uses_relative)
    then Ok url
    else if str_in (scheme u) uses_netloc && nonempty (netloc u)
    then Ok (urlunparse u params)
    else
      let loc := if str_in (scheme u) uses_netloc then netloc b else netloc u in
      if negb (nonempty (path u)) && negb (nonempty params)
      then
        let qry := if nonempty (query u) then query u else query b in
        Ok (urlunparse (mkSplit (scheme u) loc (path b) qry (fragment u)) bparams)
      else
        let base_parts := split "/" (path b) in
        let base_parts :=
          if nonempty (List.last base_parts EmptyString)
          then removelast base_parts else base_parts in
        let segments :=
          if starts_with "/" (path u) then split "/" (path u)
          else filter_middle (base_parts ++ split "/" (path u))%list in
        let resolved := resolve_segments segments in
        let final := List.last segments EmptyString in
        let resolved :=
          if String.eqb final "." || String.eqb final ".."
          then (resolved ++ [EmptyString])%list else resolved in
        let joined := join "/" resolved in
        let joined := if nonempty joined then joined else "/" in
        Ok (urlunparse (mkSplit (scheme u) loc joined (query u) (fragment u)) params).

(** ** The session and the client object *)

(** The part of a [requests.Session] the client configures. *)
Record Session := mkSession {
  auth : option (string * string);
  headers : gmap string string;
  verify : bool;
  session_timeout : option Z
}.

(** The headers of a fresh [requests.Session()]. *)
Definition default_headers : gmap string string :=
  <["User-Agent" := "python-requests"]>
    (<["Accept-Encoding" := "gzip, deflate"]>
       (<["Accept" := "*/*"]> (<["Connection" := "keep-alive"]> ∅))).

(** [requests.Session()] *)
Definition new_session : Session := mkSession None default_headers true None.

Definition set_auth (a : string * string) (s : Session) : Session :=
  mkSession (Some a) (headers s) (verify s) (session_timeout s).
Definition set_header (name value : string) (s : Session) : Session :=
  mkSession (auth s) (<[name := value]> (headers s)) (verify s) (session_timeout s).
Definition set_verify (v : bool) (s : Session) : Session :=
  mkSession (auth s) (headers s) v (session_timeout s).
Definition set_timeout (t : Z) (s : Session) : Session :=
  mkSession (auth s) (headers s) (verify s) (Some t).

Record Zmon := mkZmon {
  timeout : Z;
  base_url : string;
  url : string;
  session : Session;
  user_agent : string
}.

Definition API_VERSION := "v1".
Definition ALERT_DEF := "alert-definitions".
Definition CHECK_DEF := "check-definitions".
Definition ENTITIES := "entities".
Definition GROUPS := "groups".
Definition MEMBER := "member".
Definition SEARCH := "quick-search".

(** [str(p)] *)
Definition str_of `{Python} (p : pyval) : string :=
  match p with
  | PyStr s => s
  | PyInt n => str_of_int n
  | _ => str_other p
  end.

(** [Zmon._join_path]: ['/'.join(str(p).strip('/') for p in parts)] *)
Definition _join_path `{Python} (parts : list pyval) : string :=
  join "/" (map (fun p => strip_by (is_char "/") (str_of p)) parts).

(** [bool(x)] for an optional text argument ([None] or a [str]). *)
Definition given (x : option string) : bool :=
  match x with
  | Some s => nonempty s
  | None => false
  end.

(** [x is None] *)
Definition is_None (x : option string) : bool :=
  match x with
  | None => true
  | Some _ => false
  end.

(** [Zmon.__init__(url, token, username, password, timeout, verify,
    user_agent)]; [token], [username] and [password] are [None] or a
    [str]. *)
Definition __init__ `{Python} (url_arg : string) (token username password : option string)
    (timeout_arg : Z) (verify_arg : bool) (user_agent_arg : string) : result Zmon :=
  split ← urlsplit url_arg EmptyString;
  let base := urlunsplit (mkSplit (scheme split) (netloc split)
                                  EmptyString EmptyString EmptyString) in
  api ← urljoin base (_join_path [PyStr "api"; PyStr API_VERSION; PyStr EmptyString]);
  let s := new_session in
  let s := set_timeout timeout_arg s in
  let s :=
    if given username && given password && is_None token
    then set_auth (default EmptyString username, default EmptyString password) s
    else s in
  let s := set_header "User-Agent" user_agent_arg s in
  let s := set_header "Content-Type" "application/json" s in
  let s :=
    if given token
    then set_header "Authorization" ("Bearer " +:+ default EmptyString token) s
    else s in
  let s := if negb verify_arg then set_verify false s else s in
  Ok (mkZmon timeout_arg base api s user_agent_arg).

(** [Zmon.endpoint], called with the positional segments [args] and the
    keywords [trailing_slash] (default [True]) and [base_url] (default
    [None]) *)
Definition endpoint `{Python} (self : Zmon) (args : list pyval)
    (trailing_slash : bool) (base_url_arg : option string) : result string :=
  let parts := if trailing_slash then (args ++ [PyStr EmptyString])%list else args in
  let base := if given base_url_arg then default EmptyString base_url_arg
              else url self in
  urljoin base (_join_path parts).

(** [Zmon.validate_check_command(src)] *)
Definition validate_check_command `{Python} (src : pyval) : result unit :=
  match ast_parse src with
  | None => Ok tt
  | Some e => Raise (ZmonError ("Invalid check command: " +:+ e))
  end.

(** ** Responses *)

(** [Response.raise_for_status()] *)
Definition raise_for_status (resp : Response) : result unit :=
  if (400 <=? status_code resp) && (status_code resp <? 600)
  then Raise (HTTPError resp)
  else Ok tt.

(** [Response.ok] *)
Definition ok (resp : Response) : bool :=
  match raise_for_status resp with
  | Ok _ => true
  | Raise _ => false
  end.

(** [Response.json()] *)
Definition Response_json `{Python} (resp : Response) : result pyval :=
  match json_decode (text resp) with
  | Some j => Ok (json_loads j)
  | None => Raise JSONDecodeError
  end.

(** [Zmon.json(resp)] *)
Definition json `{Python} (resp : Response) : result pyval :=
  raise_for_status resp;; Response_json resp.

(** ** Requests and the world *)

Inductive verb := GET | PUT | POST | DELETE.

(** A request as the session issues it: the arguments of the call, with
    the headers and the credentials of the session. *)
Record Request := mkRequest {
  method : verb;
  req_url : string;
  req_params : option (gmap string string);
  req_body : option jdoc;
  req_headers : gmap string string;
  req_auth : option (string * string)
}.

(** The heap holds the mappings the caller passes by reference; [sent] is
    the list of requests issued so far, oldest first; [server] is the
    backend: its answer to a request, or the failure of the transport. *)
Record world := mkWorld {
  heap : gmap nat dict;
  sent : list Request;
  server : Request -> result Response
}.

Definition M (A : Type) : Type := world -> result A * world.

#[global] Instance M_ret : MRet M := fun _ a w => (Ok a, w).
#[global] Instance M_bind : MBind M := fun _ _ f m w =>
  match m w with
  | (Ok a, w') => f a w'
  | (Raise e, w') => (Raise e, w')
  end.

(** [raise e] *)
Definition throw {A} (e : exn) : M A := fun w => (Raise e, w).

(** A computation that touches neither the heap nor the network. *)
Definition lift {A} (r : result A) : M A := fun w => (r, w).

(** The mapping behind a reference. *)
Definition deref (l : nat) : M dict := fun w =>
  match heap w !! l with
  | Some d => (Ok d, w)
  | None => (Raise (ValueError "no such object"), w)
  end.

(** [obj[k] = v] on the mapping behind [l]. *)
Definition setitem (l : nat) (k : pykey) (v : pyval) : M unit := fun w =>
  match heap w !! l with
  | Some d => (Ok tt, mkWorld (<[l := dict_set k v d]> (heap w)) (sent w) (server w))
  | None => (Raise (ValueError "no such object"), w)
  end.

(** [session.request(method, url, params=..., data=...)]: the request is
    issued, and the backend answers or the transport fails. *)
Definition session_request (s : Session) (m : verb) (u : string)
    (params : option (gmap string string)) (body : option jdoc) : M Response :=
  fun w =>
    let r := mkRequest m u params body (headers s) (auth s) in
    (server w r, mkWorld (heap w) (sent w ++ [r])%list (server w)).

(** [session.request(method, url, json=obj)]: [requests] encodes [obj]
    with the base encoder while it prepares the request. *)
Definition session_request_json `{Python} (s : Session) (m : verb) (u : string)
    (obj : pyval) : M Response :=
  body ← lift (json_dumps JSONEncoder_default obj);
  session_request s m u None (Some body).

(** ** Resource operations

    The [logged] decorator logs the name of a failing operation and
    re-raises the exception unchanged; it does not appear in the model. *)

Definition has_key (k : string) (d : dict) : bool := dict_mem (KStr k) d.

(** [re] refuses a subject that is not text. *)
Definition entity_id_text (v : pyval) : result string :=
  match v with
  | PyStr s => Ok s
  | _ => Raise (TypeError "expected string or bytes-like object")
  end.

(** [Zmon.add_entity(entity)] *)
Definition add_entity `{Python} (self : Zmon) (entity : dict) : M Response :=
  if negb (has_key "id" entity) || negb (has_key "type" entity)
  then throw (ZmonArgumentError
                ("Entity " +:+ dq +:+ "id" +:+ dq +:+ " and " +:+ dq +:+ "type"
                 +:+ dq +:+ " are required."))
  else
    id ← lift (dict_item "id" entity);
    id_text ← lift (entity_id_text id);
    if negb (is_valid_entity_id id_text)
    then throw (ZmonArgumentError "Invalid entity ID.")
    else
      data ← lift (json_dumps JSONDateEncoder_default (PyDict entity));
      u ← lift (endpoint self [PyStr ENTITIES] false None);
      resp ← session_request (session self) PUT u None (Some data);
      lift (raise_for_status resp);;
      mret resp.

(** [Zmon.get_check_definition(definition_id)] *)
Definition get_check_definition `{Python} (self : Zmon) (definition_id : pyval)
  : M pyval :=
  u ← lift (endpoint self [PyStr CHECK_DEF; definition_id] true None);
  resp ← session_request (session self) GET u None None;
  let resp :=
    if String.eqb (text resp) EmptyString
    then mkResponse 404 "Not Found" (text resp)
    else resp in
  lift (json resp).

(** [Zmon.update_check_definition(check_definition)]; the argument is a
    reference to the caller's mapping. *)
Definition update_check_definition `{Python} (self : Zmon) (check_definition : nat)
  : M pyval :=
  d ← deref check_definition;
  if negb (has_key "owning_team" d)
  then throw (ZmonArgumentError
                ("Check definition must have " +:+ dq +:+ "owning_team" +:+ dq))
  else
    (if negb (has_key "status" d)
     then setitem check_definition (KStr "status") (PyStr "ACTIVE")
     else mret tt);;
    d ← deref check_definition;
    command ← lift (dict_item "command" d);
    lift (validate_check_command command);;
    u ← lift (endpoint self [PyStr CHECK_DEF] true None);
    d ← deref check_definition;
    resp ← session_request_json (session self) POST u (PyDict d);
    lift (json resp).

(** [Zmon.create_alert_definition(alert_definition)] *)
Definition create_alert_definition `{Python} (self : Zmon) (alert_definition : nat)
  : M pyval :=
  d ← deref alert_definition;
  if negb (has_key "last_modified_by" d)
  then throw (ZmonArgumentError
                ("Alert definition must have " +:+ dq +:+ "last_modified_by" +:+ dq))
  else
    (if negb (has_key "status" d)
     then setitem alert_definition (KStr "status") (PyStr "ACTIVE")
     else mret tt);;
    d ← deref alert_definition;
    if negb (has_key "check_definition_id" d)
    then throw (ZmonArgumentError
                  ("Alert defintion must have " +:+ dq +:+ "check_definition_id" +:+ dq))
    else
      u ← lift (endpoint self [PyStr ALERT_DEF] true None);
      resp ← session_request_json (session self) POST u (PyDict d);
      lift (json resp).

(** [Zmon.update_alert_definition(alert_definition)] *)
Definition update_alert_definition `{Python} (self : Zmon) (alert_definition : nat)
  : M pyval :=
  d ← deref alert_definition;
  if negb (has_key "last_modified_by" d)
  then throw (ZmonArgumentError
                ("Alert definition must have " +:+ dq +:+ "last_modified_by" +:+ dq))
  else if negb (has_key "id" d)
  then throw (ZmonArgumentError ("Alert definition must have " +:+ dq +:+ "id" +:+ dq))
  else if negb (has_key "check_definition_id" d)
  then throw (ZmonArgumentError
                ("Alert defintion must have " +:+ dq +:+ "check_definition_id" +:+ dq))
  else
    (if negb (has_key "status" d)
     then setitem alert_definition (KStr "status") (PyStr "ACTIVE")
     else mret tt);;
    d ← deref alert_definition;
    id ← lift (dict_item "id" d);
    u ← lift (endpoint self [PyStr ALERT_DEF; id] true None);
    resp ← session_request_json (session self) PUT u (PyDict d);
    lift (json resp).

(** [type(teams) in (list, tuple)] *)
Definition is_list_or_tuple (v : pyval) : bool :=
  match v with
  | PyList _ | PyTuple _ => true
  | _ => false
  end.

(** [sep.join(v)] for a list or a tuple [v]: every item must be text. *)
Definition str_join (sep : string) (v : pyval) : result string :=
  match v with
  | PyList l | PyTuple l =>
      join sep <$> mapM (fun x => match x with
                                  | PyStr s => Ok s
                                  | _ => Raise (TypeError "sequence item: expected str instance")
                                  end) l
  | _ => Raise (TypeError "can only join an iterable")
  end.

(** [Zmon.search(q, teams=None)]; [q] is text. *)
Definition search `{Python} (self : Zmon) (q : string) (teams : pyval) : M pyval :=
  if negb (nonempty q)
  then throw (ZmonArgumentError "No search query value!")
  else if truthy teams && negb (is_list_or_tuple teams)
  then throw (ZmonArgumentError (dq +:+ "teams" +:+ dq +:+ " should be a list!"))
  else
    let params : gmap string string := {[ "query" := q ]} in
    params ← (if truthy teams
              then joined ← lift (str_join "," teams);
                   mret (<["teams" := joined]> params)
              else mret params);
    u ← lift (endpoint self [PyStr SEARCH] true None);
    resp ← session_request (session self) GET u (Some params) None;
    lift (json resp).

(** [Zmon.add_member(group_name, user_name)]. The source reads the
    attribute [resp.raise_for_status] and drops it: the method is not
    called. *)
Definition add_member `{Python} (self : Zmon) (group_name user_name : pyval) : M bool :=
  u ← lift (endpoint self [PyStr GROUPS; group_name; PyStr MEMBER; user_name] true None);
  resp ← session_request (session self) PUT u None None;
  let _ := fun _ : unit => raise_for_status resp in
  mret (String.eqb (text resp) "1").

(** [Zmon.remove_member(group_name, user_name)] *)
Definition remove_member `{Python} (self : Zmon) (group_name user_name : pyval) : M bool :=
  u ← lift (endpoint self [PyStr GROUPS; group_name; PyStr MEMBER; user_name] true None);
  resp ← session_request (session self) DELETE u None None;
  lift (raise_for_status resp);;
  mret (String.eqb (text resp) "1").

(** [Zmon.delete_entity(entity_id)] *)
Definition delete_entity `{Python} (self : Zmon) (entity_id : pyval) : M bool :=
  u ← lift (endpoint self [PyStr ENTITIES; entity_id] true None);
  resp ← session_request (session self) DELETE u None None;
  lift (raise_for_status resp);;
  mret (String.eqb (text resp) "1").

(** ** The normalisation of an entity id, in the words of the specification

    The lowercased text is read as a sequence of maximal runs of
    characters of one kind: allowed characters, opening parentheses,
    closing parentheses, and other disallowed characters. A run of allowed
    characters is kept, a run of opening parentheses becomes one opening
    bracket, a run of closing parentheses one closing bracket, and any
    other run one hyphen. *)

Inductive char_kind := Allowed | Opening | Closing | Disallowed.

Definition kind_of (c : ascii) : char_kind :=
  if is_char "(" c then Opening
  else if is_char ")" c then Closing
  else if entity_id_char c then Allowed
  else Disallowed.

Definition kind_eqb (a b : char_kind) : bool :=
  match a, b with
  | Allowed, Allowed | Opening, Opening | Closing, Closing
  | Disallowed, Disallowed => true
  | _, _ => false
  end.


Definition rewrite_kind (k : char_kind) (run : string) : string :=
  match k with
  | Allowed => run
  | Opening => "["
  | Closing => "]"
  | Disallowed => "-"
  end.




(** ** Notions used in the statements *)

(** The two passes of [get_valid_entity_id]. *)
Definition paren_sub := re_sub parentheses_re bracket_of.

Definition invalid_sub := re_sub invalid_entity_id_re (fun _ => "-").

(** Whether [s] starts with a character of kind [k]. *)
Definition next_kind_is (k : char_kind) (s : string) : bool :=
  starts_in (fun c => kind_eqb (kind_of c) k) s.

Definition invalid_char (c : ascii) : bool := negb (entity_id_char c).

Definition normalise (t : string) : string := invalid_sub (paren_sub t).


Definition str_key (k : pykey) : bool :=
  match k with
  | KStr _ => true
  | _ => false
  end.

(** The shape of a [dict] read from a JSON object: text keys, no two alike. *)
Definition json_dict (d : dict) : Prop :=
  Forall (fun kv => str_key (fst kv) = true) d /\ NoDup (map fst d).

(** One step of [json.loads] on an object: the next member goes in. *)
Definition add_member_pair (d : dict) (kv : string * pyval) : dict :=
  dict_set (KStr (fst kv)) (snd kv) d.

Definition last_modified : pykey := KStr "last_modified".

(** The document [compare_entities] writes for an entity: the entity
    without its last_modified key. *)
Definition serialised `{Python} (e : dict) : result jdoc :=
  json_dumps JSONDateEncoder_default (PyDict (dict_pop last_modified e)).

(** The request a client issues through its session. *)
Definition the_request (self : Zmon) (m : verb) (u : string)
    (params : option (gmap string string)) (body : option jdoc) : Request :=
  mkRequest m u params body (headers (session self)) (auth (session self)).

(** The world once the request [r] has been issued. *)
Definition after (w : world) (r : Request) : world :=
  mkWorld (heap w) (sent w ++ [r])%list (server w).

Definition status : pykey := KStr "status".

Definition ACTIVE : pyval := PyStr "ACTIVE".

Definition set_heap (h : gmap nat dict) (w : world) : world :=
  mkWorld h (sent w) (server w).

(** What the three operations do once validation is over: the request is
    issued with the mapping as its JSON body, and the answer decoded. *)
Definition submit `{Python} (self : Zmon) (m : verb) (u : result string) (d : dict)
    (w : world) : result pyval * world :=
  match u with
  | Raise e => (Raise e, w)
  | Ok u =>
      match json_dumps JSONEncoder_default (PyDict d) with
      | Raise e => (Raise e, w)
      | Ok body =>
          let r := the_request self m u None (Some body) in
          (match server w r with
           | Ok resp => json resp
           | Raise e => Raise e
           end, after w r)
      end
  end.

(** [if 'status' not in d: d['status'] = 'ACTIVE'], on the mapping and on
    the world that holds it behind [l]. *)
Definition defaulted (d : dict) : dict :=
  if has_key "status" d then d else dict_set status ACTIVE d.

Definition defaulted_world (l : nat) (d : dict) (w : world) : world :=
  if has_key "status" d then w else set_heap (<[l := defaulted d]> (heap w)) w.

Definition argument_error {A} (msg : string) (w : world) : result A * world :=
  (Raise (ZmonArgumentError msg), w).

(** What [add_entity] does once both validator checks have passed. *)
Definition put_entity `{Python} (self : Zmon) (entity : dict) : M Response :=
  data ← lift (json_dumps JSONDateEncoder_default (PyDict entity));
  u ← lift (endpoint self [PyStr ENTITIES] false None);
  resp ← session_request (session self) PUT u None (Some data);
  lift (raise_for_status resp);;
  mret resp.

(** The text of a path segment: [str(p).strip('/')]. *)
Definition segment_text `{Python} (p : pyval) : string :=
  strip_by (is_char "/") (str_of p).

(** The base [endpoint] resolves against: the override when one is given
    (a non-empty text), the API base of the client otherwise. *)
Definition resolution_base (self : Zmon) (override : option string) : string :=
  match override with
  | Some b => if nonempty b then b else url self
  | None => url self
  end.

(** Characters that mean nothing special inside a relative path, and
    those among them that are no slash either. *)
Definition path_char (c : ascii) : bool :=
  (32 <? code c)%nat && negb (is_char "?" c) && negb (is_char "#" c)
  && negb (is_char ":" c) && negb (is_char ";" c).

Definition plain_char (c : ascii) : bool := path_char c && negb (is_char "/" c).

(** A plain segment: not empty, of plain characters, and not a dot
    segment. A plain host: not empty, of plain characters other than
    brackets. *)
Definition plain_segment (s : string) : bool :=
  nonempty s && forall_chars plain_char s
  && negb (String.eqb s ".") && negb (String.eqb s "..").

Definition host_char (c : ascii) : bool :=
  plain_char c && negb (is_char "[" c) && negb (is_char "]" c).

Definition plain_host (h : string) : bool := nonempty h && forall_chars host_char h.

(** Neither of the two dot segments. *)
Definition not_dots (s : string) : bool :=
  negb (String.eqb s "..") && negb (String.eqb s ".").

(** The trailing slash, and the segments with the trailing empty one. *)
Definition slash_if (b : bool) : string := if b then "/" else EmptyString.

Definition with_trailing (ts : bool) (segs : list string) : list string :=
  if ts then (segs ++ [EmptyString])%list else segs.

(** The [params] of a search without and with a team filter. *)
Definition query_only (q : string) : gmap string string := {[ "query" := q ]}.

Definition query_and_teams (q joined : string) : gmap string string :=
  <["teams" := joined]> (query_only q).

(** The response of a backend that answers 404 with no body. *)
Definition not_found : Response := mkResponse 404 "Not Found" EmptyString.

(** ** Further resource operations

    [get_check_definitions] and [get_alert_definitions] call [.get] on the
    decoded answer, which raises an [AttributeError] when the answer is no
    JSON object; [exn] has no such exception, and the two are left out. *)

Definition ALERT_DATA := "status/alert".
Definition DASHBOARD := "dashboard".
Definition DOWNTIME := "downtimes".
Definition GRAFANA := "grafana2-dashboards".
Definition PHONE := "phone".
Definition STATUS := "status".
Definition TOKENS := "onetime-tokens".

Definition ALERT_DETAILS_VIEW_URL := "#/alert-details/".
Definition CHECK_DEF_VIEW_URL := "#/check-definitions/view/".
Definition DASHBOARD_VIEW_URL := "#/dashboards/views/".
Definition GRAFANA_DASHBOARD_URL := "grafana/dashboard/db/".
Definition TOKEN_LOGIN_URL := "tv/".

(** [needle in s] on two texts. *)
Fixpoint is_infix (needle s : string) : bool :=
  String.prefix needle s
  || match s with
     | EmptyString => false
     | String _ s' => is_infix needle s'
     end.

Section Objects.

(** What an object of another type ([PyObject]) answers to [k in obj] and
    to [obj[k]], for a text [k]. *)
Variable object_contains : nat -> string -> result bool.
Variable object_getitem : nat -> string -> result pyval.

(** [k in v] for a text [k]: a key of a mapping, an item of a sequence
    (an object of another type equals no text, as in [py_cmp]), a part of
    a text; a value that is no container refuses the test. The message of
    the [TypeError] is abridged. *)
Definition py_in (k : string) (v : pyval) : result bool :=
  match v with
  | PyDict d => Ok (has_key k d)
  | PyList l | PyTuple l => Ok (existsb (scalar_eqb (PyStr k)) l)
  | PyStr s => Ok (is_infix k s)
  | PyObject _ id => object_contains id k
  | _ => Raise (TypeError "argument is not iterable")
  end.

(** [v[k]] for a text [k]: only a mapping is subscripted by a text; a
    text or a sequence wants an integer, the other values cannot be
    subscripted at all. *)
Definition py_getitem (v : pyval) (k : string) : result pyval :=
  match v with
  | PyDict d => dict_item k d
  | PyObject _ id => object_getitem id k
  | PyStr _ | PyList _ | PyTuple _ =>
      Raise (TypeError "indices must be integers or slices, not str")
  | _ => Raise (TypeError "object is not subscriptable")
  end.

(** [Zmon.grafana_dashboard_url(dashboard)]: the id is
    [dashboard['dashboard']['id']]. *)
Definition grafana_dashboard_url `{Python} (self : Zmon) (dashboard : dict)
  : result string :=
  inner ← dict_item "dashboard" dashboard;
  id ← py_getitem inner "id";
  endpoint self [PyStr GRAFANA_DASHBOARD_URL; id] true (Some (base_url self)).

(** [Zmon.update_grafana_dashboard(grafana_dashboard)]: the [if] and the
    [elif] each read [grafana_dashboard['dashboard']]. *)
Definition update_grafana_dashboard `{Python} (self : Zmon) (grafana_dashboard : dict)
  : M pyval :=
  inner ← lift (dict_item "dashboard" grafana_dashboard);
  has_id ← lift (py_in "id" inner);
  if negb has_id
  then throw (ZmonArgumentError ("Grafana dashboard must have " +:+ dq +:+ "id" +:+ dq))
  else
    inner ← lift (dict_item "dashboard" grafana_dashboard);
    has_title ← lift (py_in "title" inner);
    if negb has_title
    then throw (ZmonArgumentError
                  ("Grafana dashboard must have " +:+ dq +:+ "title" +:+ dq))
    else
      u ← lift (endpoint self [PyStr GRAFANA] true None);
      resp ← session_request_json (session self) POST u (PyDict grafana_dashboard);
      lift (json resp).

End Objects.

(** [Zmon.check_definition_url(check_definition)] *)
Definition check_definition_url `{Python} (self : Zmon) (check_definition : dict)
  : result string :=
  id ← dict_item "id" check_definition;
  endpoint self [PyStr CHECK_DEF_VIEW_URL; id] true (Some (base_url self)).

(** [Zmon.alert_details_url(alert)] *)
Definition alert_details_url `{Python} (self : Zmon) (alert : dict) : result string :=
  id ← dict_item "id" alert;
  endpoint self [PyStr ALERT_DETAILS_VIEW_URL; id] true (Some (base_url self)).

(** [Zmon.dashboard_url(dashboard_id)] *)
Definition dashboard_url `{Python} (self : Zmon) (dashboard_id : pyval) : result string :=
  endpoint self [PyStr DASHBOARD_VIEW_URL; dashboard_id] true (Some (base_url self)).

(** [Zmon.token_login_url(token)] *)
Definition token_login_url `{Python} (self : Zmon) (token : pyval) : result string :=
  endpoint self [PyStr TOKEN_LOGIN_URL; token] true (Some (base_url self)).

(** [Zmon.status()] *)
Definition zmon_status `{Python} (self : Zmon) : M pyval :=
  u ← lift (endpoint self [PyStr STATUS] true None);
  resp ← session_request (session self) GET u None None;
  lift (json resp).

Section JsonText.

(** The text [json.dumps] writes for a document. *)
Variable json_text : jdoc -> string.

(** [Zmon.get_entities(query=None)] *)
Definition get_entities `{Python} (self : Zmon) (query : pyval) : M pyval :=
  query_str ← lift (if truthy query
                    then json_text <$> json_dumps JSONEncoder_default query
                    else Ok EmptyString);
  let params : option (gmap string string) :=
    if truthy query then Some {[ "query" := query_str ]} else None in
  u ← lift (endpoint self [PyStr ENTITIES] true None);
  resp ← session_request (session self) GET u params None;
  lift (json resp).

End JsonText.

(** [Zmon.get_entity(entity_id)] *)
Definition get_entity `{Python} (self : Zmon) (entity_id : pyval) : M pyval :=
  u ← lift (endpoint self [PyStr ENTITIES; entity_id] false None);
  resp ← session_request (session self) GET u None None;
  lift (json resp).

(** [Zmon.get_dashboard(dashboard_id)] *)
Definition get_dashboard `{Python} (self : Zmon) (dashboard_id : pyval) : M pyval :=
  u ← lift (endpoint self [PyStr DASHBOARD; dashboard_id] true None);
  resp ← session_request (session self) GET u None None;
  lift (json resp).

(** [Zmon.update_dashboard(dashboard)]: the branch taken is that of
    ['id' in dashboard and dashboard['id']]. *)
Definition update_dashboard `{Python} (self : Zmon) (dashboard : dict) : M pyval :=
  resp ← (if has_key "id" dashboard
             && truthy (default PyNone (dict_get (KStr "id") dashboard))
          then
            id ← lift (dict_item "id" dashboard);
            u ← lift (endpoint self [PyStr DASHBOARD; id] true None);
            session_request_json (session self) POST u (PyDict dashboard)
          else
            u ← lift (endpoint self [PyStr DASHBOARD] true None);
            session_request_json (session self) POST u (PyDict dashboard));
  lift (raise_for_status resp);;
  lift (json resp).

(** [Zmon.delete_check_definition(check_definition_id)] *)
Definition delete_check_definition `{Python} (self : Zmon) (check_definition_id : pyval)
  : M Response :=
  u ← lift (endpoint self [PyStr CHECK_DEF; check_definition_id] true None);
  resp ← session_request (session self) DELETE u None None;
  lift (raise_for_status resp);;
  mret resp.

(** [Zmon.get_alert_definition(alert_id)] *)
Definition get_alert_definition `{Python} (self : Zmon) (alert_id : pyval) : M pyval :=
  u ← lift (endpoint self [PyStr ALERT_DEF; alert_id] true None);
  resp ← session_request (session self) GET u None None;
  lift (json resp).

(** [Zmon.delete_alert_definition(alert_definition_id)] *)
Definition delete_alert_definition `{Python} (self : Zmon) (alert_definition_id : pyval)
  : M pyval :=
  u ← lift (endpoint self [PyStr ALERT_DEF; alert_definition_id] true None);
  resp ← session_request (session self) DELETE u None None;
  lift (json resp).

(** [Zmon.get_alert_data(alert_id)] *)
Definition get_alert_data `{Python} (self : Zmon) (alert_id : pyval) : M pyval :=
  u ← lift (endpoint self [PyStr ALERT_DATA; alert_id; PyStr "all-entities"] true None);
  resp ← session_request (session self) GET u None None;
  lift (json resp).

(** [Zmon.list_onetime_tokens()] *)
Definition list_onetime_tokens `{Python} (self : Zmon) : M pyval :=
  u ← lift (endpoint self [PyStr TOKENS] true None);
  resp ← session_request (session self) GET u None None;
  lift (json resp).

(** [Zmon.get_onetime_token()]: the body is the empty JSON object. *)
Definition get_onetime_token `{Python} (self : Zmon) : M string :=
  u ← lift (endpoint self [PyStr TOKENS] true None);
  resp ← session_request_json (session self) POST u (PyDict []);
  lift (raise_for_status resp);;
  mret (text resp).

(** [Zmon.get_grafana_dashboard(grafana_dashboard_id)] *)
Definition get_grafana_dashboard `{Python} (self : Zmon) (grafana_dashboard_id : pyval)
  : M pyval :=
  u ← lift (endpoint self [PyStr GRAFANA; grafana_dashboard_id] true None);
  resp ← session_request (session self) GET u None None;
  lift (json resp).

(** [downtime.get(k)] *)
Definition dict_get_or_none (k : string) (d : dict) : pyval :=
  default PyNone (dict_get (KStr k) d).

(** [Zmon.create_downtime(downtime)] *)
Definition create_downtime `{Python} (self : Zmon) (downtime : dict) : M pyval :=
  if negb (truthy (dict_get_or_none "entities" downtime))
  then throw (ZmonArgumentError "At least one entity ID should be specified")
  else if negb (truthy (dict_get_or_none "start_time" downtime))
          || negb (truthy (dict_get_or_none "end_time" downtime))
  then throw (ZmonArgumentError
                ("Downtime must specify " +:+ dq +:+ "start_time" +:+ dq +:+ " and "
                 +:+ dq +:+ "end_time" +:+ dq))
  else
    u ← lift (endpoint self [PyStr DOWNTIME] true None);
    resp ← session_request_json (session self) POST u (PyDict downtime);
    lift (json resp).

(** [Zmon.get_groups()] *)
Definition get_groups `{Python} (self : Zmon) : M pyval :=
  u ← lift (endpoint self [PyStr GROUPS] true None);
  resp ← session_request (session self) GET u None None;
  lift (json resp).

(** [Zmon.switch_active_user(group_name, user_name)]: the second address
    is built after the first answer has been checked. *)
Definition switch_active_user `{Python} (self : Zmon) (group_name user_name : pyval)
  : M bool :=
  u ← lift (endpoint self [PyStr GROUPS; group_name; PyStr "active"] true None);
  resp ← session_request (session self) DELETE u None None;
  (if negb (ok resp) then lift (raise_for_status resp) else mret tt);;
  u ← lift (endpoint self [PyStr GROUPS; group_name; PyStr "active"; user_name] true None);
  resp ← session_request (session self) PUT u None None;
  (if negb (ok resp) then lift (raise_for_status resp) else mret tt);;
  mret (String.eqb (text resp) "1").

(** [Zmon.add_phone(member_email, phone_nr)] *)
Definition add_phone `{Python} (self : Zmon) (member_email phone_nr : pyval) : M bool :=
  u ← lift (endpoint self [PyStr GROUPS; member_email; PyStr PHONE; phone_nr] true None);
  resp ← session_request (session self) PUT u None None;
  lift (raise_for_status resp);;
  mret (String.eqb (text resp) "1").

(** [Zmon.remove_phone(member_email, phone_nr)] *)
Definition remove_phone `{Python} (self : Zmon) (member_email phone_nr : pyval) : M bool :=
  u ← lift (endpoint self [PyStr GROUPS; member_email; PyStr PHONE; phone_nr] true None);
  resp ← session_request (session self) DELETE u None None;
  lift (raise_for_status resp);;
  mret (String.eqb (text resp) "1").

(** [Zmon.set_name(member_email, member_name)] *)
Definition set_name `{Python} (self : Zmon) (member_email member_name : pyval)
  : M Response :=
  u ← lift (endpoint self [PyStr GROUPS; member_email; PyStr PHONE; member_name] true None);
  resp ← session_request (session self) PUT u None None;
  lift (raise_for_status resp);;
  mret resp.

(** ** The command line: [get_client] *)

(** A configuration, as [get_client] reads it: the entries of the file
    that hold a text, and the [verify] entry. *)
Record Config := mkConfig {
  entries : gmap string string;
  verify_entry : option bool
}.

(** The outcome of [get_client]: the client, an exception of the client
    module or of a lookup, or the [RuntimeError] of the command line. *)
Inductive cli_result :=
| Client (z : Zmon)
| ClientError (e : exn)
| RuntimeError (message : string).

Section CommandLine.

(** [zmon_cli.__version__] *)
Variable __version__ : string.

Definition ZMON_USER_AGENT : string := "zmon-client/" +:+ __version__.

(** [Zmon(url, ...)] with the other arguments at their defaults. *)
Definition new_client `{Python} (url_entry : option string)
    (token username password : option string) (verify_arg : bool) : cli_result :=
  match url_entry with
  | None => ClientError (KeyError "url")
  | Some u =>
      match __init__ u token username password 10 verify_arg ZMON_USER_AGENT with
      | Ok z => Client z
      | Raise e => ClientError e
      end
  end.

(** [get_client(config)] *)
Definition get_client `{Python} (config : Config) : cli_result :=
  let verify_arg := default true (verify_entry config) in
  let present k := bool_decide (is_Some (entries config !! k)) in
  if present "user" && present "password"
  then new_client (entries config !! "url") None
         (entries config !! "user") (entries config !! "password") verify_arg
  else if present "token"
  then new_client (entries config !! "url") (entries config !! "token")
         None None verify_arg
  else RuntimeError "Failed to intitialize ZMON client. Invalid configuration!".

End CommandLine.

(** ** Notions used in the further statements *)

(** One exchange with the backend: the request goes out, and [k] reads
    the answer; a failure of the transport is passed on. *)
Definition exchange {A} (self : Zmon) (m : verb) (u : string)
    (params : option (gmap string string)) (body : option jdoc)
    (k : Response -> result A) (w : world) : result A * world :=
  let r := the_request self m u params body in
  (match server w r with
   | Ok resp => k resp
   | Raise e => Raise e
   end, after w r).

(** What an operation that calls [raise_for_status] makes of the answer:
    the error of a response with a status from 400 to 599, the value
    [value] reads off any other response. *)
Definition checked {A} (value : Response -> A) (resp : Response) : result A :=
  if ok resp then Ok (value resp) else Raise (HTTPError resp).

(** [resp.text == '1'] *)
Definition is_one (resp : Response) : bool := String.eqb (text resp) "1".

(** The operation [op] sends one request without parameters to the
    endpoint of the segments [args], and checks the status of the answer. *)
Definition checks_status {A} `{Python} (self : Zmon) (m : verb) (args : list pyval)
    (body : option jdoc) (value : Response -> A) (op : M A) : Prop :=
  forall w u,
    endpoint self args true None = Ok u ->
    op w = exchange self m u None body (checked value) w.

(** A client whose API base is [https://h/api/v1/], for a plain host [h]. *)
Definition api_client (self : Zmon) (h : string) : Prop :=
  url self = "https://" +:+ h +:+ "/api/v1/" /\ plain_host h = true.

(** An argument whose text is a plain path segment. *)
Definition plain_arg `{Python} (v : pyval) : Prop :=
  plain_segment (segment_text v) = true.

(** The operation [op] is one exchange: the request [m] to the address
    [u], without parameters, and the answer read by [k]. *)
Definition one_exchange {A} (self : Zmon) (op : M A) (m : verb) (u : string)
    (k : Response -> result A) : Prop :=
  forall w, op w = exchange self m u None None k w.

(** The three characters that end the network location of a URL. *)
Definition netloc_end (c : ascii) : bool :=
  is_char "/" c || is_char "?" c || is_char "#" c.

(** A client whose base is [https://h], for a plain host [h]. *)
Definition web_client (self : Zmon) (h : string) : Prop :=
  base_url self = "https://" +:+ h /\ plain_host h = true.

(** The values [json.loads] returns: [None], booleans, numbers, texts,
    lists of such values, and mappings with text keys, no two alike, to
    such values. *)
#[local] Unset Elimination Schemes.
Inductive json_value : pyval -> Prop :=
| json_none : json_value PyNone
| json_bool b : json_value (PyBool b)
| json_int n : json_value (PyInt n)
| json_float f : json_value (PyFloat f)
| json_str s : json_value (PyStr s)
| json_list l : Forall json_value l -> json_value (PyList l)
| json_mapping d :
    json_dict d -> Forall (fun kv => json_value (snd kv)) d -> json_value (PyDict d).
#[local] Set Elimination Schemes.








(** The session [Zmon.__init__] configures. *)
Definition configured_session (token username password : option string)
    (timeout_arg : Z) (verify_arg : bool) (user_agent_arg : string) : Session :=
  let s := set_timeout timeout_arg new_session in
  let s :=
    if given username && given password && is_None token
    then set_auth (default EmptyString username, default EmptyString password) s
    else s in
  let s := set_header "User-Agent" user_agent_arg s in
  let s := set_header "Content-Type" "application/json" s in
  let s :=
    if given token
    then set_header "Authorization" ("Bearer " +:+ default EmptyString token) s
    else s in
  if negb verify_arg then set_verify false s else s.

(** The operation [op] issues [n] requests, one after the other, behind
    those issued before; it may issue fewer only when it raises. So a call
    that returns has issued exactly [n] requests, and a call that raises
    at most [n]. *)
Definition issues {A} (n : nat) (op : M A) : Prop :=
  forall w, exists rs,
    sent (snd (op w)) = (sent w ++ rs)%list
    /\ (length rs = n \/ ((length rs < n)%nat /\ exists e, fst (op w) = Raise e)).

(** A character [str.lower] leaves as it is. *)
Definition lowered (c : ascii) : bool := Ascii.eqb (lower_char c) c.

(** The comparison of one mapping against another, entry by entry: every
    key of [a] is a key of [b], with an equal value. *)
Definition entries_match (a b : dict) : bool :=
  forallb (fun kv => match dict_get (fst kv) b with
                     | Some v => py_cmp true (snd kv) v
                     | None => false
                     end) a.

(** ** Sample environment

    A small interpreter instance, a client and a backend, on which the
    statements below are exercised. *)

Definition sample_python : Python := {|
  float_repr := fun f =>
    match f with
    | FNaN => "nan"
    | FInf false => "inf"
    | FInf true => "-inf"
    | FFin m e => str_of_int m +:+ "p" +:+ str_of_int e
    end;
  ast_parse := fun src =>
    match src with
    | PyStr s =>
        if String.eqb s "1 +" then Some "invalid syntax (<unknown>, line 1)"
        else None
    | _ => Some "compile() arg 1 must be a string, bytes or AST object"
    end;
  json_decode := fun s =>
    if String.eqb s "{}" then Some (JObj [])
    else if String.eqb s "null" then Some JNull
    else if String.eqb s "1" then Some (JInt 1)
    else None;
  bracketed_netloc_ok := fun _ => true;
  str_other := fun _ => "object"
|}.

(** The client [Zmon('https://zmon.example/', user_agent='zmon-client')]. *)
Definition sample_client : Zmon :=
  mkZmon 10 "https://zmon.example" "https://zmon.example/api/v1/"
    (set_header "Content-Type" "application/json"
       (set_header "User-Agent" "zmon-client" (set_timeout 10 new_session)))
    "zmon-client".

(** The client [Zmon('https://zmon.example/', token='s3cr3t',
    username='user', password='pass', user_agent='zmon-client')]. *)
Definition token_client : Zmon :=
  mkZmon 10 "https://zmon.example" "https://zmon.example/api/v1/"
    (set_header "Authorization" "Bearer s3cr3t"
       (set_header "Content-Type" "application/json"
          (set_header "User-Agent" "zmon-client" (set_timeout 10 new_session))))
    "zmon-client".

(** A world with an empty heap and no request issued, whose backend gives
    the same answer to every request. *)
Definition answering (resp : Response) : world :=
  mkWorld ∅ [] (fun _ => Ok resp).

(** The same, with one mapping of the caller at reference [0]. *)
Definition holding (d : dict) (resp : Response) : world :=
  mkWorld {[ 0%nat := d ]} [] (fun _ => Ok resp).

(* ================================================================== *)
(** * Part II: properties                                              *)
(* ================================================================== *)

(** ** Text *)

Lemma re_sub_clause p repl c s x (e : re_match_at p (String c s) = x) :
  re_sub_unfold_clause_2 p repl c s (exist _ x e) =
  match x with
  | Some (m, rest) => repl m +:+ re_sub p repl rest
  | None => String c (re_sub p repl s)
  end.
Proof. destruct x as [[m rest]|]; reflexivity. Qed.

(** The defining equation of [re_sub] on a non-empty subject. *)
Lemma re_sub_cons p repl c s :
  re_sub p repl (String c s) =
  match re_match_at p (String c s) with
  | Some (m, rest) => repl m +:+ re_sub p repl rest
  | None => String c (re_sub p repl s)
  end.
Proof. rewrite re_sub_equation_2. apply re_sub_clause. Qed.

Lemma span_no_start cls s : starts_in cls s = false -> span cls s = (EmptyString, s).
Proof. destruct s as [|c s]; simpl; [reflexivity|]. intros ->. reflexivity. Qed.

Lemma span_start cls c s :
  cls c = true ->
  span cls (String c s) = (String c (fst (span cls s)), snd (span cls s)).
Proof. intros Hc. simpl. rewrite Hc. destruct (span cls s); reflexivity. Qed.

Lemma span_inside cls s : forall_chars cls (fst (span cls s)) = true.
Proof.
  induction s as [|c s IH]; simpl; [reflexivity|].
  destruct (cls c) eqn:Hc; [|reflexivity].
  destruct (span cls s); simpl in *. rewrite Hc. exact IH.
Qed.

(** Substitution of a constant for the runs of one class, one character
    at a time: a character of the class is absorbed by the run that
    follows it, or starts the last run. *)
Lemma re_sub_class_cons cls (r : string -> string) c s :
  (forall m m', r m = r m') ->
  re_sub [cls] r (String c s) =
  if cls c
  then if starts_in cls s then re_sub [cls] r s
       else r EmptyString +:+ re_sub [cls] r s
  else String c (re_sub [cls] r s).
Proof.
  intros Hr. rewrite re_sub_cons. cbn [re_match_at].
  destruct (cls c) eqn:Hc; [|reflexivity].
  rewrite (span_start _ _ _ Hc).
  destruct s as [|c' s']; [cbn; apply f_equal2; [apply Hr|reflexivity]|].
  cbn [starts_in]. destruct (cls c') eqn:Hc'.
  - rewrite re_sub_cons. cbn [re_match_at]. rewrite Hc'.
    rewrite (span_start _ _ _ Hc'). cbn [fst snd].
    f_equal. apply Hr.
  - rewrite span_no_start by exact Hc'. cbn [fst snd]. f_equal. apply Hr.
Qed.

(** ** Entity ids *)

Lemma is_char_eq a c : is_char a c = true -> c = a.
Proof. unfold is_char. intros H. apply Ascii.eqb_eq in H. congruence. Qed.

Lemma kind_of_cases c :
  (kind_of c = Opening /\ c = "("%char)
  \/ (kind_of c = Closing /\ c = ")"%char)
  \/ (kind_of c = Allowed /\ is_char "(" c = false /\ is_char ")" c = false
      /\ entity_id_char c = true)
  \/ (kind_of c = Disallowed /\ is_char "(" c = false /\ is_char ")" c = false
      /\ entity_id_char c = false).
Proof.
  unfold kind_of.
  destruct (is_char "(" c) eqn:Ho; [left; split; [reflexivity|now apply is_char_eq]|].
  destruct (is_char ")" c) eqn:Hc; [right; left; split; [reflexivity|now apply is_char_eq]|].
  destruct (entity_id_char c); [right; right; left|right; right; right]; auto.
Qed.

Lemma contains_closing m :
  forall_chars (is_char ")") m = true -> contains "(" m = false.
Proof.
  induction m as [|a m IH]; cbn [forall_chars contains]; [reflexivity|].
  intros H. apply andb_true_iff in H as [Ha Hm].
  apply is_char_eq in Ha. subst a. rewrite (IH Hm). reflexivity.
Qed.

Lemma next_kind_opening t : next_kind_is Opening t = starts_in (is_char "(") t.
Proof.
  destruct t as [|c t]; [reflexivity|]. cbn [next_kind_is starts_in].
  destruct (kind_of_cases c) as [[-> ->]|[[-> ->]|[[-> (Ho & Hc & _)]|[-> (Ho & Hc & _)]]]];
    cbn [kind_eqb]; try rewrite Ho; reflexivity.
Qed.

Lemma next_kind_closing t : next_kind_is Closing t = starts_in (is_char ")") t.
Proof.
  destruct t as [|c t]; [reflexivity|]. cbn [next_kind_is starts_in].
  destruct (kind_of_cases c) as [[-> ->]|[[-> ->]|[[-> (Ho & Hc & _)]|[-> (Ho & Hc & _)]]]];
    cbn [kind_eqb]; try rewrite Hc; reflexivity.
Qed.

Lemma next_kind_disallowed t :
  next_kind_is Disallowed t
  = starts_in (fun c => negb (entity_id_char c) && negb (is_char "(" c) && negb (is_char ")" c)) t.
Proof.
  destruct t as [|c t]; [reflexivity|]. cbn [next_kind_is starts_in].
  destruct (kind_of_cases c) as [[-> ->]|[[-> ->]|[[-> (Ho & Hc & Hv)]|[-> (Ho & Hc & Hv)]]]];
    cbn [kind_eqb]; try rewrite Ho, Hc, Hv; reflexivity.
Qed.

Lemma bracket_of_opening m : bracket_of (String "(" m) = "[".
Proof. reflexivity. Qed.

Lemma bracket_of_closing m :
  forall_chars (is_char ")") m = true -> bracket_of m = "]".
Proof. intros H. unfold bracket_of. rewrite (contains_closing _ H). reflexivity. Qed.

Lemma paren_sub_cons c t :
  paren_sub (String c t) =
  match kind_of c with
  | Opening => if next_kind_is Opening t then paren_sub t else String "[" (paren_sub t)
  | Closing => if next_kind_is Closing t then paren_sub t else String "]" (paren_sub t)
  | _ => String c (paren_sub t)
  end.
Proof.
  unfold paren_sub. rewrite re_sub_cons.
  destruct (kind_of_cases c) as [[-> ->]|[[-> ->]|[[-> (Ho & Hc & _)]|[-> (Ho & Hc & _)]]]].
  - rewrite next_kind_opening.
    change (re_match_at parentheses_re (String "(" t))
      with (Some (span (is_char "(") (String "(" t))).
    rewrite span_start by reflexivity. rewrite bracket_of_opening.
    destruct t as [|c' t']; [reflexivity|]. cbn [starts_in].
    destruct (is_char "(" c') eqn:Hc'.
    + apply is_char_eq in Hc'. subst c'. rewrite re_sub_cons.
      change (re_match_at parentheses_re (String "(" t'))
        with (Some (span (is_char "(") (String "(" t'))).
      rewrite span_start by reflexivity. reflexivity.
    + rewrite span_no_start by exact Hc'. reflexivity.
  - rewrite next_kind_closing.
    change (re_match_at parentheses_re (String ")" t))
      with (Some (span (is_char ")") (String ")" t))).
    pose proof (span_inside (is_char ")") (String ")" t)) as Hin.
    rewrite span_start in * by reflexivity. cbn [fst snd] in *.
    rewrite (bracket_of_closing _ Hin).
    destruct t as [|c' t']; [reflexivity|]. cbn [starts_in].
    destruct (is_char ")" c') eqn:Hc'.
    + apply is_char_eq in Hc'. subst c'. rewrite re_sub_cons.
      change (re_match_at parentheses_re (String ")" t'))
        with (Some (span (is_char ")") (String ")" t'))).
      pose proof (span_inside (is_char ")") (String ")" t')) as Hin'.
      rewrite span_start in * by reflexivity. cbn [fst snd] in *.
      rewrite (bracket_of_closing _ Hin'). reflexivity.
    + rewrite span_no_start by exact Hc'. reflexivity.
  - cbn [re_match_at parentheses_re]. rewrite Ho, Hc. reflexivity.
  - cbn [re_match_at parentheses_re]. rewrite Ho, Hc. reflexivity.
Qed.

Lemma invalid_sub_cons c x :
  invalid_sub (String c x) =
  if invalid_char c
  then if starts_in invalid_char x then invalid_sub x else String "-" (invalid_sub x)
  else String c (invalid_sub x).
Proof.
  unfold invalid_sub, invalid_entity_id_re.
  rewrite (re_sub_class_cons _ (fun _ => "-")) by reflexivity. reflexivity.
Qed.

(** The first character of the text after the parentheses are rewritten
    is disallowed exactly when the first character before was, and was no
    parenthesis. *)
Lemma paren_sub_start t :
  starts_in invalid_char (paren_sub t) = next_kind_is Disallowed t.
Proof.
  induction t as [|c t IH]; [reflexivity|].
  rewrite paren_sub_cons. cbn [next_kind_is starts_in].
  destruct (kind_of_cases c) as [[-> ->]|[[-> ->]|[[-> (Ho & Hc & Hv)]|[-> (Ho & Hc & Hv)]]]];
    cbn [kind_eqb].
  - destruct (next_kind_is Opening t) eqn:Hn; [|reflexivity].
    rewrite IH. destruct t as [|c' t']; [reflexivity|].
    cbn [next_kind_is starts_in] in *. destruct (kind_of c'); cbn in *; congruence.
  - destruct (next_kind_is Closing t) eqn:Hn; [|reflexivity].
    rewrite IH. destruct t as [|c' t']; [reflexivity|].
    cbn [next_kind_is starts_in] in *. destruct (kind_of c'); cbn in *; congruence.
  - cbn [starts_in]. unfold invalid_char. rewrite Hv. reflexivity.
  - cbn [starts_in]. unfold invalid_char. rewrite Hv. reflexivity.
Qed.

Lemma normalise_cons c t :
  normalise (String c t) =
  match kind_of c with
  | Allowed => String c (normalise t)
  | k => if next_kind_is k t then normalise t
         else rewrite_kind k EmptyString +:+ normalise t
  end.
Proof.
  unfold normalise. rewrite paren_sub_cons.
  destruct (kind_of_cases c) as [[-> ->]|[[-> ->]|[[-> (Ho & Hc & Hv)]|[-> (Ho & Hc & Hv)]]]].
  - destruct (next_kind_is Opening t); [reflexivity|].
    rewrite invalid_sub_cons. reflexivity.
  - destruct (next_kind_is Closing t); [reflexivity|].
    rewrite invalid_sub_cons. reflexivity.
  - rewrite invalid_sub_cons. unfold invalid_char. rewrite Hv. reflexivity.
  - rewrite invalid_sub_cons. unfold invalid_char at 1. rewrite Hv. cbn [negb].
    rewrite paren_sub_start. reflexivity.
Qed.




Lemma is_valid_entity_id_chars s :
  is_valid_entity_id s = forall_chars entity_id_char s.
Proof.
  unfold is_valid_entity_id, invalid_entity_id_re.
  induction s as [|c s IH]; [reflexivity|].
  cbn [re_search re_match_at forall_chars].
  destruct (entity_id_char c) eqn:Hc; cbn [negb andb].
  - exact IH.
  - destruct (span _ _). reflexivity.
Qed.

Lemma append_chars p a b :
  forall_chars p (a +:+ b) = forall_chars p a && forall_chars p b.
Proof.
  induction a as [|x a IH]; [reflexivity|].
  change (forall_chars p (String x a +:+ b)) with (p x && forall_chars p (a +:+ b)).
  rewrite IH. cbn [forall_chars]. now rewrite andb_assoc.
Qed.

Lemma invalid_sub_valid x : forall_chars entity_id_char (invalid_sub x) = true.
Proof.
  induction x as [|c x IH]; [reflexivity|].
  rewrite invalid_sub_cons. unfold invalid_char at 1.
  destruct (entity_id_char c) eqn:Hc; cbn [negb].
  - cbn [forall_chars]. now rewrite Hc, IH.
  - destruct (starts_in invalid_char x); [exact IH|].
    cbn [forall_chars]. rewrite IH. reflexivity.
Qed.


(** ** JSON documents and the values read from them *)

Section JdocInduction.
Variable P : jdoc -> Prop.
Hypothesis HNull : P JNull.
Hypothesis HBool : forall b, P (JBool b).
Hypothesis HInt : forall n, P (JInt n).
Hypothesis HFloat : forall f, P (JFloat f).
Hypothesis HStr : forall s, P (JStr s).
Hypothesis HArr : forall l, Forall P l -> P (JArr l).
Hypothesis HObj : forall ms, Forall (fun m => P (snd m)) ms -> P (JObj ms).

Fixpoint jdoc_ind (j : jdoc) : P j :=
  match j with
  | JNull => HNull
  | JBool b => HBool b
  | JInt n => HInt n
  | JFloat f => HFloat f
  | JStr s => HStr s
  | JArr l =>
      HArr l ((fix go (l : list jdoc) : Forall P l :=
                 match l with
                 | [] => @List.Forall_nil _ P
                 | x :: xs => @List.Forall_cons _ _ x xs (jdoc_ind x) (go xs)
                 end) l)
  | JObj ms =>
      HObj ms ((fix go (ms : list (string * jdoc)) : Forall (fun m => P (snd m)) ms :=
                  match ms with
                  | [] => @List.Forall_nil _ _
                  | m :: ms' => @List.Forall_cons _ _ m ms' (jdoc_ind (snd m)) (go ms')
                  end) ms)
  end.
End JdocInduction.

Lemma key_eqb_str k s : key_eqb k (KStr s) = true -> k = KStr s.
Proof.
  destruct k as [| | | |s'|]; cbn; try discriminate.
  intros H. apply String.eqb_eq in H. now subst.
Qed.

Lemma key_eqb_str_refl s : key_eqb (KStr s) (KStr s) = true.
Proof. cbn. apply String.eqb_refl. Qed.

Lemma dict_set_keys s v d :
  map fst (dict_set (KStr s) v d) =
  if dict_mem (KStr s) d then map fst d else (map fst d ++ [KStr s])%list.
Proof.
  unfold dict_mem. induction d as [|[k' v'] d IH]; [reflexivity|].
  cbn [dict_set dict_get]. destruct (key_eqb k' (KStr s)) eqn:Hk; [reflexivity|].
  cbn [map fst]. rewrite IH. destruct (dict_get (KStr s) d); reflexivity.
Qed.

Lemma dict_get_in k d v : dict_get k d = Some v -> exists k', In (k', v) d /\ key_eqb k' k = true.
Proof.
  induction d as [|[k' v'] d IH]; [discriminate|]. cbn [dict_get].
  destruct (key_eqb k' k) eqn:Hk.
  - intros [= ->]. exists k'. split; [now left|assumption].
  - intros H. destruct (IH H) as (k'' & Hin & Hk''). exists k''. split; [now right|assumption].
Qed.

Lemma dict_get_none_str s d : dict_get (KStr s) d = None -> ~ In (KStr s) (map fst d).
Proof.
  induction d as [|[k' v'] d IH]; [intros _ []|]. cbn [dict_get].
  destruct (key_eqb k' (KStr s)) eqn:Hk; [discriminate|].
  intros H [Heq|Hin]; [|exact (IH H Hin)].
  cbn in Heq. subst k'. rewrite key_eqb_str_refl in Hk. discriminate.
Qed.

Lemma dict_set_values (Q : pyval -> Prop) k v d :
  Q v -> Forall (fun kv => Q (snd kv)) d ->
  Forall (fun kv => Q (snd kv)) (dict_set k v d).
Proof.
  intros Hv. induction d as [|[k' v'] d IH]; intros Hd.
  - constructor; [exact Hv|constructor].
  - cbn [dict_set]. inversion Hd as [|? ? Hh Ht]; subst.
    destruct (key_eqb k' k); constructor; auto.
Qed.

Lemma dict_set_json_dict s v d : json_dict d -> json_dict (dict_set (KStr s) v d).
Proof.
  intros [Hkeys Hnd]. split.
  - clear Hnd. induction d as [|[k' v'] d IH].
    + constructor; [reflexivity|constructor].
    + cbn [dict_set]. inversion Hkeys; subst.
      destruct (key_eqb k' (KStr s)); constructor; auto.
  - rewrite dict_set_keys. unfold dict_mem.
    destruct (dict_get (KStr s) d) eqn:Hg; [exact Hnd|].
    apply NoDup_app. split; [exact Hnd|]. split.
    + intros x Hx Hx'. apply list_elem_of_In in Hx, Hx'.
      destruct Hx' as [<-|[]]. exact (dict_get_none_str _ _ Hg Hx).
    + apply NoDup_singleton.
Qed.

Lemma json_loads_obj ms :
  json_loads (JObj ms) =
  PyDict (fold_left add_member_pair (map (fun m => (fst m, json_loads (snd m))) ms) []).
Proof. reflexivity. Qed.

Lemma fold_json_dict ps acc :
  json_dict acc -> json_dict (fold_left add_member_pair ps acc).
Proof.
  revert acc. induction ps as [|p ps IH]; intros acc Hacc; [exact Hacc|].
  cbn [fold_left]. apply IH. apply dict_set_json_dict. exact Hacc.
Qed.

Lemma fold_values (Q : pyval -> Prop) ps acc :
  Forall (fun p => Q (snd p)) ps ->
  Forall (fun kv => Q (snd kv)) acc ->
  Forall (fun kv => Q (snd kv)) (fold_left add_member_pair ps acc).
Proof.
  revert acc. induction ps as [|p ps IH]; intros acc Hps Hacc; [exact Hacc|].
  inversion Hps; subst. cbn [fold_left]. apply IH; [assumption|].
  apply dict_set_values; assumption.
Qed.

(** In a dict read from JSON, every entry is the one its key finds. *)
Lemma dict_get_self d k v : json_dict d -> In (k, v) d -> dict_get k d = Some v.
Proof.
  intros [Hkeys Hnd]. induction d as [|[k' v'] d IH]; [intros []|].
  inversion Hkeys as [|? ? Hk' Hkeys']; subst. cbn [map fst] in Hnd.
  apply NoDup_cons in Hnd as [Hnotin Hnd]. cbn [fst] in Hk'.
  destruct k' as [| | | |s'|]; try discriminate.
  intros [Heq|Hin]; cbn [dict_get].
  - injection Heq as <- <-. rewrite key_eqb_str_refl. reflexivity.
  - destruct (key_eqb (KStr s') k) eqn:Hk.
    + exfalso. apply Hnotin. apply list_elem_of_In.
      assert (k = KStr s') as ->.
      { destruct k; cbn in Hk; try discriminate.
        apply String.eqb_eq in Hk. now subst. }
      apply (in_map fst) in Hin. exact Hin.
    + apply IH; assumption.
Qed.

Lemma forall2b_refl {A} (f : A -> A -> bool) l :
  Forall (fun v => f v v = true) l -> forall2b f l l = true.
Proof.
  induction 1 as [|x l Hx _ IH]; [reflexivity|]. cbn. now rewrite Hx, IH.
Qed.

Lemma dict_cmp_refl inside d :
  json_dict d ->
  Forall (fun kv => py_cmp true (snd kv) (snd kv) = true) d ->
  py_cmp inside (PyDict d) (PyDict d) = true.
Proof.
  intros Hd Hvals. cbn [py_cmp]. rewrite Nat.eqb_refl. cbn [andb].
  apply forallb_forall. intros [k v] Hin. cbn [fst snd].
  rewrite (dict_get_self d k v Hd Hin).
  rewrite Forall_forall in Hvals. apply (Hvals (k, v)).
  apply list_elem_of_In. exact Hin.
Qed.

Lemma fin_eqb_refl m e : fin_eqb m e m e = true.
Proof. unfold fin_eqb. apply Z.eqb_refl. Qed.

(** A value read from a JSON document equals itself as an item of a
    container. *)
Lemma json_loads_cmp_refl j : py_cmp true (json_loads j) (json_loads j) = true.
Proof.
  induction j as [| b | n | f | s | l IH | ms IH] using jdoc_ind.
  - reflexivity.
  - cbn. apply Z.eqb_refl.
  - cbn. apply Z.eqb_refl.
  - destruct f as [|neg|m e]; cbn.
    + reflexivity.
    + now destruct neg.
    + apply fin_eqb_refl.
  - cbn. apply String.eqb_refl.
  - cbn [json_loads py_cmp]. apply forall2b_refl.
    induction IH; constructor; assumption.
  - rewrite json_loads_obj. apply dict_cmp_refl.
    + apply fold_json_dict. split; constructor.
    + apply (fold_values (fun v => py_cmp true v v = true)); [|constructor].
      induction IH; constructor; assumption.
Qed.

Lemma json_dumps_dict `{Python} dflt d j :
  json_dumps dflt (PyDict d) = Ok j -> exists ms, j = JObj ms.
Proof.
  cbn [json_dumps]. destruct (mapM _ d) as [ms|e]; cbn; [|discriminate].
  intros [= <-]. eauto.
Qed.

Lemma json_loads_dict_refl ms : py_eqb (json_loads (JObj ms)) (json_loads (JObj ms)) = true.
Proof.
  pose proof (json_loads_cmp_refl (JObj ms)) as H.
  rewrite json_loads_obj in *. exact H.
Qed.

Lemma compare_entities_unfold `{Python} e1 e2 :
  compare_entities e1 e2 =
  match serialised e1, serialised e2 with
  | Ok s1, Ok s2 => Ok (py_eqb (json_loads s1) (json_loads s2))
  | _, _ => Ok false
  end.
Proof.
  unfold compare_entities, serialised, last_modified.
  destruct (json_dumps _ (PyDict (dict_pop _ e1))) as [s1|x1]; [|reflexivity].
  destruct (json_dumps _ (PyDict (dict_pop _ e2))) as [s2|x2]; reflexivity.
Qed.

Lemma dict_pop_set s v d :
  dict_pop (KStr s) (dict_set (KStr s) v d) = dict_pop (KStr s) d.
Proof.
  induction d as [|[k' v'] d IH].
  - cbn [dict_set dict_pop]. now rewrite key_eqb_str_refl.
  - cbn [dict_set dict_pop]. destruct (key_eqb k' (KStr s)) eqn:Hk;
      cbn [dict_pop]; rewrite Hk; [reflexivity|]. now rewrite IH.
Qed.

(** C4, as amended. [compare_entities] never raises: it always returns a
    boolean. It returns false whenever the JSON serialization of either
    argument, taken without its last_modified key, fails. Comparing a
    mapping with itself gives true exactly when the mapping without
    last_modified serializes. The result depends only on the two
    mappings without their last_modified keys: mappings that are
    identical except for that key compare as the mapping compares with
    itself, whatever the values under that key. *)
Theorem compare_entities_properties `{Python} :
  (forall e1 e2, exists b, compare_entities e1 e2 = Ok b)
  /\ (forall e1 e2 x,
        serialised e1 = Raise x \/ serialised e2 = Raise x ->
        compare_entities e1 e2 = Ok false)
  /\ (forall e, compare_entities e e = Ok true <-> exists j, serialised e = Ok j)
  /\ (forall e1 e2,
        dict_pop last_modified e1 = dict_pop last_modified e2 ->
        compare_entities e1 e2 = compare_entities e1 e1)
  /\ (forall e v v',
        compare_entities (dict_set last_modified v e) (dict_set last_modified v' e)
        = compare_entities e e
        /\ compare_entities e (dict_set last_modified v e) = compare_entities e e).
Proof.
  assert (Hpop : forall e1 e2,
             dict_pop last_modified e1 = dict_pop last_modified e2 ->
             compare_entities e1 e2 = compare_entities e1 e1).
  { intros e1 e2 Heq. rewrite !compare_entities_unfold. unfold serialised.
    now rewrite Heq. }
  split; [|split; [|split; [|split]]].
  - intros e1 e2. rewrite compare_entities_unfold.
    destruct (serialised e1), (serialised e2); eauto.
  - intros e1 e2 x [Hx|Hx]; rewrite compare_entities_unfold, Hx;
      [reflexivity|destruct (serialised e1); reflexivity].
  - intros e. split.
    + rewrite compare_entities_unfold.
      destruct (serialised e) as [j|x]; [eauto|discriminate].
    + intros [j Hj]. rewrite compare_entities_unfold, Hj.
      destruct (json_dumps_dict _ _ _ Hj) as [ms ->].
      now rewrite json_loads_dict_refl.
  - exact Hpop.
  - intros e v v'. rewrite !compare_entities_unfold.
    unfold serialised, last_modified. now rewrite !dict_pop_set.
Qed.

(** C4, as stated, fails: a mapping holding a value that JSON cannot
    write (here an object of an unknown type under the key tags) does
    not compare equal to itself. *)
Lemma compare_entities_not_reflexive :
  let e := [(KStr "id", PyStr "host-1"); (KStr "tags", PyObject true 0)] in
  @compare_entities sample_python e e = Ok false.
Proof. reflexivity. Qed.

(** ** The resource operations *)

Example init_sample :
  @__init__ sample_python "https://zmon.example/" None None None 10 true "zmon-client"
  = Ok sample_client.
Proof. vm_compute. reflexivity. Qed.

(** Symbolic execution of a computation in [M]: [run] unfolds the monad,
    [settle] splits on what is left to decide. *)
Ltac run :=
  repeat (progress (unfold mbind, M_bind, result_bind, mret, M_ret, result_ret,
                      lift, throw, deref, setitem,
                      session_request_json, session_request, the_request, after in *;
                    cbn [fst snd heap sent server] in * )).

Ltac settle :=
  repeat case_match;
  repeat match goal with
    | H : (_, _) = (_, _) |- _ => injection H as ? ?; subst
    | H : <[_ := _]> _ !! _ = _ |- _ => rewrite lookup_insert_eq in H
    | H : Some _ = Some _ |- _ => injection H as ?; subst
    | H : Ok _ = Ok _ |- _ => injection H as ?; subst
    | H : heap (mkWorld _ _ _) !! _ = _ |- _ => cbn [heap] in H
    end;
  cbn [fst snd heap sent server] in *;
  try congruence.

Lemma dict_set_absent k v d :
  dict_mem k d = false -> dict_set k v d = (d ++ [(k, v)])%list.
Proof.
  unfold dict_mem. induction d as [|[k' v'] d IH]; [reflexivity|].
  cbn [dict_get dict_set]. destruct (key_eqb k' k); [discriminate|].
  intros Hd. cbn. now rewrite IH.
Qed.

Lemma dict_get_set_other s v k d :
  key_eqb (KStr s) k = false ->
  dict_get k (dict_set (KStr s) v d) = dict_get k d.
Proof.
  intros Hne. induction d as [|[k' v'] d IH].
  - cbn [dict_set dict_get]. now rewrite Hne.
  - cbn [dict_set dict_get]. destruct (key_eqb k' (KStr s)) eqn:Hk.
    + apply key_eqb_str in Hk. subst k'. cbn [dict_get]. now rewrite Hne.
    + cbn [dict_get]. destruct (key_eqb k' k); [reflexivity|exact IH].
Qed.

Lemma update_check_definition_run `{Python} self l w d :
  heap w !! l = Some d ->
  update_check_definition self l w =
  if negb (has_key "owning_team" d)
  then argument_error ("Check definition must have " +:+ dq +:+ "owning_team" +:+ dq) w
  else
    match dict_item "command" (defaulted d) with
    | Raise e => (Raise e, defaulted_world l d w)
    | Ok command =>
        match validate_check_command command with
        | Raise e => (Raise e, defaulted_world l d w)
        | Ok _ =>
            submit self POST (endpoint self [PyStr CHECK_DEF] true None) (defaulted d)
              (defaulted_world l d w)
        end
    end.
Proof.
  intros Hl.
  unfold update_check_definition, submit, argument_error, defaulted_world, defaulted,
    set_heap, status, ACTIVE.
  run. rewrite Hl.
  destruct (has_key "owning_team" d); cbn [negb]; [|reflexivity].
  destruct (has_key "status" d) eqn:Hs; cbn [negb]; run; rewrite ?Hl; run;
    rewrite ?lookup_insert_eq; run; settle.
Qed.

Lemma create_alert_definition_run `{Python} self l w d :
  heap w !! l = Some d ->
  create_alert_definition self l w =
  if negb (has_key "last_modified_by" d)
  then argument_error ("Alert definition must have " +:+ dq +:+ "last_modified_by" +:+ dq) w
  else if negb (has_key "check_definition_id" (defaulted d))
  then argument_error ("Alert defintion must have " +:+ dq +:+ "check_definition_id" +:+ dq)
         (defaulted_world l d w)
  else submit self POST (endpoint self [PyStr ALERT_DEF] true None) (defaulted d)
         (defaulted_world l d w).
Proof.
  intros Hl.
  unfold create_alert_definition, submit, argument_error, defaulted_world, defaulted,
    set_heap, status, ACTIVE.
  run. rewrite Hl.
  destruct (has_key "last_modified_by" d); cbn [negb]; [|reflexivity].
  destruct (has_key "status" d) eqn:Hs; cbn [negb]; run; rewrite ?Hl; run;
    rewrite ?lookup_insert_eq; run; settle.
Qed.

Lemma update_alert_definition_run `{Python} self l w d :
  heap w !! l = Some d ->
  update_alert_definition self l w =
  if negb (has_key "last_modified_by" d)
  then argument_error ("Alert definition must have " +:+ dq +:+ "last_modified_by" +:+ dq) w
  else if negb (has_key "id" d)
  then argument_error ("Alert definition must have " +:+ dq +:+ "id" +:+ dq) w
  else if negb (has_key "check_definition_id" d)
  then argument_error ("Alert defintion must have " +:+ dq +:+ "check_definition_id" +:+ dq) w
  else
    match dict_item "id" (defaulted d) with
    | Raise e => (Raise e, defaulted_world l d w)
    | Ok id =>
        submit self PUT (endpoint self [PyStr ALERT_DEF; id] true None) (defaulted d)
          (defaulted_world l d w)
    end.
Proof.
  intros Hl.
  unfold update_alert_definition, submit, argument_error, defaulted_world, defaulted,
    set_heap, status, ACTIVE.
  run. rewrite Hl.
  destruct (has_key "last_modified_by" d); cbn [negb]; [|reflexivity].
  destruct (has_key "id" d); cbn [negb]; [|reflexivity].
  destruct (has_key "check_definition_id" d); cbn [negb]; [|reflexivity].
  destruct (has_key "status" d) eqn:Hs; cbn [negb]; run; rewrite ?Hl; run;
    rewrite ?lookup_insert_eq; run; settle.
Qed.

Lemma defaulted_absent d :
  has_key "status" d = false -> defaulted d = (d ++ [(status, ACTIVE)])%list.
Proof.
  intros Hs. unfold defaulted. rewrite Hs. now apply dict_set_absent.
Qed.

Lemma defaulted_get s d :
  String.eqb "status" s = false ->
  dict_get (KStr s) (defaulted d) = dict_get (KStr s) d.
Proof.
  intros Hs. unfold defaulted. destruct (has_key "status" d); [reflexivity|].
  now apply dict_get_set_other.
Qed.

Lemma submit_heap `{Python} self m u d w : heap (snd (submit self m u d w)) = heap w.
Proof. unfold submit. repeat case_match; reflexivity. Qed.

Lemma defaulted_world_sent l d w : sent (defaulted_world l d w) = sent w.
Proof. unfold defaulted_world. destruct (has_key "status" d); reflexivity. Qed.

Lemma has_key_defaulted s d :
  String.eqb "status" s = false -> has_key s (defaulted d) = has_key s d.
Proof. intros Hs. unfold has_key, dict_mem. now rewrite (defaulted_get s d Hs). Qed.

Lemma submit_run `{Python} self m u d w body :
  json_dumps JSONEncoder_default (PyDict d) = Ok body ->
  submit self m (Ok u) d w
  = (match server w (the_request self m u None (Some body)) with
     | Ok resp => json resp
     | Raise e => Raise e
     end, after w (the_request self m u None (Some body))).
Proof. intros Hb. unfold submit. now rewrite Hb. Qed.

(** C9. [update_check_definition], [create_alert_definition] and
    [update_alert_definition] change the mapping of the caller in place.
    With [d] the mapping behind the argument [l]: where [d] has no status,
    the entry status = ACTIVE is appended to the argument itself, no other
    entry of it and no other object changes, and nothing is sent by that;
    where it has one, nothing changes. Each operation is then given
    outcome by outcome, with the world it leaves.
    [update_alert_definition] runs its three checks first: a mapping it
    rejects is left as it was, and otherwise the mapping with the status is
    submitted. [update_check_definition] inserts the status after the
    check for owning_team and before the command is read and validated: a
    mapping without owning_team is left as it was, one whose command is
    missing or does not parse has the status although the operation
    raises, and otherwise the mapping with the status is submitted.
    [create_alert_definition] inserts it after the check for
    last_modified_by and before the check for check_definition_id: a
    mapping without last_modified_by is left as it was, one without
    check_definition_id has the status although the operation raises.
    Submitting changes no object, and the request it sends has the
    mapping with the status as its body. *)
Theorem status_defaulted_in_place `{Python} (self : Zmon) (l : nat) (w : world) (d : dict) :
  heap w !! l = Some d ->
  let d' := defaulted d in
  let w' := defaulted_world l d w in
  let rejected (field : string) :=
    ZmonArgumentError ("Alert definition must have " +:+ dq +:+ field +:+ dq) in
  let no_check_id :=
    ZmonArgumentError ("Alert defintion must have " +:+ dq +:+ "check_definition_id" +:+ dq) in
  (* the insertion *)
  (has_key "status" d = true -> d' = d /\ w' = w)
  /\ (has_key "status" d = false ->
      d' = (d ++ [(KStr "status", PyStr "ACTIVE")])%list
      /\ w' = mkWorld (<[l := d']> (heap w)) (sent w) (server w))
  (* update_alert_definition *)
  /\ (has_key "last_modified_by" d = false ->
      update_alert_definition self l w = (Raise (rejected "last_modified_by"), w))
  /\ (has_key "last_modified_by" d = true -> has_key "id" d = false ->
      update_alert_definition self l w = (Raise (rejected "id"), w))
  /\ (has_key "last_modified_by" d = true -> has_key "id" d = true ->
      has_key "check_definition_id" d = false ->
      update_alert_definition self l w = (Raise no_check_id, w))
  /\ (has_key "last_modified_by" d = true -> has_key "check_definition_id" d = true ->
      forall id, dict_get (KStr "id") d = Some id ->
        update_alert_definition self l w
        = submit self PUT (endpoint self [PyStr ALERT_DEF; id] true None) d' w')
  (* update_check_definition *)
  /\ (has_key "owning_team" d = false ->
      update_check_definition self l w
      = (Raise (ZmonArgumentError
                  ("Check definition must have " +:+ dq +:+ "owning_team" +:+ dq)), w))
  /\ (has_key "owning_team" d = true -> dict_get (KStr "command") d = None ->
      update_check_definition self l w = (Raise (KeyError "command"), w'))
  /\ (has_key "owning_team" d = true ->
      forall command msg,
        dict_get (KStr "command") d = Some command -> ast_parse command = Some msg ->
        update_check_definition self l w
        = (Raise (ZmonError ("Invalid check command: " +:+ msg)), w'))
  /\ (has_key "owning_team" d = true ->
      forall command,
        dict_get (KStr "command") d = Some command -> ast_parse command = None ->
        update_check_definition self l w
        = submit self POST (endpoint self [PyStr CHECK_DEF] true None) d' w')
  (* create_alert_definition *)
  /\ (has_key "last_modified_by" d = false ->
      create_alert_definition self l w = (Raise (rejected "last_modified_by"), w))
  /\ (has_key "last_modified_by" d = true -> has_key "check_definition_id" d = false ->
      create_alert_definition self l w = (Raise no_check_id, w'))
  /\ (has_key "last_modified_by" d = true -> has_key "check_definition_id" d = true ->
      create_alert_definition self l w
      = submit self POST (endpoint self [PyStr ALERT_DEF] true None) d' w')
  (* the request *)
  /\ (forall m u, heap (snd (submit self m u d' w')) = heap w')
  /\ (forall m u body,
        json_dumps JSONEncoder_default (PyDict d') = Ok body ->
        submit self m (Ok u) d' w'
        = (match server w' (the_request self m u None (Some body)) with
           | Ok resp => json resp
           | Raise e => Raise e
           end, after w' (the_request self m u None (Some body)))).
Proof.
  intros Hd d' w' rejected no_check_id. subst d' w' rejected no_check_id.
  rewrite (update_alert_definition_run self l w d Hd),
    (update_check_definition_run self l w d Hd),
    (create_alert_definition_run self l w d Hd).
  unfold argument_error.
  repeat match goal with |- _ /\ _ => split end.
  - intros Hs. unfold defaulted, defaulted_world. now rewrite Hs.
  - intros Hs. unfold defaulted_world. rewrite Hs, (defaulted_absent d Hs). now split.
  - now intros ->.
  - now intros -> ->.
  - now intros -> -> ->.
  - intros -> -> id Hid. unfold has_key, dict_mem. rewrite Hid. cbn [negb].
    unfold dict_item. now rewrite (defaulted_get "id" d eq_refl), Hid.
  - now intros ->.
  - intros -> Hc. cbn [negb]. unfold dict_item.
    now rewrite (defaulted_get "command" d eq_refl), Hc.
  - intros -> command msg Hc Hp. cbn [negb]. unfold dict_item.
    rewrite (defaulted_get "command" d eq_refl), Hc.
    unfold validate_check_command. now rewrite Hp.
  - intros -> command Hc Hp. cbn [negb]. unfold dict_item.
    rewrite (defaulted_get "command" d eq_refl), Hc.
    unfold validate_check_command. now rewrite Hp.
  - now intros ->.
  - intros -> Hc. cbn [negb].
    now rewrite (has_key_defaulted "check_definition_id" d eq_refl), Hc.
  - intros -> Hc. cbn [negb].
    now rewrite (has_key_defaulted "check_definition_id" d eq_refl), Hc.
  - intros m u. apply submit_heap.
  - intros m u body Hb. now apply submit_run.
Qed.

Lemma status_defaulted_in_place_witness :
  let d := [(KStr "owning_team", PyStr "ops"); (KStr "command", PyStr "http('/').code()")] in
  let w := holding d (mkResponse 200 "OK" "{}") in
  heap w !! 0%nat = Some d
  /\ defaulted d = (d ++ [(KStr "status", PyStr "ACTIVE")])%list
  /\ defaulted_world 0 d w
     = mkWorld (<[0%nat := defaulted d]> (heap w)) (sent w) (server w)
  /\ @update_check_definition sample_python sample_client 0 w
     = @submit sample_python sample_client POST
         (@endpoint sample_python sample_client [PyStr CHECK_DEF] true None)
         (defaulted d) (defaulted_world 0 d w).
Proof.
  cbv zeta. split; [reflexivity|].
  pose proof (@status_defaulted_in_place sample_python sample_client 0%nat
                (holding [(KStr "owning_team", PyStr "ops");
                          (KStr "command", PyStr "http('/').code()")]
                   (mkResponse 200 "OK" "{}"))
                [(KStr "owning_team", PyStr "ops"); (KStr "command", PyStr "http('/').code()")]
                eq_refl) as Hall.
  cbv zeta in Hall.
  destruct Hall as (_ & Hins & _ & _ & _ & _ & _ & _ & _ & Hsub & _).
  destruct (Hins eq_refl) as [Hd Hw].
  split; [exact Hd|]. split; [exact Hw|].
  exact (Hsub eq_refl (PyStr "http('/').code()") eq_refl eq_refl).
Defined.

(** The same call, evaluated: the mapping of the caller now has the
    status, and the body of the request has it too. *)
Example update_check_definition_mutates :
  let d := [(KStr "owning_team", PyStr "ops"); (KStr "command", PyStr "http('/').code()")] in
  let w := snd (@update_check_definition sample_python sample_client 0
                  (holding d (mkResponse 200 "OK" "{}"))) in
  heap w !! 0%nat = Some (d ++ [(KStr "status", PyStr "ACTIVE")])%list
  /\ map req_body (sent w)
     = [Some (JObj [("owning_team", JStr "ops"); ("command", JStr "http('/').code()");
                    ("status", JStr "ACTIVE")])].
Proof. cbv zeta. split; vm_compute; reflexivity. Qed.

(** The insertion does not wait for validation to be over. A check
    definition whose command does not parse, and an alert definition
    without check_definition_id, are rejected with nothing sent, and the
    mapping of the caller has the status all the same. *)
Lemma status_inserted_before_validation :
  let ok := mkResponse 200 "OK" "{}" in
  let d1 := [(KStr "owning_team", PyStr "ops"); (KStr "command", PyStr "1 +")] in
  let out1 := @update_check_definition sample_python sample_client 0 (holding d1 ok) in
  let d2 := [(KStr "last_modified_by", PyStr "alice")] in
  let out2 := @create_alert_definition sample_python sample_client 0 (holding d2 ok) in
  (fst out1 = Raise (ZmonError "Invalid check command: invalid syntax (<unknown>, line 1)")
   /\ sent (snd out1) = []
   /\ heap (holding d1 ok) !! 0%nat = Some d1
   /\ heap (snd out1) !! 0%nat = Some (d1 ++ [(KStr "status", PyStr "ACTIVE")])%list)
  /\ (fst out2 = Raise (ZmonArgumentError
                          ("Alert defintion must have " +:+ dq +:+ "check_definition_id"
                           +:+ dq))
      /\ sent (snd out2) = []
      /\ heap (holding d2 ok) !! 0%nat = Some d2
      /\ heap (snd out2) !! 0%nat = Some (d2 ++ [(KStr "status", PyStr "ACTIVE")])%list).
Proof. cbv zeta. repeat split; vm_compute; reflexivity. Qed.

(** C5. When the check definition has no owning_team,
    [update_check_definition] raises the argument error and leaves the
    world as it was: no request is issued (and nothing is written). When
    it has an owning_team and a command that [ast.parse] refuses, it
    raises the validation error whose message names the parse failure,
    again without issuing a request. *)
Theorem update_check_definition_validation `{Python} self l w d :
  heap w !! l = Some d ->
  (has_key "owning_team" d = false ->
     update_check_definition self l w
     = (Raise (ZmonArgumentError
                 ("Check definition must have " +:+ dq +:+ "owning_team" +:+ dq)), w))
  /\ (has_key "owning_team" d = true ->
      forall command msg,
        dict_get (KStr "command") d = Some command ->
        ast_parse command = Some msg ->
        fst (update_check_definition self l w)
        = Raise (ZmonError ("Invalid check command: " +:+ msg))
        /\ sent (snd (update_check_definition self l w)) = sent w).
Proof.
  intros Hl. rewrite (update_check_definition_run _ _ _ _ Hl). split.
  - intros ->. reflexivity.
  - intros -> command msg Hc Hparse. cbn [negb].
    unfold dict_item. rewrite defaulted_get by reflexivity. rewrite Hc.
    unfold validate_check_command. rewrite Hparse. cbn [fst snd].
    split; [reflexivity|apply defaulted_world_sent].
Qed.

Lemma update_check_definition_validation_witness :
  let d1 := [(KStr "command", PyStr "1 +")] in
  let d2 := [(KStr "owning_team", PyStr "ops"); (KStr "command", PyStr "1 +")] in
  let ok := mkResponse 200 "OK" "{}" in
  @update_check_definition sample_python sample_client 0 (holding d1 ok)
  = (Raise (ZmonArgumentError
              ("Check definition must have " +:+ dq +:+ "owning_team" +:+ dq)),
     holding d1 ok)
  /\ fst (@update_check_definition sample_python sample_client 0 (holding d2 ok))
     = Raise (ZmonError "Invalid check command: invalid syntax (<unknown>, line 1)")
  /\ sent (snd (@update_check_definition sample_python sample_client 0 (holding d2 ok))) = [].
Proof.
  cbv zeta. split.
  - exact (proj1 (@update_check_definition_validation sample_python sample_client 0
                    (holding [(KStr "command", PyStr "1 +")] (mkResponse 200 "OK" "{}"))
                    [(KStr "command", PyStr "1 +")] eq_refl) eq_refl).
  - exact (proj2 (@update_check_definition_validation sample_python sample_client 0
                    (holding [(KStr "owning_team", PyStr "ops");
                              (KStr "command", PyStr "1 +")]
                       (mkResponse 200 "OK" "{}"))
                    [(KStr "owning_team", PyStr "ops"); (KStr "command", PyStr "1 +")]
                    eq_refl) eq_refl (PyStr "1 +") _ eq_refl eq_refl).
Defined.

Lemma add_entity_run `{Python} self entity w :
  add_entity self entity w =
  if negb (has_key "id" entity) || negb (has_key "type" entity)
  then argument_error ("Entity " +:+ dq +:+ "id" +:+ dq +:+ " and " +:+ dq +:+ "type"
                       +:+ dq +:+ " are required.") w
  else
    match dict_item "id" entity ≫= entity_id_text with
    | Raise e => (Raise e, w)
    | Ok id_text =>
        if negb (is_valid_entity_id id_text)
        then argument_error "Invalid entity ID." w
        else
          match json_dumps JSONDateEncoder_default (PyDict entity) with
          | Raise e => (Raise e, w)
          | Ok data =>
              match endpoint self [PyStr ENTITIES] false None with
              | Raise e => (Raise e, w)
              | Ok u =>
                  let r := the_request self PUT u None (Some data) in
                  (match server w r with
                   | Ok resp => raise_for_status resp;; Ok resp
                   | Raise e => Raise e
                   end, after w r)
              end
          end
    end.
Proof.
  unfold add_entity, argument_error.
  destruct (negb (has_key "id" entity) || negb (has_key "type" entity)); [reflexivity|].
  run. destruct (dict_item "id" entity) as [id|e]; [|reflexivity]. run.
  destruct (entity_id_text id) as [t|e]; [|reflexivity]. run.
  destruct (negb (is_valid_entity_id t)); [reflexivity|]. run.
  settle.
Qed.

(** C10. [is_valid_entity_id] accepts the empty string. Hence, for an
    entity whose id is the empty string and that has a type, [add_entity]
    passes both validator checks: it behaves as the rest of the operation
    does, and once the entity is serialized the PUT request to the
    entities endpoint is issued. *)
Theorem add_entity_accepts_empty_id `{Python} :
  is_valid_entity_id EmptyString = true
  /\ forall self entity w,
       dict_get (KStr "id") entity = Some (PyStr EmptyString) ->
       has_key "type" entity = true ->
       add_entity self entity w = put_entity self entity w
       /\ forall data u,
            json_dumps JSONDateEncoder_default (PyDict entity) = Ok data ->
            endpoint self [PyStr ENTITIES] false None = Ok u ->
            sent (snd (add_entity self entity w))
            = (sent w ++ [the_request self PUT u None (Some data)])%list.
Proof.
  split; [reflexivity|]. intros self entity w Hid Htype.
  assert (Hrun : add_entity self entity w = put_entity self entity w).
  { assert (Hhas : has_key "id" entity = true)
      by (unfold has_key, dict_mem; now rewrite Hid).
    unfold add_entity. rewrite Hhas, Htype. cbn [negb orb].
    unfold dict_item. rewrite Hid. unfold put_entity. run. reflexivity. }
  split; [exact Hrun|]. intros data u Hdata Hu.
  rewrite Hrun. unfold put_entity. run. rewrite Hdata, Hu.
  destruct (server w _) as [resp|e]; [|reflexivity].
  destruct (raise_for_status resp); reflexivity.
Qed.

Lemma add_entity_accepts_empty_id_witness :
  let entity := [(KStr "id", PyStr EmptyString); (KStr "type", PyStr "host")] in
  let w := answering (mkResponse 200 "OK" "1") in
  sent (snd (@add_entity sample_python sample_client entity w))
  = [the_request sample_client PUT "https://zmon.example/api/v1/entities" None
       (Some (JObj [("id", JStr EmptyString); ("type", JStr "host")]))].
Proof.
  cbv zeta.
  exact (proj2 (proj2 (@add_entity_accepts_empty_id sample_python) sample_client
                  [(KStr "id", PyStr EmptyString); (KStr "type", PyStr "host")]
                  (answering (mkResponse 200 "OK" "1")) eq_refl eq_refl)
               _ _ eq_refl eq_refl).
Defined.

Lemma nonempty_true q : q <> EmptyString -> nonempty q = true.
Proof. destruct q; [congruence|reflexivity]. Qed.

Lemma mapM_text names :
  mapM (fun x => match x with
                 | PyStr s => Ok s
                 | _ => Raise (TypeError "sequence item: expected str instance")
                 end) (map PyStr names) = Ok names.
Proof.
  induction names as [|n names IH]; [reflexivity|].
  cbn [map mapM]. run. rewrite IH. reflexivity.
Qed.

(** C7, as amended. [search] with an empty query raises the argument error
    without issuing a request. With a non-empty query, a teams argument
    that is truthy and neither a list nor a tuple raises the argument
    error without issuing a request. A valid call with a list or a tuple
    of team names sends one request whose parameters are the query and a
    single parameter teams holding the names joined with commas. A teams
    argument that is falsy, of whatever type, is taken as absent: the
    request is sent with the query alone. *)
Theorem search_validation `{Python} self teams w :
  search self EmptyString teams w
  = (Raise (ZmonArgumentError "No search query value!"), w)
  /\ (forall q,
        q <> EmptyString -> truthy teams = true -> is_list_or_tuple teams = false ->
        search self q teams w
        = (Raise (ZmonArgumentError (dq +:+ "teams" +:+ dq +:+ " should be a list!")), w))
  /\ (forall q names u,
        q <> EmptyString -> names <> [] ->
        teams = PyList (map PyStr names) \/ teams = PyTuple (map PyStr names) ->
        endpoint self [PyStr SEARCH] true None = Ok u ->
        sent (snd (search self q teams w))
        = (sent w ++ [the_request self GET u
                        (Some (query_and_teams q (join "," names))) None])%list)
  /\ (forall q u,
        q <> EmptyString -> truthy teams = false ->
        endpoint self [PyStr SEARCH] true None = Ok u ->
        sent (snd (search self q teams w))
        = (sent w ++ [the_request self GET u (Some (query_only q)) None])%list).
Proof.
  split; [reflexivity|]. split; [|split].
  - intros q Hq Ht Hl. unfold search. rewrite (nonempty_true _ Hq), Ht, Hl. reflexivity.
  - intros q names u Hq Hn Hteams Hu. unfold search. rewrite (nonempty_true _ Hq).
    assert (truthy teams = true /\ is_list_or_tuple teams = true
            /\ str_join "," teams = Ok (join "," names)) as (Ht & Hl & Hj).
    { destruct Hteams as [-> | ->]; (split; [|split]);
        try reflexivity; try (destruct names; [congruence|reflexivity]);
        cbn [str_join]; rewrite mapM_text; reflexivity. }
    rewrite Ht, Hl. cbn [negb andb]. run. rewrite Hj, Hu.
    destruct (server w _) as [resp|e]; reflexivity.
  - intros q u Hq Ht Hu. unfold search. rewrite (nonempty_true _ Hq), Ht.
    cbn [negb andb]. run. rewrite Hu.
    destruct (server w _) as [resp|e]; reflexivity.
Qed.

Lemma search_validation_witness :
  let w := answering (mkResponse 200 "OK" "{}") in
  sent (snd (@search sample_python sample_client "zmon" (PyList [PyStr "A"; PyStr "B"]) w))
  = [the_request sample_client GET "https://zmon.example/api/v1/quick-search/"
       (Some (query_and_teams "zmon" "A,B")) None]
  /\ @search sample_python sample_client "zmon" (PyStr "A,B") w
     = (Raise (ZmonArgumentError (dq +:+ "teams" +:+ dq +:+ " should be a list!")), w).
Proof.
  cbv zeta. split.
  - exact (proj1 (proj2 (proj2 (@search_validation sample_python sample_client
                                  (PyList [PyStr "A"; PyStr "B"])
                                  (answering (mkResponse 200 "OK" "{}")))))
             "zmon" ["A"; "B"] _ ltac:(discriminate) ltac:(discriminate)
             (or_introl eq_refl) eq_refl).
  - exact (proj1 (proj2 (@search_validation sample_python sample_client (PyStr "A,B")
                           (answering (mkResponse 200 "OK" "{}"))))
             "zmon" ltac:(discriminate) eq_refl eq_refl).
Defined.

(** C7, as stated, fails: an empty dict is not a list or a tuple, yet
    [search] does not raise on it; the request goes out with the query
    alone and the answer is decoded. *)
Lemma search_falsy_teams_not_rejected :
  let w := answering (mkResponse 200 "OK" "{}") in
  is_list_or_tuple (PyDict []) = false
  /\ @search sample_python sample_client "zmon" (PyDict []) w
     = (Ok (PyDict []),
        after w (the_request sample_client GET "https://zmon.example/api/v1/quick-search/"
                   (Some (query_only "zmon")) None)).
Proof. cbv zeta. split; [reflexivity|]. vm_compute. reflexivity. Qed.

Lemma get_check_definition_run `{Python} self id w u resp :
  endpoint self [PyStr CHECK_DEF; id] true None = Ok u ->
  server w (the_request self GET u None None) = Ok resp ->
  get_check_definition self id w
  = (json (if String.eqb (text resp) EmptyString
           then mkResponse 404 "Not Found" (text resp) else resp),
     after w (the_request self GET u None None)).
Proof.
  intros Hu Hresp. unfold get_check_definition. run. rewrite Hu. run.
  rewrite Hresp. reflexivity.
Qed.

(** C2. When the backend answers [get_check_definition] with status 200
    and an empty body, the operation raises the HTTP error of a 404 Not
    Found response, and so it does, with the same error, when the backend
    answers 404 with an empty body. When the backend answers 200 with a
    body that is a JSON document, the operation returns the value decoded
    from it. The empty text is not a JSON document: this is the one fact
    about the decoder the statement needs. *)
Theorem get_check_definition_empty_body `{Python} self id w u resp :
  endpoint self [PyStr CHECK_DEF; id] true None = Ok u ->
  server w (the_request self GET u None None) = Ok resp ->
  status_code resp = 200 ->
  (text resp = EmptyString ->
     fst (get_check_definition self id w) = Raise (HTTPError not_found)
     /\ forall w' resp',
          server w' (the_request self GET u None None) = Ok resp' ->
          status_code resp' = 404 -> text resp' = EmptyString ->
          fst (get_check_definition self id w') = fst (get_check_definition self id w))
  /\ (forall j,
        json_decode EmptyString = None ->
        json_decode (text resp) = Some j ->
        fst (get_check_definition self id w) = Ok (json_loads j)).
Proof.
  intros Hu Hresp Hstatus. rewrite (get_check_definition_run _ _ _ _ _ Hu Hresp). split.
  - intros Htext. rewrite Htext. cbn [String.eqb fst]. split; [reflexivity|].
    intros w' resp' Hresp' _ Htext'.
    rewrite (get_check_definition_run _ _ _ _ _ Hu Hresp'), Htext'. reflexivity.
  - intros j Hempty Hj. cbn [fst].
    destruct (String.eqb (text resp) EmptyString) eqn:He.
    + apply String.eqb_eq in He. rewrite He in Hj. congruence.
    + unfold json, raise_for_status. rewrite Hstatus. cbn.
      unfold Response_json. now rewrite Hj.
Qed.

Lemma get_check_definition_empty_body_witness :
  fst (@get_check_definition sample_python sample_client (PyInt 7)
         (answering (mkResponse 200 "OK" EmptyString)))
  = Raise (HTTPError not_found)
  /\ fst (@get_check_definition sample_python sample_client (PyInt 7)
            (answering (mkResponse 200 "OK" "{}")))
     = Ok (PyDict []).
Proof.
  split.
  - exact (proj1 (proj1 (@get_check_definition_empty_body sample_python sample_client
                           (PyInt 7) (answering (mkResponse 200 "OK" EmptyString))
                           "https://zmon.example/api/v1/check-definitions/7/"
                           (mkResponse 200 "OK" EmptyString) eq_refl eq_refl eq_refl)
                    eq_refl)).
  - exact (proj2 (@get_check_definition_empty_body sample_python sample_client
                    (PyInt 7) (answering (mkResponse 200 "OK" "{}"))
                    "https://zmon.example/api/v1/check-definitions/7/"
                    (mkResponse 200 "OK" "{}") eq_refl eq_refl eq_refl)
             (JObj []) eq_refl eq_refl).
Defined.

(** C1 (a defect of the code). Whatever the status of the response to its
    PUT request, [add_member] raises nothing: it returns whether the body
    is the text 1. In particular a response with status 500 and body 1
    makes it return true. *)
Theorem add_member_skips_status_check `{Python} self g n w u resp :
  endpoint self [PyStr GROUPS; g; PyStr MEMBER; n] true None = Ok u ->
  server w (the_request self PUT u None None) = Ok resp ->
  add_member self g n w
  = (Ok (String.eqb (text resp) "1"), after w (the_request self PUT u None None)).
Proof.
  intros Hu Hresp. unfold add_member. run. rewrite Hu. run. rewrite Hresp. reflexivity.
Qed.

Lemma add_member_skips_status_check_witness :
  @add_member sample_python sample_client (PyStr "ops") (PyStr "alice")
    (answering (mkResponse 500 "Internal Server Error" "1"))
  = (Ok true,
     after (answering (mkResponse 500 "Internal Server Error" "1"))
       (the_request sample_client PUT
          "https://zmon.example/api/v1/groups/ops/member/alice/" None None)).
Proof.
  exact (@add_member_skips_status_check sample_python sample_client
           (PyStr "ops") (PyStr "alice")
           (answering (mkResponse 500 "Internal Server Error" "1"))
           "https://zmon.example/api/v1/groups/ops/member/alice/"
           (mkResponse 500 "Internal Server Error" "1") eq_refl eq_refl).
Defined.

(** The sibling operation does call [raise_for_status]. *)
Lemma remove_member_checks_status `{Python} self g n w u resp :
  endpoint self [PyStr GROUPS; g; PyStr MEMBER; n] true None = Ok u ->
  server w (the_request self DELETE u None None) = Ok resp ->
  remove_member self g n w
  = (raise_for_status resp;; Ok (String.eqb (text resp) "1"),
     after w (the_request self DELETE u None None)).
Proof.
  intros Hu Hresp. unfold remove_member. run. rewrite Hu. run. rewrite Hresp.
  destruct (raise_for_status resp); reflexivity.
Qed.

Example remove_member_raises :
  fst (@remove_member sample_python sample_client (PyStr "ops") (PyStr "alice")
         (answering (mkResponse 500 "Internal Server Error" "1")))
  = Raise (HTTPError (mkResponse 500 "Internal Server Error" "1")).
Proof. vm_compute. reflexivity. Qed.

(** ** Construction of the client *)

Lemma default_headers_no_authorization : default_headers !! "Authorization" = None.
Proof. reflexivity. Qed.

(** C3, as amended. For every client that [__init__] constructs: when the
    token is a non-empty text, the session carries the header
    Authorization: Bearer token and no basic-auth credentials (username
    and password are ignored); when the token is [None] and both username
    and password are non-empty texts, the session holds them as basic-auth
    credentials and no Authorization header; in every other case, an empty
    token included, the session has neither. Every request the session
    issues carries the headers and the credentials of the session. *)
Theorem init_authentication `{Python} url_arg token username password tmo vfy ua z :
  __init__ url_arg token username password tmo vfy ua = Ok z ->
  (given token = true ->
     headers (session z) !! "Authorization"
     = Some ("Bearer " +:+ default EmptyString token)
     /\ auth (session z) = None)
  /\ (token = None -> given username = true -> given password = true ->
      auth (session z) = Some (default EmptyString username, default EmptyString password)
      /\ headers (session z) !! "Authorization" = None)
  /\ (given token = false ->
      token <> None \/ given username = false \/ given password = false ->
      auth (session z) = None /\ headers (session z) !! "Authorization" = None)
  /\ (forall m u params body w,
        sent (snd (session_request (session z) m u params body w))
        = (sent w ++ [mkRequest m u params body (headers (session z))
                        (auth (session z))])%list).
Proof.
  unfold __init__. destruct (urlsplit url_arg EmptyString) as [sp|e]; [|discriminate].
  run. destruct (urljoin _ _) as [api|e]; [|discriminate].
  intros [= <-]. cbn [session].
  split; [|split; [|split]].
  - intros Ht. rewrite Ht.
    assert (is_None token = false) as -> by (destruct token; [reflexivity|discriminate]).
    rewrite andb_false_r. destruct vfy; cbn [negb headers auth set_verify set_header];
      rewrite lookup_insert_eq; auto.
  - intros -> Hu Hp. rewrite Hu, Hp. cbn [given is_None andb].
    destruct vfy; cbn [negb headers auth set_verify set_header set_auth set_timeout new_session];
      (split; [reflexivity|]);
      rewrite !lookup_insert_ne by discriminate; reflexivity.
  - intros Ht Hcase. rewrite Ht.
    assert (given username && given password && is_None token = false) as ->.
    { destruct Hcase as [Hn|[Hu|Hp]].
      - destruct token; [apply andb_false_r|congruence].
      - now rewrite Hu.
      - rewrite Hp. now rewrite andb_false_r. }
    destruct vfy; cbn [negb headers auth set_verify set_header set_auth set_timeout new_session];
      (split; [reflexivity|]);
      rewrite !lookup_insert_ne by discriminate; reflexivity.
  - reflexivity.
Qed.

Lemma init_authentication_witness :
  (headers (session sample_client) !! "Authorization" = None
   /\ auth (session sample_client) = None)
  /\ (headers (session token_client) !! "Authorization" = Some "Bearer s3cr3t"
      /\ auth (session token_client) = None).
Proof.
  split.
  - pose proof (proj1 (proj2 (proj2
      (@init_authentication sample_python "https://zmon.example/" None None None 10 true
         "zmon-client" sample_client eq_refl))) eq_refl (or_intror (or_introl eq_refl)))
      as [Ha Hh].
    split; [exact Hh|exact Ha].
  - exact (proj1 (@init_authentication sample_python "https://zmon.example/"
                    (Some "s3cr3t") (Some "user") (Some "pass") 10 true
                    "zmon-client" token_client eq_refl) eq_refl).
Defined.

(** C3, as stated, fails: with the empty text as token the session gets no
    Authorization header, although a token is given; username and
    password are ignored all the same. *)
Lemma init_empty_token_no_bearer :
  exists z,
    @__init__ sample_python "https://zmon.example/" (Some EmptyString)
      (Some "user") (Some "secret") 10 true "zmon-client" = Ok z
    /\ headers (session z) !! "Authorization" = None
    /\ auth (session z) = None.
Proof. eexists. split; [vm_compute; reflexivity|]. split; reflexivity. Qed.

(** ** Endpoints *)

Lemma lstrip_start p s : starts_in p (lstrip_by p s) = false.
Proof.
  induction s as [|c s IH]; [reflexivity|]. cbn [lstrip_by].
  destruct (p c) eqn:Hc; [exact IH|]. cbn [starts_in]. exact Hc.
Qed.

Lemma rstrip_start p s : starts_in p s = false -> starts_in p (rstrip_by p s) = false.
Proof.
  destruct s as [|c s]; [reflexivity|]. cbn [starts_in rstrip_by]. intros Hc.
  destruct (rstrip_by p s); [rewrite Hc|]; cbn [starts_in]; exact Hc.
Qed.

Lemma rstrip_end p s : ends_in p (rstrip_by p s) = false.
Proof.
  induction s as [|c s IH]; [reflexivity|]. cbn [rstrip_by].
  destruct (rstrip_by p s) as [|a r] eqn:Hr.
  - destruct (p c) eqn:Hc; [reflexivity|]. cbn [ends_in]. exact Hc.
  - exact IH.
Qed.

(** A stripped segment neither starts nor ends with a slash. *)
Lemma strip_by_spec p s :
  starts_in p (strip_by p s) = false /\ ends_in p (strip_by p s) = false.
Proof.
  unfold strip_by. split; [|apply rstrip_end].
  apply rstrip_start, lstrip_start.
Qed.

Lemma lstrip_prefix p s :
  exists a, s = a +:+ lstrip_by p s /\ forall_chars p a = true.
Proof.
  induction s as [|c s (a & Ha & Hp)]; [exists EmptyString; auto|].
  cbn [lstrip_by]. destruct (p c) eqn:Hc.
  - exists (String c a). split.
    + change (String c s = String c (a +:+ lstrip_by p s)). congruence.
    + cbn [forall_chars]. now rewrite Hc, Hp.
  - exists EmptyString. auto.
Qed.

Lemma rstrip_suffix p s :
  exists b, s = rstrip_by p s +:+ b /\ forall_chars p b = true.
Proof.
  induction s as [|c s (b & Hb & Hp)]; [exists EmptyString; auto|].
  cbn [rstrip_by]. destruct (rstrip_by p s) as [|a r] eqn:Hr.
  - change (s = b) in Hb. subst b. destruct (p c) eqn:Hc.
    + exists (String c s). split; [reflexivity|].
      cbn [forall_chars]. now rewrite Hc, Hp.
    + exists s. auto.
  - exists b. split; [|exact Hp].
    change (String c s = String c (String a r +:+ b)). congruence.
Qed.

(** What is stripped from a segment is slashes only. *)
Lemma strip_by_only p s :
  exists a b, s = a +:+ strip_by p s +:+ b
              /\ forall_chars p a = true /\ forall_chars p b = true.
Proof.
  destruct (lstrip_prefix p s) as (a & Ha & Hpa).
  destruct (rstrip_suffix p (lstrip_by p s)) as (b & Hb & Hpb).
  exists a, b. unfold strip_by. rewrite <- Hb. auto.
Qed.


Lemma forall_chars_impl (p q : ascii -> bool) s :
  (forall c, p c = true -> q c = true) ->
  forall_chars p s = true -> forall_chars q s = true.
Proof.
  intros Hpq. induction s as [|c s IH]; [reflexivity|]. cbn [forall_chars].
  intros H. apply andb_true_iff in H as [Hc Hs]. now rewrite (Hpq _ Hc), IH.
Qed.

Lemma contains_none (p : ascii -> bool) x s :
  p x = false -> forall_chars p s = true -> contains x s = false.
Proof.
  intros Hx. induction s as [|c s IH]; [reflexivity|]. cbn [forall_chars contains].
  intros H. apply andb_true_iff in H as [Hc Hs]. rewrite (IH Hs), orb_false_r.
  destruct (Ascii.eqb c x) eqn:He; [|reflexivity].
  apply Ascii.eqb_eq in He. congruence.
Qed.

Lemma cut_none x s : contains x s = false -> cut x s = (s, None).
Proof.
  induction s as [|c s IH]; [reflexivity|]. cbn [contains cut].
  intros H. apply orb_false_iff in H as [Hc Hs]. now rewrite Hc, (IH Hs).
Qed.

Lemma remove_chars_none p s :
  forall_chars (fun c => negb (p c)) s = true -> remove_chars p s = s.
Proof.
  induction s as [|c s IH]; [reflexivity|]. cbn [forall_chars remove_chars].
  intros H. apply andb_true_iff in H as [Hc Hs].
  apply negb_true_iff in Hc. now rewrite Hc, (IH Hs).
Qed.

Lemma remove_chars_app p a b :
  remove_chars p (a +:+ b) = remove_chars p a +:+ remove_chars p b.
Proof.
  induction a as [|c a IH]; [reflexivity|].
  change (String c a +:+ b) with (String c (a +:+ b)). cbn [remove_chars].
  rewrite IH. now destruct (p c).
Qed.

Lemma span_app cls a b :
  forall_chars cls a = true -> starts_in cls b = false ->
  span cls (a +:+ b) = (a, b).
Proof.
  intros Ha Hb. induction a as [|c a IH].
  - now apply span_no_start.
  - cbn [forall_chars] in Ha. apply andb_true_iff in Ha as [Hc Ha].
    change (String c a +:+ b) with (String c (a +:+ b)).
    cbn [span]. now rewrite Hc, (IH Ha).
Qed.

Lemma strip_by_none p s :
  forall_chars (fun c => negb (p c)) s = true -> strip_by p s = s.
Proof.
  intros H. unfold strip_by.
  assert (Hl : lstrip_by p s = s).
  { destruct s as [|c s]; [reflexivity|]. cbn [forall_chars] in H.
    apply andb_true_iff in H as [Hc _]. apply negb_true_iff in Hc.
    cbn [lstrip_by]. now rewrite Hc. }
  rewrite Hl. clear Hl. induction s as [|c s IH]; [reflexivity|].
  cbn [forall_chars] in H. apply andb_true_iff in H as [Hc Hs].
  apply negb_true_iff in Hc. cbn [rstrip_by]. rewrite (IH Hs), Hc.
  now destruct s.
Qed.

Lemma append_assoc a b c : (a +:+ b) +:+ c = a +:+ (b +:+ c).
Proof.
  induction a as [|x a IH]; [reflexivity|].
  change (String x ((a +:+ b) +:+ c) = String x (a +:+ (b +:+ c))). now rewrite IH.
Qed.

Lemma append_empty a : a +:+ EmptyString = a.
Proof.
  induction a as [|x a IH]; [reflexivity|].
  change (String x (a +:+ EmptyString) = String x a). now rewrite IH.
Qed.

Lemma join_snoc sep segs :
  segs <> [] -> join sep (segs ++ [EmptyString]) = join sep segs +:+ sep.
Proof.
  induction segs as [|s segs IH]; [congruence|]. intros _.
  destruct segs as [|s' segs].
  - cbn. now rewrite append_empty.
  - change (join sep ((s :: s' :: segs) ++ [EmptyString]))
      with (s +:+ sep +:+ join sep ((s' :: segs) ++ [EmptyString])).
    rewrite IH by discriminate.
    change (join sep (s :: s' :: segs)) with (s +:+ sep +:+ join sep (s' :: segs)).
    now rewrite !append_assoc.
Qed.

Lemma split_none x s : contains x s = false -> split x s = [s].
Proof.
  induction s as [|c s IH]; [reflexivity|]. cbn [contains split].
  intros H. apply orb_false_iff in H as [Hc Hs]. now rewrite Hc, (IH Hs).
Qed.

Lemma split_app x a b :
  contains x a = false ->
  split x (a +:+ String x b) = a :: split x b.
Proof.
  induction a as [|c a IH]; intros Ha.
  - cbn [append split]. change (EmptyString +:+ String x b) with (String x b).
    cbn [split]. now rewrite Ascii.eqb_refl.
  - cbn [contains] in Ha. apply orb_false_iff in Ha as [Hc Ha].
    change (String c a +:+ String x b) with (String c (a +:+ String x b)).
    cbn [split]. now rewrite Hc, (IH Ha).
Qed.

Lemma split_join x segs :
  segs <> [] -> forallb (fun s => negb (contains x s)) segs = true ->
  split x (join (String x EmptyString) segs) = segs.
Proof.
  induction segs as [|s segs IH]; [congruence|]. intros _ H.
  cbn [forallb] in H. apply andb_true_iff in H as [Hs Hsegs].
  apply negb_true_iff in Hs. destruct segs as [|s' segs].
  - cbn [join]. now apply split_none.
  - change (join (String x EmptyString) (s :: s' :: segs))
      with (s +:+ String x EmptyString +:+ join (String x EmptyString) (s' :: segs)).
    change (String x EmptyString +:+ join (String x EmptyString) (s' :: segs))
      with (String x (join (String x EmptyString) (s' :: segs))).
    rewrite split_app by exact Hs. now rewrite IH.
Qed.

Lemma path_char_facts c :
  path_char c = true ->
  c0_control_or_space c = false /\ unsafe_url_byte c = false
  /\ is_char "?" c = false /\ is_char "#" c = false
  /\ is_char ":" c = false /\ is_char ";" c = false.
Proof.
  unfold path_char, c0_control_or_space, unsafe_url_byte. intros H.
  repeat (apply andb_true_iff in H as [H ?]).
  repeat match goal with Hn : negb _ = true |- _ => apply negb_true_iff in Hn end.
  apply Nat.ltb_lt in H.
  repeat split; try assumption.
  - apply Nat.leb_gt. exact H.
  - repeat (apply orb_false_iff; split); apply Nat.eqb_neq; lia.
Qed.

Lemma path_chars_contain x rel :
  path_char x = false -> forall_chars path_char rel = true -> contains x rel = false.
Proof. apply contains_none. Qed.

Lemma urlsplit_relative `{Python} rel :
  starts_in plain_char rel = true ->
  forall_chars path_char rel = true ->
  urlsplit rel "https" = Ok (mkSplit "https" EmptyString rel EmptyString EmptyString).
Proof.
  intros Hstart Hchars. unfold urlsplit.
  destruct rel as [|c r]; [discriminate|]. cbn [starts_in] in Hstart.
  unfold plain_char in Hstart. apply andb_true_iff in Hstart as [Hc Hslash].
  apply negb_true_iff in Hslash.
  destruct (path_char_facts c Hc) as (Hc0 & _).
  cbn [lstrip_by]. rewrite Hc0.
  rewrite (remove_chars_none unsafe_url_byte (String c r)).
  2:{ eapply forall_chars_impl; [|exact Hchars]. intros x Hx.
      destruct (path_char_facts x Hx) as (_ & Hu & _). now rewrite Hu. }
  rewrite (cut_none ":" (String c r)) by (now apply (path_chars_contain ":")).
  assert (Hats : after_two_slashes (String c r) = None).
  { unfold after_two_slashes. unfold is_char in Hslash.
    destruct (Ascii.eqb_spec "/" c) as [<-|Hne]; [discriminate|].
    destruct c as [[] [] [] [] [] [] [] []]; try reflexivity. congruence. }
  change (strip_by c0_control_or_space "https") with "https".
  change (remove_chars unsafe_url_byte "https") with "https".
  cbv beta iota. rewrite Hats.
  unfold mbind, result_bind. cbv beta iota.
  rewrite (cut_none "#" (String c r)) by (now apply (path_chars_contain "#")).
  rewrite (cut_none "?" (String c r)) by (now apply (path_chars_contain "?")).
  reflexivity.
Qed.

Lemma host_char_facts c :
  host_char c = true ->
  path_char c = true /\ is_char "/" c = false
  /\ is_char "[" c = false /\ is_char "]" c = false.
Proof.
  unfold host_char, plain_char. intros H.
  apply andb_true_iff in H as [H Hclose]. apply andb_true_iff in H as [H Hopen].
  apply andb_true_iff in H as [H Hslash].
  apply negb_true_iff in Hclose, Hopen, Hslash. auto.
Qed.

Lemma urlsplit_base `{Python} h :
  plain_host h = true ->
  urlsplit ("https://" +:+ h +:+ "/api/v1/") EmptyString
  = Ok (mkSplit "https" h "/api/v1/" EmptyString EmptyString).
Proof.
  unfold plain_host. intros Hh. apply andb_true_iff in Hh as [Hne Hh].
  assert (Hsafe : remove_chars unsafe_url_byte h = h).
  { apply remove_chars_none. eapply forall_chars_impl; [|exact Hh]. intros x Hx.
    destruct (host_char_facts x Hx) as (Hp & _).
    destruct (path_char_facts x Hp) as (_ & Hu & _). now rewrite Hu. }
  assert (Hloc : splitnetloc (h +:+ "/api/v1/") = (h, "/api/v1/")).
  { unfold splitnetloc. apply span_app; [|reflexivity].
    eapply forall_chars_impl; [|exact Hh]. intros x Hx.
    destruct (host_char_facts x Hx) as (Hp & Hs & _).
    destruct (path_char_facts x Hp) as (_ & _ & Hq & Hf & _).
    now rewrite Hs, Hq, Hf. }
  assert (Hopen : contains "[" h = false).
  { apply (contains_none host_char); [reflexivity|exact Hh]. }
  assert (Hclose : contains "]" h = false).
  { apply (contains_none host_char); [reflexivity|exact Hh]. }
  unfold urlsplit. set (rest := h +:+ "/api/v1/") in *.
  change (lstrip_by c0_control_or_space ("https://" +:+ rest)) with ("https://" +:+ rest).
  rewrite (remove_chars_app unsafe_url_byte "https://" rest).
  change (remove_chars unsafe_url_byte "https://") with "https://".
  unfold rest at 1. rewrite remove_chars_app, Hsafe.
  change (remove_chars unsafe_url_byte "/api/v1/") with "/api/v1/". fold rest.
  change (cut ":" ("https://" +:+ rest)) with ("https", Some ("//" +:+ rest)).
  cbv beta iota.
  change (is_ascii_letter "h" && forall_chars scheme_char "https") with true.
  cbv beta iota.
  change (after_two_slashes ("//" +:+ rest)) with (Some rest).
  cbv beta iota. rewrite Hloc. cbv beta iota. rewrite Hopen, Hclose.
  reflexivity.
Qed.

Lemma resolve_segments_plain acc l :
  forallb not_dots l = true ->
  fold_left (fun resolved seg =>
               if String.eqb seg ".." then removelast resolved
               else if String.eqb seg "." then resolved
               else (resolved ++ [seg])%list) l acc
  = (acc ++ l)%list.
Proof.
  revert acc. induction l as [|s l IH]; intros acc Hl.
  - now rewrite app_nil_r.
  - cbn [forallb] in Hl. apply andb_true_iff in Hl as [Hs Hl].
    unfold not_dots in Hs. apply andb_true_iff in Hs as [H2 H1].
    apply negb_true_iff in H1, H2. cbn [fold_left]. rewrite H2, H1.
    rewrite (IH _ Hl). now rewrite <- app_assoc.
Qed.

Lemma last_after {A} (a l : list A) d : l <> [] -> List.last (a ++ l) d = List.last l d.
Proof.
  intros Hl. induction a as [|x a IH]; [reflexivity|].
  cbn [app]. destruct (a ++ l)%list eqn:E.
  - destruct a; [cbn in E; congruence|discriminate].
  - rewrite <- IH. reflexivity.
Qed.

Lemma filter_middle_base l :
  l <> [] -> forallb nonempty (removelast l) = true ->
  filter_middle ((EmptyString :: "api" :: "v1" :: EmptyString :: nil) ++ l)%list
  = ((EmptyString :: "api" :: "v1" :: nil) ++ l)%list.
Proof.
  intros Hne Hall. unfold filter_middle. cbn [app].
  change ("api" :: "v1" :: EmptyString :: l)
    with (("api" :: "v1" :: EmptyString :: nil) ++ l)%list.
  rewrite removelast_app by exact Hne. rewrite last_after by exact Hne.
  rewrite List.filter_app. cbn [List.filter nonempty String.eqb negb app].
  f_equal. f_equal. f_equal.
  assert (List.filter nonempty (removelast l) = removelast l) as ->.
  { clear Hne. induction (removelast l) as [|x xs IH]; [reflexivity|].
    cbn [forallb] in Hall. apply andb_true_iff in Hall as [Hx Hxs].
    cbn [List.filter]. now rewrite Hx, (IH Hxs). }
  symmetry. apply app_removelast_last. exact Hne.
Qed.

Lemma plain_segment_facts s :
  plain_segment s = true ->
  nonempty s = true /\ forall_chars plain_char s = true /\ not_dots s = true.
Proof.
  unfold plain_segment, not_dots. intros H.
  apply andb_true_iff in H as [H H2]. apply andb_true_iff in H as [H H1].
  apply andb_true_iff in H as [Hn Hc]. now rewrite H1, H2.
Qed.

Lemma plain_char_path c : plain_char c = true -> path_char c = true.
Proof. unfold plain_char. intros H. now apply andb_true_iff in H as [H _]. Qed.

Lemma plain_char_no_slash c : plain_char c = true -> is_char "/" c = false.
Proof.
  unfold plain_char. intros H. apply andb_true_iff in H as [_ H].
  now apply negb_true_iff in H.
Qed.

Lemma join_path_chars segs :
  forallb plain_segment segs = true ->
  forall_chars path_char (join "/" segs) = true.
Proof.
  induction segs as [|s segs IH]; [reflexivity|]. cbn [forallb]. intros H.
  apply andb_true_iff in H as [Hs Hsegs].
  destruct (plain_segment_facts _ Hs) as (_ & Hc & _).
  assert (Hp : forall_chars path_char s = true)
    by (eapply forall_chars_impl; [apply plain_char_path|exact Hc]).
  destruct segs as [|s' segs]; [exact Hp|].
  change (join "/" (s :: s' :: segs)) with (s +:+ "/" +:+ join "/" (s' :: segs)).
  rewrite !append_chars, Hp, (IH Hsegs). reflexivity.
Qed.

Lemma join_starts segs :
  segs <> [] -> forallb plain_segment segs = true ->
  starts_in plain_char (join "/" segs) = true.
Proof.
  destruct segs as [|s segs]; [congruence|]. intros _ H. cbn [forallb] in H.
  apply andb_true_iff in H as [Hs _].
  destruct (plain_segment_facts _ Hs) as (Hn & Hc & _).
  destruct s as [|c s]; [discriminate|]. cbn [forall_chars] in Hc.
  apply andb_true_iff in Hc as [Hc _].
  destruct segs; exact Hc.
Qed.

Lemma relative_path segs ts :
  segs <> [] -> forallb plain_segment segs = true ->
  let rel := join "/" segs +:+ slash_if ts in
  join "/" (with_trailing ts segs) = rel
  /\ starts_in plain_char rel = true
  /\ forall_chars path_char rel = true
  /\ split "/" rel = with_trailing ts segs.
Proof.
  intros Hne Hall rel. subst rel.
  assert (Hj : join "/" (with_trailing ts segs) = join "/" segs +:+ slash_if ts).
  { destruct ts; cbn [with_trailing slash_if]; [now apply join_snoc|].
    now rewrite append_empty. }
  split; [exact Hj|]. split; [|split].
  - pose proof (join_starts segs Hne Hall) as Hs.
    destruct (join "/" segs); [discriminate|exact Hs].
  - rewrite append_chars, (join_path_chars _ Hall). now destruct ts.
  - rewrite <- Hj. apply split_join.
    + destruct ts; cbn [with_trailing]; [|exact Hne]. now destruct segs.
    + assert (Hs : forallb (fun s => negb (contains "/" s)) segs = true).
      { clear Hne Hj. induction segs as [|s segs IH]; [reflexivity|].
        cbn [forallb] in *. apply andb_true_iff in Hall as [Hs Hsegs].
        rewrite (IH Hsegs), andb_true_r.
        destruct (plain_segment_facts _ Hs) as (_ & Hc & _).
        apply negb_true_iff. apply (contains_none plain_char); [reflexivity|exact Hc]. }
      destruct ts; cbn [with_trailing]; [|exact Hs].
      rewrite forallb_app, Hs. reflexivity.
Qed.

Lemma urlparse_base `{Python} h :
  plain_host h = true ->
  urlparse ("https://" +:+ h +:+ "/api/v1/") EmptyString
  = Ok (mkSplit "https" h "/api/v1/" EmptyString EmptyString, EmptyString).
Proof. intros Hh. unfold urlparse. rewrite (urlsplit_base h Hh). reflexivity. Qed.

Lemma urlparse_relative `{Python} rel :
  starts_in plain_char rel = true ->
  forall_chars path_char rel = true ->
  urlparse rel "https"
  = Ok (mkSplit "https" EmptyString rel EmptyString EmptyString, EmptyString).
Proof.
  intros Hstart Hchars. unfold urlparse.
  rewrite (urlsplit_relative rel Hstart Hchars).
  unfold mbind, result_bind. cbn [scheme path].
  now rewrite (path_chars_contain ";" rel eq_refl Hchars), andb_false_r.
Qed.

Lemma with_trailing_facts segs ts :
  segs <> [] -> forallb plain_segment segs = true ->
  let l := with_trailing ts segs in
  l <> [] /\ forallb nonempty (removelast l) = true /\ forallb not_dots l = true.
Proof.
  intros Hne Hall.
  assert (Hn : forallb nonempty segs = true /\ forallb not_dots segs = true).
  { clear Hne. induction segs as [|s segs IH]; [auto|]. cbn [forallb] in *.
    apply andb_true_iff in Hall as [Hs Hsegs]. destruct (IH Hsegs) as [IH1 IH2].
    destruct (plain_segment_facts _ Hs) as (Hs1 & _ & Hs2).
    now rewrite Hs1, Hs2, IH1, IH2. }
  destruct Hn as [Hn Hd]. destruct ts; cbn [with_trailing]; cbv zeta.
  - split; [now destruct segs|]. rewrite removelast_last, forallb_app, Hd. auto.
  - split; [exact Hne|]. split; [|exact Hd].
    clear Hne Hall Hd. induction segs as [|s segs IH]; [reflexivity|].
    cbn [forallb] in Hn. apply andb_true_iff in Hn as [Hs Hsegs].
    destruct segs as [|s' segs]; [reflexivity|].
    change (removelast (s :: s' :: segs)) with (s :: removelast (s' :: segs)).
    cbn [forallb]. now rewrite Hs, (IH Hsegs).
Qed.

Lemma not_dots_last l :
  l <> [] -> forallb not_dots l = true -> not_dots (List.last l EmptyString) = true.
Proof.
  induction l as [|s l IH]; [congruence|]. intros _ H. cbn [forallb] in H.
  apply andb_true_iff in H as [Hs Hl]. destruct l as [|s' l]; [exact Hs|].
  change (List.last (s :: s' :: l) EmptyString) with (List.last (s' :: l) EmptyString).
  apply IH; [discriminate|exact Hl].
Qed.

Lemma join_cons sep s l : l <> [] -> join sep (s :: l) = s +:+ sep +:+ join sep l.
Proof. destruct l; [congruence|reflexivity]. Qed.

Lemma urljoin_api_base `{Python} h segs ts :
  plain_host h = true -> segs <> [] -> forallb plain_segment segs = true ->
  urljoin ("https://" +:+ h +:+ "/api/v1/") (join "/" (with_trailing ts segs))
  = Ok (("https://" +:+ h +:+ "/api/v1/") +:+ join "/" segs +:+ slash_if ts).
Proof.
  intros Hh Hne Hall.
  destruct (relative_path segs ts Hne Hall) as (Hj & Hstart & Hchars & Hsplit).
  rewrite Hj. set (rel := join "/" segs +:+ slash_if ts) in *.
  assert (Hrel : nonempty rel = true) by (destruct rel; [discriminate|reflexivity]).
  assert (Hnoslash : starts_with "/" rel = false).
  { destruct rel as [|c r]; [reflexivity|]. cbn [starts_in] in Hstart.
    unfold starts_with. cbn [starts_in]. now apply plain_char_no_slash. }
  unfold urljoin.
  change (nonempty ("https://" +:+ h +:+ "/api/v1/")) with true. rewrite Hrel.
  cbv beta iota delta [negb].
  rewrite (urlparse_base h Hh). unfold mbind at 1. unfold result_bind at 1.
  cbv beta iota. cbn [scheme].
  rewrite (urlparse_relative rel Hstart Hchars). unfold mbind, result_bind.
  cbv beta iota. cbn [scheme netloc path query fragment].
  rewrite Hnoslash, Hsplit, Hrel.
  change (String.eqb "https" "https") with true.
  change (str_in "https" uses_relative) with true.
  change (str_in "https" uses_netloc) with true.
  change (nonempty EmptyString) with false.
  change (split "/" "/api/v1/") with [EmptyString; "api"; "v1"; EmptyString].
  cbv beta iota delta [orb andb]. cbn [List.last]. 
  change (nonempty EmptyString) with false. cbv beta iota.
  destruct (with_trailing_facts segs ts Hne Hall) as (Hl & Hnonempty & Hdots).
  rewrite (filter_middle_base _ Hl Hnonempty).
  set (l := with_trailing ts segs) in *.
  unfold resolve_segments.
  rewrite (resolve_segments_plain [] ([EmptyString; "api"; "v1"] ++ l)%list)
    by (rewrite forallb_app, Hdots; reflexivity).
  rewrite (last_after [EmptyString; "api"; "v1"] l _ Hl).
  pose proof (not_dots_last l Hl Hdots) as Hlast. unfold not_dots in Hlast.
  apply andb_true_iff in Hlast as [H2 H1]. apply negb_true_iff in H1, H2.
  rewrite H1, H2. cbv beta iota delta [orb]. cbn [app].
  rewrite (join_cons "/" EmptyString) by discriminate.
  rewrite (join_cons "/" "api") by discriminate.
  rewrite (join_cons "/" "v1" l Hl), Hj.
  change (EmptyString +:+ "/" +:+ "api" +:+ "/" +:+ "v1" +:+ "/" +:+ rel)
    with ("/api/v1/" +:+ rel).
  change (nonempty ("/api/v1/" +:+ rel)) with true. cbv beta iota.
  unfold urlunparse, urlunsplit. cbn [scheme netloc path query fragment].
  unfold plain_host in Hh. apply andb_true_iff in Hh as [Hh _]. rewrite Hh.
  change (nonempty EmptyString) with false.
  change (nonempty "https") with true.
  change (nonempty ("/api/v1/" +:+ rel)) with true.
  change (starts_with "/" ("/api/v1/" +:+ rel)) with true.
  cbv beta iota delta [orb andb negb].
  change ("https" +:+ ":" +:+ "//" +:+ h +:+ "/api/v1/" +:+ rel)
    with ("https://" +:+ h +:+ "/api/v1/" +:+ rel).
  now rewrite !append_assoc.
Qed.

Lemma segment_text_plain `{Python} s :
  plain_segment s = true -> segment_text (PyStr s) = s.
Proof.
  intros Hs. destruct (plain_segment_facts _ Hs) as (_ & Hc & _).
  unfold segment_text. cbn [str_of]. apply strip_by_none.
  eapply forall_chars_impl; [|exact Hc]. intros c Hp.
  now rewrite (plain_char_no_slash c Hp).
Qed.

Lemma join_path_plain `{Python} segs (ts : bool) :
  forallb plain_segment segs = true ->
  _join_path (if ts then (map PyStr segs ++ [PyStr EmptyString])%list else map PyStr segs)
  = join "/" (with_trailing ts segs).
Proof.
  intros Hall. unfold _join_path. fold segment_text.
  assert (Hmap : map segment_text (map PyStr segs) = segs).
  { induction segs as [|s segs IH]; [reflexivity|]. cbn [forallb] in Hall.
    apply andb_true_iff in Hall as [Hs Hsegs]. cbn [map].
    now rewrite (segment_text_plain s Hs), (IH Hsegs). }
  destruct ts; cbn [with_trailing].
  - rewrite map_app, Hmap. reflexivity.
  - now rewrite Hmap.
Qed.

(** C8. [endpoint] strips the slashes at both ends of every segment, joins
    the segments with a slash, with a trailing empty segment exactly when
    [trailing_slash] is true, and resolves the path against the API base
    of the client, or against the override base when one is given. A
    stripped segment neither starts nor ends with a slash. For a client
    whose API base is https://host/api/v1/ and plain segments, the result
    is the API base followed by the segments joined with slashes, with a
    final slash exactly when [trailing_slash] is true. On the base
    https://zmon.example/ the API base is https://zmon.example/api/v1/,
    the segments entities and abc give
    https://zmon.example/api/v1/entities/abc without the trailing slash
    and a path ending in /abc/ with it, and a deeplink resolved against
    the override base stays outside the API namespace. *)
Theorem endpoint_resolution `{Python} :
  (forall self args ts override,
     endpoint self args ts override
     = urljoin (resolution_base self override)
         (join "/" (map segment_text
                      (if ts then (args ++ [PyStr EmptyString])%list else args))))
  /\ (forall p, starts_with "/" (segment_text p) = false
                /\ ends_with "/" (segment_text p) = false)
  /\ (forall self h segs ts,
        url self = "https://" +:+ h +:+ "/api/v1/" ->
        plain_host h = true -> segs <> [] -> forallb plain_segment segs = true ->
        endpoint self (map PyStr segs) ts None
        = Ok (url self +:+ join "/" segs +:+ slash_if ts))
  /\ (forall token username password tmo vfy ua z,
        __init__ "https://zmon.example/" token username password tmo vfy ua = Ok z ->
        url z = "https://zmon.example/api/v1/"
        /\ endpoint z [PyStr "entities"; PyStr "abc"] false None
           = Ok "https://zmon.example/api/v1/entities/abc"
        /\ endpoint z [PyStr "entities"; PyStr "abc"] true None
           = Ok "https://zmon.example/api/v1/entities/abc/"
        /\ endpoint z [PyStr "#/check-definitions/view/"; PyInt 12] true
             (Some (base_url z))
           = Ok "https://zmon.example#/check-definitions/view/12/").
Proof.
  split; [|split; [|split]].
  - intros self args ts override. unfold endpoint, resolution_base, given.
    destruct override as [b|]; [destruct (nonempty b)|]; reflexivity.
  - intros p. unfold starts_with, ends_with, segment_text. apply strip_by_spec.
  - intros self h segs ts Hurl Hh Hne Hall. unfold endpoint. cbn [given].
    rewrite (join_path_plain segs ts Hall), Hurl.
    apply urljoin_api_base; assumption.
  - intros token username password tmo vfy ua z Hz.
    unfold __init__ in Hz.
    change (urlsplit "https://zmon.example/" EmptyString)
      with (Ok (mkSplit "https" "zmon.example" "/" EmptyString EmptyString)) in Hz.
    unfold mbind at 1 in Hz. unfold result_bind at 1 in Hz. cbv beta iota in Hz.
    cbn [scheme netloc] in Hz.
    change (urlunsplit (mkSplit "https" "zmon.example" EmptyString EmptyString EmptyString))
      with "https://zmon.example" in Hz.
    change (urljoin "https://zmon.example"
              (_join_path [PyStr "api"; PyStr API_VERSION; PyStr EmptyString]))
      with (Ok "https://zmon.example/api/v1/") in Hz.
    unfold mbind, result_bind in Hz. injection Hz as Hz. subst z.
    cbn [url base_url]. unfold endpoint. cbn [given url nonempty String.eqb negb default].
    repeat split; reflexivity.
Qed.

Lemma endpoint_resolution_witness :
  @endpoint sample_python sample_client (map PyStr ["entities"; "abc"]) false None
  = Ok (url sample_client +:+ join "/" ["entities"; "abc"] +:+ slash_if false)
  /\ @endpoint sample_python sample_client [PyStr "entities"; PyStr "abc"] true None
     = Ok "https://zmon.example/api/v1/entities/abc/".
Proof.
  split.
  - exact (proj1 (proj2 (proj2 (@endpoint_resolution sample_python)))
             sample_client "zmon.example" ["entities"; "abc"] false
             eq_refl eq_refl ltac:(discriminate) eq_refl).
  - exact (proj1 (proj2 (proj2 (proj2 (proj2 (proj2 (@endpoint_resolution sample_python)))
             None None None 10 true "zmon-client" sample_client eq_refl)))).
Defined.

(* ================================================================== *)
(** * Part III: further properties                                    *)
(* ================================================================== *)

(** ** Entity ids *)

Lemma lower_char_idem c : lower_char (lower_char c) = lower_char c.
Proof.
  destruct c as [[] [] [] [] [] [] [] []]; vm_compute; reflexivity.
Qed.

Lemma lower_char_allowed c : entity_id_char c = true -> entity_id_char (lower_char c) = true.
Proof.
  destruct c as [[] [] [] [] [] [] [] []]; vm_compute; intros H; exact H.
Qed.

Lemma lower_allowed s :
  forall_chars entity_id_char s = true -> forall_chars entity_id_char (lower s) = true.
Proof.
  induction s as [|c s IH]; [reflexivity|]. cbn [lower forall_chars]. intros H.
  apply andb_true_iff in H as [Hc Hs]. now rewrite (lower_char_allowed c Hc), (IH Hs).
Qed.

Lemma normalise_valid t : forall_chars entity_id_char t = true -> normalise t = t.
Proof.
  induction t as [|c t IH]; [reflexivity|]. cbn [forall_chars]. intros H.
  apply andb_true_iff in H as [Hc Ht]. rewrite normalise_cons.
  destruct (kind_of_cases c) as [(_ & ->)|[(_ & ->)|[(-> & _)|(_ & _ & _ & Hn)]]].
  - discriminate.
  - discriminate.
  - now rewrite (IH Ht).
  - congruence.
Qed.

Lemma lower_lowered s : forall_chars lowered s = true -> lower s = s.
Proof.
  induction s as [|c s IH]; [reflexivity|]. cbn [forall_chars lower]. intros H.
  apply andb_true_iff in H as [Hc Hs]. apply Ascii.eqb_eq in Hc. now rewrite Hc, (IH Hs).
Qed.

Lemma lowered_lower s : forall_chars lowered (lower s) = true.
Proof.
  induction s as [|c s IH]; [reflexivity|]. cbn [lower forall_chars]. rewrite IH, andb_true_r.
  unfold lowered. rewrite lower_char_idem. apply Ascii.eqb_refl.
Qed.

Lemma normalise_chars (p : ascii -> bool) t :
  p "["%char = true -> p "]"%char = true -> p "-"%char = true ->
  forall_chars p t = true -> forall_chars p (normalise t) = true.
Proof.
  intros Ho Hc Hd. induction t as [|c t IH]; [reflexivity|]. cbn [forall_chars]. intros H.
  apply andb_true_iff in H as [Hpc Ht]. rewrite normalise_cons. specialize (IH Ht).
  destruct (kind_of c); cbv zeta.
  - cbn [forall_chars]. now rewrite Hpc, IH.
  - destruct (next_kind_is Opening t); [exact IH|].
    change (rewrite_kind Opening EmptyString +:+ normalise t) with (String "[" (normalise t)).
    cbn [forall_chars]. now rewrite Ho, IH.
  - destruct (next_kind_is Closing t); [exact IH|].
    change (rewrite_kind Closing EmptyString +:+ normalise t) with (String "]" (normalise t)).
    cbn [forall_chars]. now rewrite Hc, IH.
  - destruct (next_kind_is Disallowed t); [exact IH|].
    change (rewrite_kind Disallowed EmptyString +:+ normalise t)
      with (String "-" (normalise t)).
    cbn [forall_chars]. now rewrite Hd, IH.
Qed.

Lemma get_valid_entity_id_normalise s : get_valid_entity_id s = normalise (lower s).
Proof. reflexivity. Qed.

Lemma get_valid_entity_id_valid s : is_valid_entity_id (get_valid_entity_id s) = true.
Proof. rewrite is_valid_entity_id_chars. apply invalid_sub_valid. Qed.

(** X1. [get_valid_entity_id] is idempotent: normalising a normalised id
    changes nothing. *)
Theorem get_valid_entity_id_idempotent s :
  get_valid_entity_id (get_valid_entity_id s) = get_valid_entity_id s.
Proof.
  pose proof (get_valid_entity_id_valid s) as Hv. rewrite is_valid_entity_id_chars in Hv.
  rewrite (get_valid_entity_id_normalise (get_valid_entity_id s)).
  rewrite lower_lowered.
  - now apply normalise_valid.
  - rewrite get_valid_entity_id_normalise. apply normalise_chars; try reflexivity.
    apply lowered_lower.
Qed.

(** X2. On an id that [is_valid_entity_id] accepts, [get_valid_entity_id]
    does nothing but lowercase it, and the lowercased id is valid again. *)
Theorem valid_entity_id_only_lowercased s :
  is_valid_entity_id s = true ->
  get_valid_entity_id s = lower s /\ is_valid_entity_id (lower s) = true.
Proof.
  rewrite !is_valid_entity_id_chars. intros H. pose proof (lower_allowed s H) as Hl.
  split; [|exact Hl]. rewrite get_valid_entity_id_normalise. now apply normalise_valid.
Qed.

Lemma valid_entity_id_only_lowercased_witness :
  get_valid_entity_id "Host-1.example:8080" = lower "Host-1.example:8080"
  /\ is_valid_entity_id (lower "Host-1.example:8080") = true.
Proof. refine (valid_entity_id_only_lowercased "Host-1.example:8080" _). vm_compute. reflexivity. Defined.

Lemma has_key_get k d v : dict_get (KStr k) d = Some v -> has_key k d = true.
Proof. unfold has_key, dict_mem. now intros ->. Qed.

(** X3. [add_entity] refuses an entity before any request is issued:
    without an id or without a type it raises the argument error that
    names both fields; with a type and a text id that holds a character
    outside the allowed class it raises the argument error for an invalid
    id; with a type and an id that is not text it raises a TypeError. In
    the three cases the world is left as it was. *)
Theorem add_entity_rejects_before_request `{Python} (self : Zmon) (entity : dict)
    (w : world) :
  let required := "Entity " +:+ dq +:+ "id" +:+ dq +:+ " and " +:+ dq +:+ "type"
                  +:+ dq +:+ " are required." in
  (has_key "id" entity = false \/ has_key "type" entity = false ->
     add_entity self entity w = argument_error required w)
  /\ (forall s,
        dict_get (KStr "id") entity = Some (PyStr s) -> has_key "type" entity = true ->
        forall_chars entity_id_char s = false ->
        add_entity self entity w = argument_error "Invalid entity ID." w)
  /\ (forall v,
        dict_get (KStr "id") entity = Some v -> has_key "type" entity = true ->
        (forall s, v <> PyStr s) ->
        exists msg, add_entity self entity w = (Raise (TypeError msg), w)).
Proof.
  intros required. subst required. rewrite add_entity_run. split; [|split].
  - intros [-> | ->]; [reflexivity|]. now rewrite orb_true_r.
  - intros s Hid Ht Hs. rewrite (has_key_get _ _ _ Hid), Ht. cbn [negb orb].
    unfold dict_item. rewrite Hid. unfold mbind, result_bind. cbn [entity_id_text].
    now rewrite is_valid_entity_id_chars, Hs.
  - intros v Hid Ht Hv. rewrite (has_key_get _ _ _ Hid), Ht. cbn [negb orb].
    unfold dict_item. rewrite Hid. unfold mbind, result_bind.
    destruct v; cbn [entity_id_text]; try (eexists; reflexivity).
    now destruct (Hv s).
Qed.

Lemma add_entity_rejects_before_request_witness :
  let entity := [(KStr "id", PyStr "host 1/a"); (KStr "type", PyStr "host")] in
  let w := answering (mkResponse 200 "OK" "1") in
  @add_entity sample_python sample_client entity w
  = argument_error "Invalid entity ID." w.
Proof.
  cbv zeta.
  exact (proj1 (proj2 (@add_entity_rejects_before_request sample_python sample_client
                         [(KStr "id", PyStr "host 1/a"); (KStr "type", PyStr "host")]
                         (answering (mkResponse 200 "OK" "1"))))
           "host 1/a" eq_refl eq_refl eq_refl).
Defined.

Lemma add_entity_valid `{Python} self entity w s :
  dict_get (KStr "id") entity = Some (PyStr s) -> has_key "type" entity = true ->
  is_valid_entity_id s = true ->
  add_entity self entity w = put_entity self entity w.
Proof.
  intros Hid Ht Hs. unfold add_entity. rewrite (has_key_get _ _ _ Hid), Ht.
  cbn [negb orb]. unfold dict_item. rewrite Hid. unfold put_entity. run.
  cbn [entity_id_text]. rewrite Hs. reflexivity.
Qed.

(** X4. An id produced by [get_valid_entity_id] always passes the id check
    of [add_entity]: for an entity with such an id and a type the
    operation is the PUT of the serialized entity to the entities endpoint
    (without a trailing slash), followed by the status check, and it
    returns the response. *)
Theorem add_entity_accepts_normalised_id `{Python} (self : Zmon) (entity : dict)
    (w : world) (name : string) :
  dict_get (KStr "id") entity = Some (PyStr (get_valid_entity_id name)) ->
  has_key "type" entity = true ->
  add_entity self entity w = put_entity self entity w
  /\ forall data u,
       json_dumps JSONDateEncoder_default (PyDict entity) = Ok data ->
       endpoint self [PyStr ENTITIES] false None = Ok u ->
       add_entity self entity w
       = exchange self PUT u None (Some data) (checked id) w.
Proof.
  intros Hid Ht.
  pose proof (add_entity_valid self entity w _ Hid Ht (get_valid_entity_id_valid name)) as Hrun.
  split; [exact Hrun|]. intros data u Hdata Hu. rewrite Hrun. unfold put_entity, exchange.
  run. rewrite Hdata, Hu. run.
  match goal with |- context [server w ?r] => destruct (server w r) as [resp|x] end;
    [|reflexivity].
  unfold checked, ok. destruct (raise_for_status resp) as [[]|x] eqn:E; [reflexivity|].
  unfold raise_for_status in E.
  destruct ((400 <=? status_code resp) && (status_code resp <? 600)); [|discriminate].
  injection E as <-. reflexivity.
Qed.

Lemma add_entity_accepts_normalised_id_witness :
  let entity := [(KStr "id", PyStr (get_valid_entity_id "Host (A)"));
                 (KStr "type", PyStr "host")] in
  let w := answering (mkResponse 200 "OK" "1") in
  @add_entity sample_python sample_client entity w
  = @put_entity sample_python sample_client entity w.
Proof.
  cbv zeta.
  exact (proj1 (@add_entity_accepts_normalised_id sample_python sample_client
                  [(KStr "id", PyStr (get_valid_entity_id "Host (A)"));
                   (KStr "type", PyStr "host")]
                  (answering (mkResponse 200 "OK" "1")) "Host (A)" eq_refl eq_refl)).
Defined.

(** ** Status checks *)

Lemma ok_range resp :
  ok resp = false <-> 400 <= status_code resp < 600.
Proof.
  unfold ok, raise_for_status.
  destruct (400 <=? status_code resp) eqn:Hlo; destruct (status_code resp <? 600) eqn:Hhi;
    cbn [andb]; split; intros Hx; try discriminate; try reflexivity; lia.
Qed.

Lemma raise_for_status_checked {A} (value : Response -> A) resp :
  (raise_for_status resp;; Ok (value resp)) = checked value resp.
Proof.
  unfold checked, ok. destruct (raise_for_status resp) as [[]|e] eqn:E; [reflexivity|].
  unfold raise_for_status in E.
  destruct ((400 <=? status_code resp) && (status_code resp <? 600)); [|discriminate].
  injection E as <-. reflexivity.
Qed.

Ltac step_exchange :=
  unfold exchange; run;
  repeat match goal with
    | H : endpoint _ _ _ _ = Ok _ |- _ => rewrite H
    end; run;
  try match goal with
    | |- context [server ?w ?r] => destruct (server w r) as [?resp|?e]; [|reflexivity]
    end.

(** X5. [remove_member], [add_phone], [remove_phone], [set_name],
    [delete_entity], [delete_check_definition] and [get_onetime_token]
    each send one request and call [raise_for_status] on the answer: a
    response whose status is from 400 to 599 raises the HTTP error carrying
    that response, any other response gives the value of the operation
    (whether the body is the text 1, the response itself, or the body). *)
Theorem status_checked_operations `{Python} (self : Zmon) :
  (forall resp, ok resp = false <-> 400 <= status_code resp < 600)
  /\ (forall g n, checks_status self DELETE [PyStr GROUPS; g; PyStr MEMBER; n] None is_one
                    (remove_member self g n))
  /\ (forall e p, checks_status self PUT [PyStr GROUPS; e; PyStr PHONE; p] None is_one
                    (add_phone self e p))
  /\ (forall e p, checks_status self DELETE [PyStr GROUPS; e; PyStr PHONE; p] None is_one
                    (remove_phone self e p))
  /\ (forall e n, checks_status self PUT [PyStr GROUPS; e; PyStr PHONE; n] None id
                    (set_name self e n))
  /\ (forall i, checks_status self DELETE [PyStr ENTITIES; i] None is_one
                  (delete_entity self i))
  /\ (forall i, checks_status self DELETE [PyStr CHECK_DEF; i] None id
                  (delete_check_definition self i))
  /\ checks_status self POST [PyStr TOKENS] (Some (JObj [])) text (get_onetime_token self).
Proof.
  split; [exact ok_range|].
  repeat split; intros; intros w u Hu;
    unfold remove_member, add_phone, remove_phone, set_name, delete_entity,
      delete_check_definition, get_onetime_token;
    step_exchange; cbn [json_dumps mapM fmap result_fmap]; run;
    try (destruct (server w _) as [resp|e]; [|reflexivity]);
    rewrite <- raise_for_status_checked; unfold mbind, result_bind;
    destruct (raise_for_status resp); reflexivity.
Qed.

Lemma status_checked_operations_witness :
  let w := answering (mkResponse 503 "Service Unavailable" "1") in
  @add_phone sample_python sample_client (PyStr "a@example.org") (PyStr "+4930")  w
  = (Raise (HTTPError (mkResponse 503 "Service Unavailable" "1")),
     after w (the_request sample_client PUT
                "https://zmon.example/api/v1/groups/a@example.org/phone/+4930/" None None)).
Proof.
  cbv zeta.
  exact (proj1 (proj2 (proj2 (@status_checked_operations sample_python sample_client)))
           (PyStr "a@example.org") (PyStr "+4930")
           (answering (mkResponse 503 "Service Unavailable" "1")) _ eq_refl).
Defined.

(** X6. [set_name] addresses the phone route: it leaves the world exactly as
    [add_phone] does with the same two arguments (the same PUT request to
    groups/<email>/phone/<value>/), and the two differ only in what they
    return, the response or whether its body is the text 1. *)
Theorem set_name_uses_phone_route `{Python} (self : Zmon) (member_email value : pyval)
    (w : world) :
  snd (set_name self member_email value w) = snd (add_phone self member_email value w)
  /\ fst (add_phone self member_email value w)
     = is_one <$> fst (set_name self member_email value w).
Proof.
  unfold set_name, add_phone. run.
  destruct (endpoint self _ true None) as [u|e]; [|split; reflexivity]. run.
  destruct (server w _) as [resp|e]; [|split; reflexivity].
  destruct (raise_for_status resp); split; reflexivity.
Qed.

(** X7. [switch_active_user] first sends the DELETE that de-activates the
    group; when the transport fails or the answer has an error status the
    operation stops there with that error, and the PUT is never sent;
    otherwise it sends the PUT for the user and its outcome is that of
    this second exchange. *)
Theorem switch_active_user_sequence `{Python} (self : Zmon) (group_name user_name : pyval)
    (w : world) (u1 : string) :
  endpoint self [PyStr GROUPS; group_name; PyStr "active"] true None = Ok u1 ->
  let r1 := the_request self DELETE u1 None None in
  (forall e, server w r1 = Raise e ->
     switch_active_user self group_name user_name w = (Raise e, after w r1))
  /\ (forall resp1, server w r1 = Ok resp1 -> ok resp1 = false ->
        switch_active_user self group_name user_name w
        = (Raise (HTTPError resp1), after w r1))
  /\ (forall resp1 u2, server w r1 = Ok resp1 -> ok resp1 = true ->
        endpoint self [PyStr GROUPS; group_name; PyStr "active"; user_name] true None
        = Ok u2 ->
        switch_active_user self group_name user_name w
        = exchange self PUT u2 None None (checked is_one) (after w r1)).
Proof.
  intros Hu1 r1. unfold switch_active_user. run. rewrite Hu1. run. fold r1.
  split; [|split].
  - intros e He. now rewrite He.
  - intros resp1 Hr Hok. rewrite Hr, Hok. cbn [negb]. run.
    unfold ok in Hok. unfold raise_for_status in *.
    destruct ((400 <=? status_code resp1) && (status_code resp1 <? 600)); [reflexivity|discriminate].
  - intros resp1 u2 Hr Hok Hu2. rewrite Hr, Hok. cbn [negb]. run. rewrite Hu2. run.
    unfold exchange. run. clear Hr.
    match goal with |- context [server w ?r] => destruct (server w r) as [resp2|e] end;
      [|reflexivity].
    unfold checked. destruct (ok resp2) eqn:Hok2; cbn [negb]; [reflexivity|].
    unfold ok in Hok2. destruct (raise_for_status resp2) as [[]|e] eqn:E; [discriminate|].
    unfold raise_for_status in E.
    destruct ((400 <=? status_code resp2) && (status_code resp2 <? 600)); [|discriminate].
    injection E as <-. reflexivity.
Qed.

Lemma switch_active_user_sequence_witness :
  let w := answering (mkResponse 404 "Not Found" "0") in
  @switch_active_user sample_python sample_client (PyStr "ops") (PyStr "alice") w
  = (Raise (HTTPError (mkResponse 404 "Not Found" "0")),
     after w (the_request sample_client DELETE
                "https://zmon.example/api/v1/groups/ops/active/" None None)).
Proof.
  cbv zeta.
  exact (proj1 (proj2 (@switch_active_user_sequence sample_python sample_client
                         (PyStr "ops") (PyStr "alice")
                         (answering (mkResponse 404 "Not Found" "0")) _ eq_refl))
           _ eq_refl eq_refl).
Defined.

(** X8. [get_check_definition] reports every answer with an empty body as
    404 Not Found, whatever status the backend gave (a 500 included); an
    answer with a body is handled with its own status. *)
Theorem get_check_definition_masks_status `{Python} (self : Zmon) (definition_id : pyval)
    (w : world) (u : string) (resp : Response) :
  endpoint self [PyStr CHECK_DEF; definition_id] true None = Ok u ->
  server w (the_request self GET u None None) = Ok resp ->
  (text resp = EmptyString ->
     fst (get_check_definition self definition_id w) = Raise (HTTPError not_found))
  /\ (text resp <> EmptyString ->
      fst (get_check_definition self definition_id w) = json resp).
Proof.
  intros Hu Hresp. rewrite (get_check_definition_run self definition_id w u resp Hu Hresp).
  cbn [fst]. split.
  - intros Ht. rewrite Ht. reflexivity.
  - intros Ht. destruct (String.eqb_spec (text resp) EmptyString); [contradiction|reflexivity].
Qed.

Lemma get_check_definition_masks_status_witness :
  fst (@get_check_definition sample_python sample_client (PyInt 7)
         (answering (mkResponse 500 "Internal Server Error" EmptyString)))
  = Raise (HTTPError not_found).
Proof.
  exact (proj1 (@get_check_definition_masks_status sample_python sample_client (PyInt 7)
                  (answering (mkResponse 500 "Internal Server Error" EmptyString))
                  _ _ eq_refl eq_refl) eq_refl).
Defined.

(** ** Addresses *)

Lemma join_path_text `{Python} parts : _join_path parts = join "/" (map segment_text parts).
Proof. reflexivity. Qed.

Lemma join_trailing segs segs' ts :
  segs <> [] -> segs' <> [] -> join "/" segs = join "/" segs' ->
  join "/" (with_trailing ts segs) = join "/" (with_trailing ts segs').
Proof.
  intros Hne Hne' Hj. destruct ts; cbn [with_trailing]; [|exact Hj].
  now rewrite !join_snoc, Hj by assumption.
Qed.

Lemma endpoint_api_joined `{Python} self h args segs ts :
  api_client self h ->
  args <> [] -> segs <> [] -> forallb plain_segment segs = true ->
  join "/" (map segment_text args) = join "/" segs ->
  endpoint self args ts None = Ok (url self +:+ join "/" segs +:+ slash_if ts).
Proof.
  intros [Hurl Hh] Hargs Hsegs Hall Hj. unfold endpoint. cbn [given]. rewrite Hurl.
  rewrite join_path_text.
  assert (Hmap : map segment_text (if ts then (args ++ [PyStr EmptyString])%list else args)
                 = with_trailing ts (map segment_text args)).
  { destruct ts; cbn [with_trailing]; [|reflexivity]. now rewrite map_app. }
  rewrite Hmap, (join_trailing (map segment_text args) segs ts); [|now destruct args|assumption..].
  now apply urljoin_api_base.
Qed.

Lemma endpoint_api `{Python} self h args ts :
  api_client self h ->
  args <> [] -> forallb plain_segment (map segment_text args) = true ->
  endpoint self args ts None
  = Ok (url self +:+ join "/" (map segment_text args) +:+ slash_if ts).
Proof.
  intros Hself Hargs Hall.
  apply (endpoint_api_joined self h args (map segment_text args) ts); auto.
  now destruct args.
Qed.

Lemma fetch_run {A} self m (e : result string) (k : Response -> result A) u w :
  e = Ok u ->
  (u0 ← lift e; resp ← session_request (session self) m u0 None None; lift (k resp)) w
  = exchange self m u None None k w.
Proof.
  intros ->. unfold exchange. run.
  match goal with |- context [server w ?r] => destruct (server w r) end; reflexivity.
Qed.

(** X9. The addresses of the read operations. For a client whose API base is
    https://host/api/v1/ and an argument whose text is a plain path
    segment, each operation is one exchange with the address listed, the
    answer being decoded by [json]. [get_entity] is the only one whose
    address has no trailing slash. *)
Theorem read_routes `{Python} (self : Zmon) (h : string) (id : pyval) :
  api_client self h -> plain_arg id ->
  let base := url self in
  let i := segment_text id in
  one_exchange self (zmon_status self) GET (base +:+ "status/") json
  /\ one_exchange self (get_groups self) GET (base +:+ "groups/") json
  /\ one_exchange self (list_onetime_tokens self) GET (base +:+ "onetime-tokens/") json
  /\ one_exchange self (get_entity self id) GET (base +:+ "entities/" +:+ i) json
  /\ one_exchange self (get_dashboard self id) GET (base +:+ "dashboard/" +:+ i +:+ "/") json
  /\ one_exchange self (get_alert_definition self id) GET
       (base +:+ "alert-definitions/" +:+ i +:+ "/") json
  /\ one_exchange self (get_alert_data self id) GET
       (base +:+ "status/alert/" +:+ i +:+ "/all-entities/") json
  /\ one_exchange self (get_grafana_dashboard self id) GET
       (base +:+ "grafana2-dashboards/" +:+ i +:+ "/") json
  /\ one_exchange self (delete_alert_definition self id) DELETE
       (base +:+ "alert-definitions/" +:+ i +:+ "/") json.
Proof.
  intros Hself Hid base i. unfold plain_arg in Hid. fold i in Hid.
  assert (H1 : forall c ts, plain_segment c = true ->
            endpoint self [PyStr c] ts None = Ok (base +:+ c +:+ slash_if ts)).
  { intros c ts Hc.
    rewrite (endpoint_api self h [PyStr c] ts Hself ltac:(discriminate));
      cbn [map forallb]; rewrite (segment_text_plain c Hc); [reflexivity|].
    now rewrite Hc. }
  assert (H2 : forall c ts, plain_segment c = true ->
            endpoint self [PyStr c; id] ts None
            = Ok (base +:+ c +:+ "/" +:+ i +:+ slash_if ts)).
  { intros c ts Hc.
    rewrite (endpoint_api self h [PyStr c; id] ts Hself ltac:(discriminate));
      cbn [map forallb]; rewrite (segment_text_plain c Hc).
    - fold i. cbn [join]. now rewrite !append_assoc.
    - fold i. now rewrite Hc, Hid. }
  assert (H3 : endpoint self [PyStr ALERT_DATA; id; PyStr "all-entities"] true None
               = Ok (base +:+ "status/alert/" +:+ i +:+ "/all-entities/")).
  { rewrite (endpoint_api_joined self h _ ["status"; "alert"; i; "all-entities"] true Hself);
      try discriminate; try reflexivity.
    - cbn [join slash_if]. now rewrite !append_assoc.
    - cbn [forallb]. now rewrite Hid. }
  cbv zeta. fold base. fold i.
  repeat split; intros w.
  - exact (fetch_run self GET _ json _ w (H1 STATUS true eq_refl)).
  - exact (fetch_run self GET _ json _ w (H1 GROUPS true eq_refl)).
  - exact (fetch_run self GET _ json _ w (H1 TOKENS true eq_refl)).
  - rewrite <- (append_empty i).
    exact (fetch_run self GET _ json _ w (H2 ENTITIES false eq_refl)).
  - exact (fetch_run self GET _ json _ w (H2 DASHBOARD true eq_refl)).
  - exact (fetch_run self GET _ json _ w (H2 ALERT_DEF true eq_refl)).
  - exact (fetch_run self GET _ json _ w H3).
  - exact (fetch_run self GET _ json _ w (H2 GRAFANA true eq_refl)).
  - exact (fetch_run self DELETE _ json _ w (H2 ALERT_DEF true eq_refl)).
Qed.

Lemma read_routes_witness :
  @one_exchange _ sample_client (@get_alert_data sample_python sample_client (PyInt 42)) GET
    "https://zmon.example/api/v1/status/alert/42/all-entities/" (@json sample_python)
  /\ @one_exchange _ sample_client (@get_entity sample_python sample_client (PyStr "/host-1/"))
       GET "https://zmon.example/api/v1/entities/host-1" (@json sample_python).
Proof.
  split.
  - exact (proj1 (proj2 (proj2 (proj2 (proj2 (proj2 (proj2
             (@read_routes sample_python sample_client "zmon.example" (PyInt 42)
                (conj eq_refl eq_refl) eq_refl)))))))).
  - exact (proj1 (proj2 (proj2 (proj2
             (@read_routes sample_python sample_client "zmon.example" (PyStr "/host-1/")
                (conj eq_refl eq_refl) eq_refl))))).
Defined.

Lemma checked_run {A} self m (e : result string) (value : Response -> A) u w :
  e = Ok u ->
  (u0 ← lift e; resp ← session_request (session self) m u0 None None;
   lift (raise_for_status resp);; mret (value resp)) w
  = exchange self m u None None (checked value) w.
Proof.
  intros ->. unfold exchange. run.
  match goal with |- context [server w ?r] => destruct (server w r) as [resp|x] end;
    [|reflexivity].
  unfold checked, ok. destruct (raise_for_status resp) as [[]|x] eqn:E; [reflexivity|].
  unfold raise_for_status in E.
  destruct ((400 <=? status_code resp) && (status_code resp <? 600)); [|discriminate].
  injection E as <-. reflexivity.
Qed.

(** X10. The addresses of the member, phone and delete operations, under the
    same conditions: one exchange each with the address listed, followed
    by the status check. *)
Theorem write_routes `{Python} (self : Zmon) (h : string) (a b : pyval) :
  api_client self h -> plain_arg a -> plain_arg b ->
  let base := url self in
  let x := segment_text a in
  let y := segment_text b in
  one_exchange self (remove_member self a b) DELETE
    (base +:+ "groups/" +:+ x +:+ "/member/" +:+ y +:+ "/") (checked is_one)
  /\ one_exchange self (add_phone self a b) PUT
       (base +:+ "groups/" +:+ x +:+ "/phone/" +:+ y +:+ "/") (checked is_one)
  /\ one_exchange self (remove_phone self a b) DELETE
       (base +:+ "groups/" +:+ x +:+ "/phone/" +:+ y +:+ "/") (checked is_one)
  /\ one_exchange self (set_name self a b) PUT
       (base +:+ "groups/" +:+ x +:+ "/phone/" +:+ y +:+ "/") (checked id)
  /\ one_exchange self (delete_entity self a) DELETE
       (base +:+ "entities/" +:+ x +:+ "/") (checked is_one)
  /\ one_exchange self (delete_check_definition self a) DELETE
       (base +:+ "check-definitions/" +:+ x +:+ "/") (checked id).
Proof.
  intros Hself Ha Hb base x y. unfold plain_arg in Ha, Hb. fold x in Ha. fold y in Hb.
  assert (H2 : forall c, plain_segment c = true ->
            endpoint self [PyStr c; a] true None
            = Ok (base +:+ c +:+ "/" +:+ x +:+ "/")).
  { intros c Hc.
    rewrite (endpoint_api self h [PyStr c; a] true Hself ltac:(discriminate));
      cbn [map forallb]; rewrite (segment_text_plain c Hc).
    - fold x. cbn [join slash_if]. now rewrite !append_assoc.
    - fold x. now rewrite Hc, Ha. }
  assert (H4 : forall c d, plain_segment c = true -> plain_segment d = true ->
            endpoint self [PyStr c; a; PyStr d; b] true None
            = Ok (base +:+ c +:+ "/" +:+ x +:+ "/" +:+ d +:+ "/" +:+ y +:+ "/")).
  { intros c d Hc Hd.
    rewrite (endpoint_api self h [PyStr c; a; PyStr d; b] true Hself ltac:(discriminate));
      cbn [map forallb]; rewrite (segment_text_plain c Hc), (segment_text_plain d Hd).
    - fold x y. cbn [join slash_if]. now rewrite !append_assoc.
    - fold x y. now rewrite Hc, Hd, Ha, Hb. }
  repeat split; intros w.
  - exact (checked_run self DELETE _ is_one _ w (H4 GROUPS MEMBER eq_refl eq_refl)).
  - exact (checked_run self PUT _ is_one _ w (H4 GROUPS PHONE eq_refl eq_refl)).
  - exact (checked_run self DELETE _ is_one _ w (H4 GROUPS PHONE eq_refl eq_refl)).
  - exact (checked_run self PUT _ id _ w (H4 GROUPS PHONE eq_refl eq_refl)).
  - exact (checked_run self DELETE _ is_one _ w (H2 ENTITIES eq_refl)).
  - exact (checked_run self DELETE _ id _ w (H2 CHECK_DEF eq_refl)).
Qed.

Lemma write_routes_witness :
  @one_exchange _ sample_client
    (@set_name sample_python sample_client (PyStr "a@example.org") (PyStr "Alice")) PUT
    "https://zmon.example/api/v1/groups/a@example.org/phone/Alice/" (checked id).
Proof.
  exact (proj1 (proj2 (proj2 (proj2
           (@write_routes sample_python sample_client "zmon.example"
              (PyStr "a@example.org") (PyStr "Alice") (conj eq_refl eq_refl)
              eq_refl eq_refl))))).
Defined.

Lemma plain_host_facts h :
  plain_host h = true ->
  nonempty h = true
  /\ remove_chars unsafe_url_byte h = h
  /\ contains "[" h = false /\ contains "]" h = false
  /\ forall_chars (fun c => negb (netloc_end c)) h = true.
Proof.
  unfold plain_host. intros Hh. apply andb_true_iff in Hh as [Hne Hh].
  split; [exact Hne|]. split; [|split; [|split]].
  - apply remove_chars_none. eapply forall_chars_impl; [|exact Hh]. intros x Hx.
    destruct (host_char_facts x Hx) as (Hp & _).
    destruct (path_char_facts x Hp) as (_ & Hu & _). now rewrite Hu.
  - apply (contains_none host_char); [reflexivity|exact Hh].
  - apply (contains_none host_char); [reflexivity|exact Hh].
  - eapply forall_chars_impl; [|exact Hh]. intros x Hx. unfold netloc_end.
    destruct (host_char_facts x Hx) as (Hp & Hs & _).
    destruct (path_char_facts x Hp) as (_ & _ & Hq & Hf & _).
    now rewrite Hs, Hq, Hf.
Qed.

(** The scheme and the network location of [https://h] followed by
    anything that starts a path, a query or a fragment. *)
Lemma urlsplit_https `{Python} h p :
  plain_host h = true -> p = EmptyString \/ starts_in netloc_end p = true ->
  exists pa q f,
    urlsplit ("https://" +:+ h +:+ p) EmptyString = Ok (mkSplit "https" h pa q f)
    /\ (p = EmptyString -> pa = EmptyString /\ q = EmptyString /\ f = EmptyString).
Proof.
  intros Hh Hp. destruct (plain_host_facts h Hh) as (Hne & Hsafe & Hopen & Hclose & Hloc).
  set (p' := remove_chars unsafe_url_byte p).
  assert (Hp' : starts_in netloc_end p' = false -> p' = EmptyString).
  { destruct Hp as [->|Hp]; [reflexivity|]. subst p'. destruct p as [|c p]; [reflexivity|].
    cbn [starts_in] in Hp. cbn [remove_chars].
    assert (Hu : unsafe_url_byte c = false).
    { unfold netloc_end in Hp. unfold unsafe_url_byte.
      destruct (is_char "/" c) eqn:E1; [apply is_char_eq in E1; now subst c|].
      destruct (is_char "?" c) eqn:E2; [apply is_char_eq in E2; now subst c|].
      destruct (is_char "#" c) eqn:E3; [apply is_char_eq in E3; now subst c|].
      discriminate. }
    rewrite Hu. cbn [starts_in]. congruence. }
  assert (Hsplit : splitnetloc (h +:+ p') = (h, p')).
  { unfold splitnetloc. destruct (starts_in netloc_end p') eqn:E.
    - apply span_app; [exact Hloc|]. destruct p'; [discriminate|].
      cbn [starts_in] in *. unfold netloc_end in E. now rewrite E.
    - rewrite (Hp' eq_refl), append_empty.
      pose proof (span_app (fun c => negb (is_char "/" c || is_char "?" c || is_char "#" c))
                    h EmptyString Hloc eq_refl) as Hs.
      now rewrite append_empty in Hs. }
  unfold urlsplit. set (rest := h +:+ p).
  change (lstrip_by c0_control_or_space ("https://" +:+ rest)) with ("https://" +:+ rest).
  rewrite (remove_chars_app unsafe_url_byte "https://" rest).
  change (remove_chars unsafe_url_byte "https://") with "https://".
  unfold rest. rewrite remove_chars_app, Hsafe. fold p'.
  change (cut ":" ("https://" +:+ h +:+ p')) with ("https", Some ("//" +:+ h +:+ p')).
  cbv beta iota.
  change (is_ascii_letter "h" && forall_chars scheme_char "https") with true.
  cbv beta iota.
  change (after_two_slashes ("//" +:+ h +:+ p')) with (Some (h +:+ p')).
  cbv beta iota. rewrite Hsplit. cbv beta iota. rewrite Hopen, Hclose.
  cbn [andb orb negb]. unfold mbind, result_bind.
  destruct (cut "#" p') as [hd [r|]] eqn:E1.
  - destruct (cut "?" hd) as [hd' [r'|]] eqn:E2; do 3 eexists; (split; [reflexivity|]);
      intros ->; subst p'; discriminate.
  - destruct (cut "?" p') as [hd' [r'|]] eqn:E2; do 3 eexists; (split; [reflexivity|]);
      intros ->; subst p'; cbn in E2; try discriminate. now split.
Qed.

Lemma urlsplit_host `{Python} h :
  plain_host h = true ->
  urlsplit ("https://" +:+ h) EmptyString
  = Ok (mkSplit "https" h EmptyString EmptyString EmptyString).
Proof.
  intros Hh. destruct (urlsplit_https h EmptyString Hh (or_introl eq_refl))
    as (pa & q & f & Hs & Hp).
  destruct (Hp eq_refl) as (-> & -> & ->). rewrite <- Hs.
  now rewrite (append_empty h).
Qed.

Lemma urlparse_host `{Python} h :
  plain_host h = true ->
  urlparse ("https://" +:+ h) EmptyString
  = Ok (mkSplit "https" h EmptyString EmptyString EmptyString, EmptyString).
Proof. intros Hh. unfold urlparse. rewrite (urlsplit_host h Hh). reflexivity. Qed.

Lemma urlunsplit_host h :
  plain_host h = true ->
  urlunsplit (mkSplit "https" h EmptyString EmptyString EmptyString) = "https://" +:+ h.
Proof.
  intros Hh. destruct (plain_host_facts h Hh) as (Hne & _).
  unfold urlunsplit. cbn [scheme netloc path query fragment]. rewrite Hne.
  change (nonempty EmptyString) with false. change (nonempty "https") with true.
  cbv beta iota delta [orb andb negb].
  rewrite append_empty. reflexivity.
Qed.

Lemma filter_middle_root l :
  l <> [] -> forallb nonempty (removelast l) = true ->
  filter_middle (EmptyString :: l) = EmptyString :: l.
Proof.
  intros Hne Hall. unfold filter_middle. destruct l as [|x l]; [congruence|].
  f_equal.
  assert (List.filter nonempty (removelast (x :: l)) = removelast (x :: l)) as ->.
  { induction (removelast (x :: l)) as [|y ys IH]; [reflexivity|].
    cbn [forallb] in Hall. apply andb_true_iff in Hall as [Hy Hys].
    cbn [List.filter]. now rewrite Hy, (IH Hys). }
  symmetry. apply app_removelast_last. discriminate.
Qed.

(** A relative path resolved against a base without a path. *)
Lemma urljoin_host `{Python} h segs ts :
  plain_host h = true -> segs <> [] -> forallb plain_segment segs = true ->
  urljoin ("https://" +:+ h) (join "/" (with_trailing ts segs))
  = Ok ("https://" +:+ h +:+ "/" +:+ join "/" segs +:+ slash_if ts).
Proof.
  intros Hh Hne Hall.
  destruct (relative_path segs ts Hne Hall) as (Hj & Hstart & Hchars & Hsplit).
  rewrite Hj. set (rel := join "/" segs +:+ slash_if ts) in *.
  assert (Hrel : nonempty rel = true) by (destruct rel; [discriminate|reflexivity]).
  assert (Hnoslash : starts_with "/" rel = false).
  { destruct rel as [|c r]; [reflexivity|]. cbn [starts_in] in Hstart.
    unfold starts_with. cbn [starts_in]. now apply plain_char_no_slash. }
  unfold urljoin.
  change (nonempty ("https://" +:+ h)) with true. rewrite Hrel.
  cbv beta iota delta [negb].
  rewrite (urlparse_host h Hh). unfold mbind at 1. unfold result_bind at 1.
  cbv beta iota. cbn [scheme].
  rewrite (urlparse_relative rel Hstart Hchars). unfold mbind, result_bind.
  cbv beta iota. cbn [scheme netloc path query fragment].
  rewrite Hnoslash, Hsplit, Hrel.
  change (String.eqb "https" "https") with true.
  change (str_in "https" uses_relative) with true.
  change (str_in "https" uses_netloc) with true.
  change (nonempty EmptyString) with false.
  change (split "/" EmptyString) with [EmptyString].
  cbv beta iota delta [orb andb]. cbn [List.last].
  change (nonempty EmptyString) with false. cbv beta iota.
  destruct (with_trailing_facts segs ts Hne Hall) as (Hl & Hnonempty & Hdots).
  change ([EmptyString] ++ with_trailing ts segs)%list
    with (EmptyString :: with_trailing ts segs).
  rewrite (filter_middle_root _ Hl Hnonempty).
  set (l := with_trailing ts segs) in *.
  unfold resolve_segments.
  rewrite (resolve_segments_plain [] (EmptyString :: l))
    by (cbn [forallb]; rewrite Hdots; reflexivity).
  change (EmptyString :: l) with ([EmptyString] ++ l)%list.
  rewrite (last_after [EmptyString] l _ Hl).
  pose proof (not_dots_last l Hl Hdots) as Hlast. unfold not_dots in Hlast.
  apply andb_true_iff in Hlast as [H2 H1]. apply negb_true_iff in H1, H2.
  rewrite H1, H2. cbv beta iota delta [orb]. cbn [app].
  rewrite (join_cons "/" EmptyString l Hl), Hj.
  change (EmptyString +:+ "/" +:+ rel) with ("/" +:+ rel).
  change (nonempty ("/" +:+ rel)) with true. cbv beta iota.
  unfold urlunparse, urlunsplit. cbn [scheme netloc path query fragment].
  destruct (plain_host_facts h Hh) as (Hne' & _). rewrite Hne'.
  change (nonempty EmptyString) with false.
  change (nonempty "https") with true.
  change (nonempty ("/" +:+ rel)) with true.
  change (starts_with "/" ("/" +:+ rel)) with true.
  cbv beta iota delta [orb andb negb].
  reflexivity.
Qed.

(** A fragment resolved against a base without a path. *)
Lemma urljoin_fragment `{Python} h frag :
  plain_host h = true -> nonempty frag = true -> forall_chars path_char frag = true ->
  urljoin ("https://" +:+ h) ("#" +:+ frag) = Ok ("https://" +:+ h +:+ "#" +:+ frag).
Proof.
  intros Hh Hne Hchars.
  assert (Hsplit : urlsplit ("#" +:+ frag) "https"
                   = Ok (mkSplit "https" EmptyString EmptyString EmptyString frag)).
  { unfold urlsplit.
    change (lstrip_by c0_control_or_space ("#" +:+ frag)) with ("#" +:+ frag).
    rewrite (remove_chars_app unsafe_url_byte "#" frag).
    change (remove_chars unsafe_url_byte "#") with "#".
    rewrite (remove_chars_none unsafe_url_byte frag).
    2:{ eapply forall_chars_impl; [|exact Hchars]. intros x Hx.
        destruct (path_char_facts x Hx) as (_ & Hu & _). now rewrite Hu. }
    change ("#" +:+ frag) with (String "#" frag).
    assert (Hcolon : cut ":" (String "#" frag) = (String "#" frag, None)).
    { apply cut_none. cbn [contains]. change (Ascii.eqb "#" ":") with false.
      cbn [orb]. now apply (path_chars_contain ":"). }
    rewrite Hcolon. cbv beta iota.
    change (strip_by c0_control_or_space "https") with "https".
    change (remove_chars unsafe_url_byte "https") with "https".
    change (after_two_slashes (String "#" frag)) with (@None string).
    unfold mbind, result_bind. cbv beta iota.
    change (cut "#" (String "#" frag)) with (EmptyString, Some frag).
    cbv beta iota. reflexivity. }
  unfold urljoin.
  change (nonempty ("https://" +:+ h)) with true.
  change (nonempty ("#" +:+ frag)) with true.
  cbv beta iota delta [negb].
  rewrite (urlparse_host h Hh). unfold mbind at 1. unfold result_bind at 1.
  cbv beta iota. cbn [scheme].
  unfold urlparse. rewrite Hsplit. unfold mbind, result_bind.
  cbv beta iota. cbn [scheme netloc path query fragment contains andb].
  rewrite andb_false_r. cbv beta iota. cbn [scheme netloc path query fragment].
  change (String.eqb "https" "https") with true.
  change (str_in "https" uses_relative) with true.
  change (str_in "https" uses_netloc) with true.
  change (nonempty EmptyString) with false.
  cbv beta iota delta [orb andb negb].
  unfold urlunparse, urlunsplit. cbn [scheme netloc path query fragment].
  destruct (plain_host_facts h Hh) as (Hne' & _). rewrite Hne', Hne.
  change (nonempty EmptyString) with false.
  change (nonempty "https") with true.
  cbv beta iota delta [orb andb negb].
  change (nonempty EmptyString) with false. cbv beta iota.
  rewrite (append_empty h).
  change ("https" +:+ ":" +:+ "//" +:+ h) with ("https://" +:+ h).
  now rewrite !append_assoc.
Qed.

Lemma init_run `{Python} h p token username password tmo vfy ua :
  plain_host h = true -> p = EmptyString \/ starts_in netloc_end p = true ->
  exists s,
    __init__ ("https://" +:+ h +:+ p) token username password tmo vfy ua
    = Ok (mkZmon tmo ("https://" +:+ h) ("https://" +:+ h +:+ "/api/v1/") s ua)
    /\ verify s = vfy /\ session_timeout s = Some tmo.
Proof.
  intros Hh Hp. destruct (urlsplit_https h p Hh Hp) as (pa & q & f & Hs & _).
  unfold __init__. rewrite Hs. unfold mbind at 1. unfold result_bind at 1.
  cbv beta iota. cbn [scheme netloc]. rewrite (urlunsplit_host h Hh).
  change (_join_path [PyStr "api"; PyStr API_VERSION; PyStr EmptyString])
    with (join "/" (with_trailing true ["api"; "v1"])).
  rewrite (urljoin_host h ["api"; "v1"] true Hh ltac:(discriminate) eq_refl).
  unfold mbind, result_bind. cbv beta iota.
  change ("https://" +:+ h +:+ "/" +:+ join "/" ["api"; "v1"] +:+ slash_if true)
    with ("https://" +:+ h +:+ "/api/v1/").
  eexists. split; [reflexivity|].
  destruct vfy, (given token), (given username && given password && is_None token);
    split; reflexivity.
Qed.

(** X11. [__init__] keeps the scheme and the host of the URL it is given and
    nothing else: for https://host followed by any path, query or
    fragment the base is https://host and the API base is
    https://host/api/v1/. The timeout, the verify flag and the user agent
    are stored as given. *)
Theorem init_keeps_scheme_and_host `{Python} (h p : string)
    (token username password : option string) (tmo : Z) (vfy : bool) (ua : string) :
  plain_host h = true -> p = EmptyString \/ starts_in netloc_end p = true ->
  exists z,
    __init__ ("https://" +:+ h +:+ p) token username password tmo vfy ua = Ok z
    /\ base_url z = "https://" +:+ h
    /\ url z = "https://" +:+ h +:+ "/api/v1/"
    /\ timeout z = tmo /\ session_timeout (session z) = Some tmo
    /\ verify (session z) = vfy /\ user_agent z = ua.
Proof.
  intros Hh Hp.
  destruct (init_run h p token username password tmo vfy ua Hh Hp) as (s & Hz & Hv & Ht).
  eexists. split; [exact Hz|]. cbn [base_url url timeout session user_agent].
  repeat split; assumption.
Qed.

Lemma init_keeps_scheme_and_host_witness :
  exists z,
    @__init__ sample_python ("https://" +:+ "zmon.example" +:+ "/some/path?x=1#top")
      None None None 10 true "zmon-client" = Ok z
    /\ base_url z = "https://" +:+ "zmon.example"
    /\ url z = "https://" +:+ "zmon.example" +:+ "/api/v1/"
    /\ timeout z = 10 /\ session_timeout (session z) = Some 10
    /\ verify (session z) = true /\ user_agent z = "zmon-client".
Proof.
  exact (@init_keeps_scheme_and_host sample_python "zmon.example" "/some/path?x=1#top"
           None None None 10 true "zmon-client" eq_refl (or_intror eq_refl)).
Defined.

Lemma urlsplit_bare `{Python} u :
  starts_in plain_char u = true -> forall_chars path_char u = true ->
  urlsplit u EmptyString
  = Ok (mkSplit EmptyString EmptyString u EmptyString EmptyString).
Proof.
  intros Hstart Hchars. unfold urlsplit.
  destruct u as [|c r]; [discriminate|]. cbn [starts_in] in Hstart.
  unfold plain_char in Hstart. apply andb_true_iff in Hstart as [Hc Hslash].
  apply negb_true_iff in Hslash.
  destruct (path_char_facts c Hc) as (Hc0 & _).
  cbn [lstrip_by]. rewrite Hc0.
  rewrite (remove_chars_none unsafe_url_byte (String c r)).
  2:{ eapply forall_chars_impl; [|exact Hchars]. intros x Hx.
      destruct (path_char_facts x Hx) as (_ & Hu & _). now rewrite Hu. }
  rewrite (cut_none ":" (String c r)) by (now apply (path_chars_contain ":")).
  assert (Hats : after_two_slashes (String c r) = None).
  { unfold after_two_slashes. unfold is_char in Hslash.
    destruct (Ascii.eqb_spec "/" c) as [<-|Hne]; [discriminate|].
    destruct c as [[] [] [] [] [] [] [] []]; try reflexivity. congruence. }
  change (strip_by c0_control_or_space EmptyString) with EmptyString.
  change (remove_chars unsafe_url_byte EmptyString) with EmptyString.
  cbv beta iota. rewrite Hats.
  unfold mbind, result_bind. cbv beta iota.
  rewrite (cut_none "#" (String c r)) by (now apply (path_chars_contain "#")).
  rewrite (cut_none "?" (String c r)) by (now apply (path_chars_contain "?")).
  reflexivity.
Qed.

(** X12. [__init__] accepts a URL without a scheme, such as a bare host name,
    and loses it: the base is empty and the API base is the relative
    path api/v1/, against which every endpoint is resolved; an override
    with the (empty) base of such a client falls back to the API base. *)
Theorem init_without_scheme `{Python} (u : string)
    (token username password : option string) (tmo : Z) (vfy : bool) (ua : string) :
  starts_in plain_char u = true -> forall_chars path_char u = true ->
  exists z,
    __init__ u token username password tmo vfy ua = Ok z
    /\ base_url z = EmptyString
    /\ url z = "api/v1/"
    /\ forall args ts,
         endpoint z args ts (Some (base_url z)) = endpoint z args ts None
         /\ endpoint z args ts None
            = urljoin "api/v1/"
                (_join_path (if ts then (args ++ [PyStr EmptyString])%list else args)).
Proof.
  intros Hstart Hchars. unfold __init__. rewrite (urlsplit_bare u Hstart Hchars).
  unfold mbind at 1. unfold result_bind at 1. cbv beta iota. cbn [scheme netloc].
  change (urlunsplit (mkSplit EmptyString EmptyString EmptyString EmptyString EmptyString))
    with EmptyString.
  change (urljoin EmptyString (_join_path [PyStr "api"; PyStr API_VERSION; PyStr EmptyString]))
    with (Ok "api/v1/").
  unfold mbind, result_bind. cbv beta iota.
  eexists. split; [reflexivity|]. cbn [base_url url]. repeat split.
Qed.

Lemma init_without_scheme_witness :
  exists z,
    @__init__ sample_python "zmon.example.org" None None None 10 true "zmon-client" = Ok z
    /\ base_url z = EmptyString
    /\ url z = "api/v1/".
Proof.
  destruct (@init_without_scheme sample_python "zmon.example.org" None None None 10 true
              "zmon-client" eq_refl eq_refl) as (z & Hz & Hb & Hu & _).
  exists z. repeat split; assumption.
Defined.

Lemma endpoint_web_path `{Python} self h args segs :
  web_client self h -> segs <> [] -> forallb plain_segment segs = true ->
  join "/" (map segment_text (args ++ [PyStr EmptyString])) = join "/" (with_trailing true segs) ->
  endpoint self args true (Some (base_url self))
  = Ok (base_url self +:+ "/" +:+ join "/" segs +:+ "/").
Proof.
  intros [Hbase Hh] Hne Hall Hj. unfold endpoint. rewrite Hbase.
  change (given (Some ("https://" +:+ h))) with true. cbv beta iota.
  cbn [default]. rewrite join_path_text, Hj.
  exact (urljoin_host h segs true Hh Hne Hall).
Qed.

Lemma endpoint_web_fragment `{Python} self h args frag :
  web_client self h -> nonempty frag = true -> forall_chars path_char frag = true ->
  join "/" (map segment_text (args ++ [PyStr EmptyString])) = "#" +:+ frag ->
  endpoint self args true (Some (base_url self))
  = Ok (base_url self +:+ "#" +:+ frag).
Proof.
  intros [Hbase Hh] Hne Hall Hj. unfold endpoint. rewrite Hbase.
  change (given (Some ("https://" +:+ h))) with true. cbv beta iota.
  cbn [default]. rewrite join_path_text, Hj.
  exact (urljoin_fragment h frag Hh Hne Hall).
Qed.

Lemma plain_segment_path s :
  plain_segment s = true -> forall_chars path_char s = true.
Proof.
  intros Hs. destruct (plain_segment_facts s Hs) as (_ & Hc & _).
  eapply forall_chars_impl; [apply plain_char_path|exact Hc].
Qed.

Lemma view_fragment `{Python} self h view id :
  web_client self h -> plain_arg id ->
  forall_chars path_char view = true ->
  segment_text (PyStr ("#" +:+ view +:+ "/")) = "#" +:+ view ->
  endpoint self [PyStr ("#" +:+ view +:+ "/"); id] true (Some (base_url self))
  = Ok (base_url self +:+ "#" +:+ view +:+ "/" +:+ segment_text id +:+ "/").
Proof.
  intros Hself Hid Hview Hstrip.
  rewrite (endpoint_web_fragment self h _ (view +:+ "/" +:+ segment_text id +:+ "/") Hself).
  - reflexivity.
  - destruct view; reflexivity.
  - rewrite !append_chars, Hview, (plain_segment_path _ Hid). reflexivity.
  - cbn [app map]. rewrite Hstrip. cbn [join].
    change (segment_text (PyStr EmptyString)) with EmptyString.
    rewrite append_empty, !append_assoc. reflexivity.
Qed.

Section Deeplinks.

Variable object_getitem : nat -> string -> result pyval.

(** X13. The deeplinks of a client whose base is https://host, for an id whose
    text is a plain path segment: the views are fragments appended to the
    base, the one-time login and the Grafana dashboard are paths below
    it, each ending in a slash. [check_definition_url] and
    [alert_details_url] raise KeyError when the mapping has no id. *)
Theorem deeplinks `{Python} (self : Zmon) (h : string) (id : pyval) (d : dict) :
  web_client self h -> plain_arg id ->
  let base := base_url self in
  let i := segment_text id in
  dashboard_url self id = Ok (base +:+ "#/dashboards/views/" +:+ i +:+ "/")
  /\ token_login_url self id = Ok (base +:+ "/tv/" +:+ i +:+ "/")
  /\ (dict_get (KStr "id") d = Some id ->
      check_definition_url self d = Ok (base +:+ "#/check-definitions/view/" +:+ i +:+ "/")
      /\ alert_details_url self d = Ok (base +:+ "#/alert-details/" +:+ i +:+ "/"))
  /\ (dict_get (KStr "id") d = None ->
      check_definition_url self d = Raise (KeyError "id")
      /\ alert_details_url self d = Raise (KeyError "id"))
  /\ (forall inner,
        dict_get (KStr "dashboard") d = Some (PyDict inner) ->
        dict_get (KStr "id") inner = Some id ->
        grafana_dashboard_url object_getitem self d
        = Ok (base +:+ "/grafana/dashboard/db/" +:+ i +:+ "/")).
Proof.
  intros Hself Hid base i. pose proof Hid as Hid'. unfold plain_arg in Hid'. fold i in Hid'.
  split; [|split; [|split; [|split]]].
  - unfold dashboard_url. exact (view_fragment self h "/dashboards/views" id Hself Hid eq_refl eq_refl).
  - unfold token_login_url.
    rewrite (endpoint_web_path self h _ ["tv"; i] Hself); try discriminate.
    + fold base. cbn [join]. now rewrite !append_assoc.
    + cbn [forallb]. now rewrite Hid'.
    + reflexivity.
  - intros Hd. unfold check_definition_url, alert_details_url, dict_item. rewrite Hd.
    unfold mbind, result_bind. split.
    + exact (view_fragment self h "/check-definitions/view" id Hself Hid eq_refl eq_refl).
    + exact (view_fragment self h "/alert-details" id Hself Hid eq_refl eq_refl).
  - intros Hd. unfold check_definition_url, alert_details_url, dict_item. rewrite Hd.
    split; reflexivity.
  - intros inner Hd Hi. unfold grafana_dashboard_url, dict_item. rewrite Hd.
    unfold mbind, result_bind. cbn [py_getitem]. unfold dict_item. rewrite Hi.
    rewrite (endpoint_web_path self h _ ["grafana"; "dashboard"; "db"; i] Hself);
      try discriminate.
    + fold base. cbn [join]. now rewrite !append_assoc.
    + cbn [forallb]. now rewrite Hid'.
    + reflexivity.
Qed.

End Deeplinks.

Lemma deeplinks_witness :
  @dashboard_url sample_python sample_client (PyInt 12)
  = Ok "https://zmon.example#/dashboards/views/12/"
  /\ @token_login_url sample_python sample_client (PyStr "9pSzKpcO")
     = Ok "https://zmon.example/tv/9pSzKpcO/".
Proof.
  split.
  - exact (proj1 (@deeplinks (fun _ _ => Raise (TypeError "no subscript")) sample_python
                    sample_client "zmon.example" (PyInt 12) []
                    (conj eq_refl eq_refl) eq_refl)).
  - exact (proj1 (proj2 (@deeplinks (fun _ _ => Raise (TypeError "no subscript"))
                           sample_python sample_client "zmon.example" (PyStr "9pSzKpcO") []
                           (conj eq_refl eq_refl) eq_refl))).
Defined.

Lemma lstrip_fixed p s : starts_in p s = false -> lstrip_by p s = s.
Proof. destruct s as [|c s]; [reflexivity|]. cbn [starts_in lstrip_by]. now intros ->. Qed.

Lemma rstrip_fixed p s : ends_in p s = false -> rstrip_by p s = s.
Proof.
  induction s as [|c s IH]; [reflexivity|]. cbn [ends_in rstrip_by].
  destruct s as [|c' s].
  - cbn [rstrip_by]. now intros ->.
  - intros He. rewrite (IH He). reflexivity.
Qed.

Lemma strip_by_idem p s : strip_by p (strip_by p s) = strip_by p s.
Proof.
  destruct (strip_by_spec p s) as [Hs He]. unfold strip_by at 1.
  rewrite (lstrip_fixed p _ Hs). now apply rstrip_fixed.
Qed.

Lemma segment_text_idem `{Python} p : segment_text (PyStr (segment_text p)) = segment_text p.
Proof. unfold segment_text at 1. cbn [str_of]. apply strip_by_idem. Qed.

(** X14. [endpoint] depends on its segments only through their texts
    stripped of outer slashes: two lists of segments with the same
    stripped texts give the same endpoint, and stripping the segments
    beforehand changes nothing. *)
Theorem endpoint_ignores_outer_slashes `{Python} (self : Zmon) (args : list pyval)
    (trailing_slash : bool) (override : option string) :
  (forall args',
     map segment_text args = map segment_text args' ->
     endpoint self args trailing_slash override
     = endpoint self args' trailing_slash override)
  /\ endpoint self (map (fun p => PyStr (segment_text p)) args) trailing_slash override
     = endpoint self args trailing_slash override.
Proof.
  assert (Hsame : forall a a',
            map segment_text a = map segment_text a' ->
            endpoint self a trailing_slash override
            = endpoint self a' trailing_slash override).
  { intros a a' Hmap. unfold endpoint. f_equal. rewrite !join_path_text.
    destruct trailing_slash; [|now rewrite Hmap]. now rewrite !map_app, Hmap. }
  split; [apply Hsame|]. apply Hsame.
  rewrite map_map. apply map_ext. intros p. apply segment_text_idem.
Qed.

Lemma endpoint_ignores_outer_slashes_witness :
  @endpoint sample_python sample_client [PyStr "/entities/"; PyStr "host-1//"] true None
  = @endpoint sample_python sample_client [PyStr "entities"; PyStr "host-1"] true None.
Proof.
  exact (proj1 (@endpoint_ignores_outer_slashes sample_python sample_client
                  [PyStr "/entities/"; PyStr "host-1//"] true None)
           [PyStr "entities"; PyStr "host-1"] eq_refl).
Defined.

(** ** Validation *)

Lemma post_json_run `{Python} self (e : result string) (d : dict) u body w :
  e = Ok u -> json_dumps JSONEncoder_default (PyDict d) = Ok body ->
  (u0 ← lift e; resp ← session_request_json (session self) POST u0 (PyDict d);
   lift (json resp)) w
  = exchange self POST u None (Some body) json w.
Proof.
  intros -> Hb. unfold exchange. run. rewrite Hb. run.
  match goal with |- context [server w ?r] => destruct (server w r) end; reflexivity.
Qed.

Lemma post_json_refused `{Python} self (e : result string) (d : dict) u x w :
  e = Ok u -> json_dumps JSONEncoder_default (PyDict d) = Raise x ->
  (u0 ← lift e; resp ← session_request_json (session self) POST u0 (PyDict d);
   lift (json resp)) w
  = (Raise x, w).
Proof. intros -> Hb. run. rewrite Hb. reflexivity. Qed.

(** X15. [create_downtime] validates before any request: a downtime whose
    entities are missing or falsy (an empty list) is refused with one
    argument error, one whose start or end time is missing or falsy (a
    zero timestamp) with another, the world left as it was; otherwise the
    downtime is posted unchanged to the downtimes endpoint, or the
    TypeError of its serialization is raised. *)
Theorem create_downtime_validation `{Python} (self : Zmon) (downtime : dict) (w : world) :
  let field k := truthy (dict_get_or_none k downtime) in
  (field "entities" = false ->
     create_downtime self downtime w
     = argument_error "At least one entity ID should be specified" w)
  /\ (field "entities" = true -> field "start_time" = false \/ field "end_time" = false ->
      create_downtime self downtime w
      = argument_error ("Downtime must specify " +:+ dq +:+ "start_time" +:+ dq +:+ " and "
                        +:+ dq +:+ "end_time" +:+ dq) w)
  /\ (field "entities" = true -> field "start_time" = true -> field "end_time" = true ->
      forall u,
        endpoint self [PyStr DOWNTIME] true None = Ok u ->
        (forall body,
           json_dumps JSONEncoder_default (PyDict downtime) = Ok body ->
           create_downtime self downtime w = exchange self POST u None (Some body) json w)
        /\ (forall x,
              json_dumps JSONEncoder_default (PyDict downtime) = Raise x ->
              create_downtime self downtime w = (Raise x, w))).
Proof.
  intros field. subst field. cbv beta. unfold create_downtime, argument_error.
  split; [|split].
  - intros ->. reflexivity.
  - intros -> [-> | ->]; cbn [negb orb]; [reflexivity|]. now rewrite orb_true_r.
  - intros -> -> -> u Hu. cbn [negb orb]. split.
    + intros body Hb. exact (post_json_run self _ downtime u body w Hu Hb).
    + intros x Hx. exact (post_json_refused self _ downtime u x w Hu Hx).
Qed.

Lemma create_downtime_validation_witness :
  let d := [(KStr "entities", PyList [PyStr "host-1"]);
            (KStr "start_time", PyInt 0); (KStr "end_time", PyInt 1473341037)] in
  let w := answering (mkResponse 200 "OK" "{}") in
  @create_downtime sample_python sample_client d w
  = argument_error ("Downtime must specify " +:+ dq +:+ "start_time" +:+ dq +:+ " and "
                    +:+ dq +:+ "end_time" +:+ dq) w.
Proof.
  cbv zeta.
  exact (proj1 (proj2 (@create_downtime_validation sample_python sample_client
                         [(KStr "entities", PyList [PyStr "host-1"]);
                          (KStr "start_time", PyInt 0); (KStr "end_time", PyInt 1473341037)]
                         (answering (mkResponse 200 "OK" "{}"))))
           eq_refl (or_introl eq_refl)).
Defined.

Section Grafana.

Variable object_contains : nat -> string -> result bool.

(** X16. [update_grafana_dashboard] validates before any request: without
    the key dashboard it raises KeyError; when the dashboard is a mapping
    the id is checked before the title, each with its own argument error;
    a dashboard that is no container raises TypeError. Only a dashboard
    with both fields is posted. *)
Theorem update_grafana_dashboard_validation `{Python} (self : Zmon)
    (grafana_dashboard : dict) (w : world) :
  (dict_get (KStr "dashboard") grafana_dashboard = None ->
     update_grafana_dashboard object_contains self grafana_dashboard w
     = (Raise (KeyError "dashboard"), w))
  /\ (forall inner,
        dict_get (KStr "dashboard") grafana_dashboard = Some (PyDict inner) ->
        (has_key "id" inner = false ->
           update_grafana_dashboard object_contains self grafana_dashboard w
           = argument_error ("Grafana dashboard must have " +:+ dq +:+ "id" +:+ dq) w)
        /\ (has_key "id" inner = true -> has_key "title" inner = false ->
            update_grafana_dashboard object_contains self grafana_dashboard w
            = argument_error ("Grafana dashboard must have " +:+ dq +:+ "title" +:+ dq) w)
        /\ (has_key "id" inner = true -> has_key "title" inner = true ->
            forall u body,
              endpoint self [PyStr GRAFANA] true None = Ok u ->
              json_dumps JSONEncoder_default (PyDict grafana_dashboard) = Ok body ->
              update_grafana_dashboard object_contains self grafana_dashboard w
              = exchange self POST u None (Some body) json w))
  /\ (forall v,
        dict_get (KStr "dashboard") grafana_dashboard = Some v ->
        match v with
        | PyNone | PyBool _ | PyInt _ | PyFloat _ | PyDatetime _ =>
            exists msg,
              update_grafana_dashboard object_contains self grafana_dashboard w
              = (Raise (TypeError msg), w)
        | _ => True
        end).
Proof.
  unfold update_grafana_dashboard, argument_error, dict_item. split; [|split].
  - intros ->. reflexivity.
  - intros inner ->. run. cbn [py_in]. split; [|split].
    + intros ->. reflexivity.
    + intros -> ->. reflexivity.
    + intros -> -> u body Hu Hb. cbn [negb].
      exact (post_json_run self _ grafana_dashboard u body w Hu Hb).
  - intros v ->. run. destruct v; try exact I; cbn [py_in]; eexists; reflexivity.
Qed.

End Grafana.

Lemma update_grafana_dashboard_validation_witness :
  let d := [(KStr "dashboard", PyDict [(KStr "id", PyInt 3)])] in
  let w := answering (mkResponse 200 "OK" "{}") in
  @update_grafana_dashboard (fun _ _ => Ok false) sample_python sample_client d w
  = argument_error ("Grafana dashboard must have " +:+ dq +:+ "title" +:+ dq) w.
Proof.
  cbv zeta.
  exact (proj1 (proj2 (proj1 (proj2
           (@update_grafana_dashboard_validation (fun _ _ => Ok false) sample_python
              sample_client [(KStr "dashboard", PyDict [(KStr "id", PyInt 3)])]
              (answering (mkResponse 200 "OK" "{}"))))
           [(KStr "id", PyInt 3)] eq_refl)) eq_refl eq_refl).
Defined.

Lemma json_after_check `{Python} resp :
  (raise_for_status resp;; json resp) = json resp.
Proof. unfold json. destruct (raise_for_status resp) as [[]|e]; reflexivity. Qed.

Lemma post_checked_json_run `{Python} self (d : dict) u body w :
  json_dumps JSONEncoder_default (PyDict d) = Ok body ->
  (resp ← session_request_json (session self) POST u (PyDict d);
   lift (raise_for_status resp);; lift (json resp)) w
  = exchange self POST u None (Some body) json w.
Proof.
  intros Hb. unfold exchange. run. rewrite Hb. run.
  match goal with |- context [server w ?r] => destruct (server w r) as [resp|x] end;
    [|reflexivity].
  rewrite <- (json_after_check resp). unfold mbind, result_bind.
  destruct (raise_for_status resp); reflexivity.
Qed.

(** X17. [update_dashboard] posts a dashboard with a truthy id to the address
    of that dashboard, and a dashboard without id, or with a falsy id
    such as the empty text, to the collection address, where it is
    created. *)
Theorem update_dashboard_routing `{Python} (self : Zmon) (dashboard : dict) (w : world)
    (body : jdoc) :
  json_dumps JSONEncoder_default (PyDict dashboard) = Ok body ->
  (forall id u,
     dict_get (KStr "id") dashboard = Some id -> truthy id = true ->
     endpoint self [PyStr DASHBOARD; id] true None = Ok u ->
     update_dashboard self dashboard w = exchange self POST u None (Some body) json w)
  /\ (forall u,
        dict_get (KStr "id") dashboard = None
        \/ (exists id, dict_get (KStr "id") dashboard = Some id /\ truthy id = false) ->
        endpoint self [PyStr DASHBOARD] true None = Ok u ->
        update_dashboard self dashboard w = exchange self POST u None (Some body) json w).
Proof.
  intros Hb. split.
  - intros id u Hid Ht Hu. unfold update_dashboard, has_key, dict_mem, dict_item.
    rewrite Hid. change (default PyNone (Some id)) with id. cbn [andb]. rewrite Ht.
    rewrite <- (post_checked_json_run self dashboard u body w Hb).
    run. rewrite Hu. reflexivity.
  - intros u Hid Hu. unfold update_dashboard, has_key, dict_mem.
    assert (Hc : match dict_get (KStr "id") dashboard with Some _ => true | None => false end
                 && truthy (default PyNone (dict_get (KStr "id") dashboard)) = false).
    { destruct Hid as [->|(id & -> & Ht)]; [reflexivity|].
      change (default PyNone (Some id)) with id. cbn [andb]. exact Ht. }
    rewrite Hc.
    rewrite <- (post_checked_json_run self dashboard u body w Hb).
    run. rewrite Hu. reflexivity.
Qed.

Lemma update_dashboard_routing_witness :
  let d := [(KStr "id", PyStr EmptyString); (KStr "name", PyStr "Example dashboard")] in
  let w := answering (mkResponse 200 "OK" "1") in
  @update_dashboard sample_python sample_client d w
  = exchange sample_client POST "https://zmon.example/api/v1/dashboard/" None
      (Some (JObj [("id", JStr EmptyString); ("name", JStr "Example dashboard")]))
      (@json sample_python) w.
Proof.
  cbv zeta.
  exact (proj2 (@update_dashboard_routing sample_python sample_client
                  [(KStr "id", PyStr EmptyString); (KStr "name", PyStr "Example dashboard")]
                  (answering (mkResponse 200 "OK" "1")) _ eq_refl)
           _ (or_intror (ex_intro _ (PyStr EmptyString) (conj eq_refl eq_refl))) eq_refl).
Defined.

(** X18. [update_alert_definition] checks its three required fields, in the
    order last_modified_by, id, check_definition_id, before it touches the
    argument: each argument error leaves the world as it was. *)
Theorem update_alert_definition_validates_first `{Python} (self : Zmon) (l : nat)
    (w : world) (d : dict) :
  heap w !! l = Some d ->
  let required k := "Alert definition must have " +:+ dq +:+ k +:+ dq in
  (has_key "last_modified_by" d = false ->
     update_alert_definition self l w = argument_error (required "last_modified_by") w)
  /\ (has_key "last_modified_by" d = true -> has_key "id" d = false ->
      update_alert_definition self l w = argument_error (required "id") w)
  /\ (has_key "last_modified_by" d = true -> has_key "id" d = true ->
      has_key "check_definition_id" d = false ->
      update_alert_definition self l w
      = argument_error ("Alert defintion must have " +:+ dq +:+ "check_definition_id" +:+ dq)
          w).
Proof.
  intros Hd required. rewrite (update_alert_definition_run self l w d Hd).
  split; [|split].
  - intros ->. reflexivity.
  - intros -> ->. reflexivity.
  - intros -> -> ->. reflexivity.
Qed.

Lemma update_alert_definition_validates_first_witness :
  let d := [(KStr "last_modified_by", PyStr "alice"); (KStr "check_definition_id", PyInt 3)] in
  let w := holding d (mkResponse 200 "OK" "{}") in
  @update_alert_definition sample_python sample_client 0 w
  = argument_error ("Alert definition must have " +:+ dq +:+ "id" +:+ dq) w.
Proof.
  cbv zeta.
  exact (proj1 (proj2 (@update_alert_definition_validates_first sample_python sample_client 0
                         (holding [(KStr "last_modified_by", PyStr "alice");
                                   (KStr "check_definition_id", PyInt 3)]
                            (mkResponse 200 "OK" "{}"))
                         _ eq_refl)) eq_refl eq_refl).
Defined.

Lemma defaulted_world_absent l d w :
  has_key "status" d = false ->
  defaulted_world l d w
  = set_heap (<[l := (d ++ [(status, ACTIVE)])%list]> (heap w)) w.
Proof.
  intros Hs. unfold defaulted_world. rewrite Hs. now rewrite (defaulted_absent d Hs).
Qed.

(** X19. In [update_check_definition] and [create_alert_definition] the
    default status is inserted before the last check: when a mapping
    without status fails that check (no command, a command that does not
    parse, no check_definition_id), the error is raised, no request is
    sent, and the mapping of the caller has gained status = ACTIVE. *)
Theorem late_validation_keeps_default `{Python} (self : Zmon) (l : nat) (w : world)
    (d : dict) :
  heap w !! l = Some d -> has_key "status" d = false ->
  let w' := set_heap (<[l := (d ++ [(status, ACTIVE)])%list]> (heap w)) w in
  (has_key "owning_team" d = true ->
     (dict_get (KStr "command") d = None ->
        update_check_definition self l w = (Raise (KeyError "command"), w'))
     /\ (forall command msg,
           dict_get (KStr "command") d = Some command -> ast_parse command = Some msg ->
           update_check_definition self l w
           = (Raise (ZmonError ("Invalid check command: " +:+ msg)), w')))
  /\ (has_key "last_modified_by" d = true -> has_key "check_definition_id" d = false ->
      create_alert_definition self l w
      = (Raise (ZmonArgumentError
                  ("Alert defintion must have " +:+ dq +:+ "check_definition_id" +:+ dq)),
         w'))
  /\ sent w' = sent w.
Proof.
  intros Hd Hs w'. split; [|split; [|reflexivity]].
  - intros Ho. rewrite (update_check_definition_run self l w d Hd), Ho. cbn [negb].
    unfold dict_item. rewrite (defaulted_get "command" d eq_refl).
    rewrite (defaulted_world_absent l d w Hs). fold w'. split.
    + intros ->. reflexivity.
    + intros command msg -> Hp. unfold validate_check_command. now rewrite Hp.
  - intros Hm Hc. rewrite (create_alert_definition_run self l w d Hd), Hm. cbn [negb].
    unfold has_key, dict_mem in *. rewrite (defaulted_get "check_definition_id" d eq_refl).
    destruct (dict_get (KStr "check_definition_id") d); [discriminate|]. cbn [negb].
    unfold argument_error. now rewrite (defaulted_world_absent l d w Hs).
Qed.

Lemma late_validation_keeps_default_witness :
  let d := [(KStr "last_modified_by", PyStr "alice")] in
  let w := holding d (mkResponse 200 "OK" "{}") in
  @create_alert_definition sample_python sample_client 0 w
  = (Raise (ZmonArgumentError
              ("Alert defintion must have " +:+ dq +:+ "check_definition_id" +:+ dq)),
     set_heap (<[0%nat := (d ++ [(status, ACTIVE)])%list]> (heap w)) w).
Proof.
  cbv zeta.
  exact (proj1 (proj2 (@late_validation_keeps_default sample_python sample_client 0
                         (holding [(KStr "last_modified_by", PyStr "alice")]
                            (mkResponse 200 "OK" "{}"))
                         _ eq_refl eq_refl)) eq_refl eq_refl).
Defined.

Section Entities.

Variable json_text : jdoc -> string.

(** X20. [get_entities] sends no parameter for a falsy query (None, an empty
    mapping), and for a truthy query the single parameter query holding
    its JSON text; a query that cannot be serialized raises the TypeError
    before any request. *)
Theorem get_entities_query `{Python} (self : Zmon) (query : pyval) (w : world)
    (u : string) :
  endpoint self [PyStr ENTITIES] true None = Ok u ->
  (truthy query = false ->
     get_entities json_text self query w = exchange self GET u None None json w)
  /\ (truthy query = true ->
      (forall doc,
         json_dumps JSONEncoder_default query = Ok doc ->
         get_entities json_text self query w
         = exchange self GET u (Some {[ "query" := json_text doc ]}) None json w)
      /\ (forall x,
            json_dumps JSONEncoder_default query = Raise x ->
            get_entities json_text self query w = (Raise x, w))).
Proof.
  intros Hu. unfold get_entities, exchange. split.
  - intros ->. run. rewrite Hu. run.
    match goal with |- context [server w ?r] => destruct (server w r) end; reflexivity.
  - intros ->. split.
    + intros doc ->. cbn [fmap result_fmap]. run. rewrite Hu. run.
      match goal with |- context [server w ?r] => destruct (server w r) end; reflexivity.
    + intros x ->. reflexivity.
Qed.

End Entities.

Lemma get_entities_query_witness :
  let w := answering (mkResponse 200 "OK" "{}") in
  @get_entities (fun _ => "{}") sample_python sample_client (PyDict []) w
  = exchange sample_client GET "https://zmon.example/api/v1/entities/" None None
      (@json sample_python) w.
Proof.
  cbv zeta.
  exact (proj1 (@get_entities_query (fun _ => "{}") sample_python sample_client (PyDict [])
                  (answering (mkResponse 200 "OK" "{}")) _ eq_refl) eq_refl).
Defined.

Lemma search_run `{Python} self q names u w :
  q <> EmptyString -> names <> [] ->
  endpoint self [PyStr SEARCH] true None = Ok u ->
  search self q (PyList (map PyStr names)) w
  = exchange self GET u (Some (query_and_teams q (join "," names))) None json w.
Proof.
  intros Hq Hn Hu. unfold search, exchange, query_and_teams, query_only.
  rewrite (nonempty_true q Hq). cbn [negb].
  assert (Ht : truthy (PyList (map PyStr names)) = true) by (now destruct names).
  rewrite Ht. cbn [is_list_or_tuple negb andb]. run. cbn [str_join].
  rewrite mapM_text. cbn [fmap result_fmap]. run. rewrite Hu. run.
  match goal with |- context [server w ?r] => destruct (server w r) end; reflexivity.
Qed.

(** X21. The teams of a search travel as one comma-joined parameter: when no
    team name holds a comma, splitting the parameter at the commas gives
    the list back; a name that holds a comma cannot be told from two
    names. *)
Theorem search_teams_round_trip `{Python} (self : Zmon) (q : string) (names : list string)
    (u : string) (w : world) :
  q <> EmptyString -> names <> [] ->
  endpoint self [PyStr SEARCH] true None = Ok u ->
  (forallb (fun s => negb (contains "," s)) names = true ->
     exists r params teams,
       sent (snd (search self q (PyList (map PyStr names)) w)) = (sent w ++ [r])%list
       /\ req_params r = Some params
       /\ params !! "teams" = Some teams
       /\ split "," teams = names)
  /\ (forall a b,
        search self q (PyList (map PyStr [a +:+ "," +:+ b])) w
        = search self q (PyList (map PyStr [a; b])) w).
Proof.
  intros Hq Hn Hu. split.
  - intros Hc. rewrite (search_run self q names u w Hq Hn Hu). unfold exchange.
    cbn [snd after sent]. do 3 eexists. split; [reflexivity|].
    cbn [the_request req_params]. split; [reflexivity|]. split.
    + unfold query_and_teams. apply lookup_insert_eq.
    + now apply split_join.
  - intros a b. rewrite !(search_run self q _ u w Hq) by (assumption || discriminate).
    reflexivity.
Qed.

Lemma search_teams_round_trip_witness :
  let w := answering (mkResponse 200 "OK" "{}") in
  @search sample_python sample_client "zmon" (PyList (map PyStr ["A,B"])) w
  = @search sample_python sample_client "zmon" (PyList (map PyStr ["A"; "B"])) w.
Proof.
  cbv zeta.
  exact (proj2 (@search_teams_round_trip sample_python sample_client "zmon" ["A,B"]
                  _ (answering (mkResponse 200 "OK" "{}"))
                  ltac:(discriminate) ltac:(discriminate) eq_refl) "A" "B").
Defined.

(** ** Comparison of entities *)

Section PyvalInduction.
Variable P : pyval -> Prop.
Hypothesis HNone : P PyNone.
Hypothesis HBool : forall b, P (PyBool b).
Hypothesis HInt : forall n, P (PyInt n).
Hypothesis HFloat : forall f, P (PyFloat f).
Hypothesis HStr : forall s, P (PyStr s).
Hypothesis HList : forall l, Forall P l -> P (PyList l).
Hypothesis HTuple : forall l, Forall P l -> P (PyTuple l).
Hypothesis HDict : forall d, Forall (fun kv => P (snd kv)) d -> P (PyDict d).
Hypothesis HDatetime : forall iso, P (PyDatetime iso).
Hypothesis HObject : forall t i, P (PyObject t i).

Fixpoint pyval_ind (v : pyval) : P v :=
  match v with
  | PyNone => HNone
  | PyBool b => HBool b
  | PyInt n => HInt n
  | PyFloat f => HFloat f
  | PyStr s => HStr s
  | PyList l =>
      HList l ((fix go (l : list pyval) : Forall P l :=
                  match l with
                  | [] => @List.Forall_nil _ P
                  | x :: xs => @List.Forall_cons _ _ x xs (pyval_ind x) (go xs)
                  end) l)
  | PyTuple l =>
      HTuple l ((fix go (l : list pyval) : Forall P l :=
                   match l with
                   | [] => @List.Forall_nil _ P
                   | x :: xs => @List.Forall_cons _ _ x xs (pyval_ind x) (go xs)
                   end) l)
  | PyDict d =>
      HDict d ((fix go (d : list (pykey * pyval)) : Forall (fun kv => P (snd kv)) d :=
                  match d with
                  | [] => @List.Forall_nil _ _
                  | kv :: d' => @List.Forall_cons _ _ kv d' (pyval_ind (snd kv)) (go d')
                  end) d)
  | PyDatetime iso => HDatetime iso
  | PyObject t i => HObject t i
  end.
End PyvalInduction.

Lemma json_loads_value j : json_value (json_loads j).
Proof.
  induction j as [| b | n | f | s | l IH | ms IH] using jdoc_ind;
    try (cbn [json_loads]; constructor; fail).
  - cbn [json_loads]. constructor. induction IH; cbn [map]; constructor; assumption.
  - rewrite json_loads_obj. constructor.
    + apply fold_json_dict. split; constructor.
    + apply (fold_values json_value); [|constructor].
      induction IH; cbn [map]; constructor; assumption.
Qed.

(** X22. Two entities that serialize, without last_modified, to the same JSON
    document compare equal: a tuple equals the list of its items, a
    datetime its ISO text, a number used as a key its spelling. *)
Theorem compare_entities_same_document `{Python} (e1 e2 : dict) (j : jdoc) :
  serialised e1 = Ok j -> serialised e2 = Ok j -> compare_entities e1 e2 = Ok true.
Proof.
  intros H1 H2. rewrite compare_entities_unfold, H1, H2.
  destruct (json_dumps_dict _ _ _ H1) as [ms ->]. now rewrite json_loads_dict_refl.
Qed.

Lemma compare_entities_same_document_witness :
  @compare_entities sample_python
    [(KStr "id", PyStr "host-1"); (KStr "ports", PyTuple [PyInt 80; PyInt 443]);
     (KStr "created", PyDatetime "2016-09-08T14:00:12"); (KInt 1, PyNone);
     (KStr "last_modified", PyStr "yesterday")]
    [(KStr "id", PyStr "host-1"); (KStr "ports", PyList [PyInt 80; PyInt 443]);
     (KStr "created", PyStr "2016-09-08T14:00:12"); (KStr "1", PyNone)]
  = Ok true.
Proof.
  exact (@compare_entities_same_document sample_python
           [(KStr "id", PyStr "host-1"); (KStr "ports", PyTuple [PyInt 80; PyInt 443]);
            (KStr "created", PyDatetime "2016-09-08T14:00:12"); (KInt 1, PyNone);
            (KStr "last_modified", PyStr "yesterday")]
           [(KStr "id", PyStr "host-1"); (KStr "ports", PyList [PyInt 80; PyInt 443]);
            (KStr "created", PyStr "2016-09-08T14:00:12"); (KStr "1", PyNone)]
           (JObj [("id", JStr "host-1"); ("ports", JArr [JInt 80; JInt 443]);
                  ("created", JStr "2016-09-08T14:00:12"); ("1", JNull)])
           eq_refl eq_refl).
Defined.

Lemma fin_eqb_sym m1 e1 m2 e2 : fin_eqb m1 e1 m2 e2 = fin_eqb m2 e2 m1 e1.
Proof. unfold fin_eqb. rewrite (Z.min_comm e1 e2). apply Z.eqb_sym. Qed.

Lemma float_eqb_sym f g : float_eqb f g = float_eqb g f.
Proof.
  destruct f as [|a|m1 e1], g as [|b|m2 e2]; cbn [float_eqb]; try reflexivity.
  - now destruct a, b.
  - apply fin_eqb_sym.
Qed.

Lemma num_eqb_sym a b : num_eqb a b = num_eqb b a.
Proof.
  destruct a, b; cbn [num_eqb]; try reflexivity.
  - apply Z.eqb_sym.
  - apply float_eqb_sym.
Qed.

Lemma scalar_eqb_sym x y : scalar_eqb x y = scalar_eqb y x.
Proof.
  unfold scalar_eqb.
  destruct (num_of x) as [a|] eqn:Hx, (num_of y) as [b|] eqn:Hy; try reflexivity.
  - apply num_eqb_sym.
  - destruct x, y; try reflexivity; try discriminate.
    + apply String.eqb_sym.
    + apply String.eqb_sym.
    + apply Nat.eqb_sym.
Qed.

Lemma scalar_cmp_sym b x y :
  ((b && is_nan x && is_nan y) || scalar_eqb x y)
  = ((b && is_nan y && is_nan x) || scalar_eqb y x).
Proof.
  rewrite (scalar_eqb_sym x y). f_equal.
  rewrite <- !andb_assoc. f_equal. apply andb_comm.
Qed.

Lemma forall2b_sym {A} (f : A -> A -> bool) (Q : A -> Prop) a :
  Forall (fun v => forall y, Q y -> f v y = f y v) a ->
  forall b, Forall Q b -> forall2b f a b = forall2b f b a.
Proof.
  induction 1 as [|x a Hx _ IH]; intros b Hb.
  - now destruct b.
  - destruct Hb as [|y b Hy Hb]; [reflexivity|].
    cbn. now rewrite (Hx y Hy), (IH b Hb).
Qed.

Lemma json_dict_key d k v : json_dict d -> In (k, v) d -> exists s, k = KStr s.
Proof.
  intros [Hk _] Hin. rewrite Forall_forall in Hk.
  specialize (Hk (k, v)). cbn [fst] in Hk.
  assert (Hs : str_key k = true) by (apply Hk; apply list_elem_of_In; exact Hin).
  destruct k; try discriminate. eauto.
Qed.

Lemma entries_match_keys a b :
  json_dict a -> entries_match a b = true -> incl (map fst a) (map fst b).
Proof.
  intros Ha Hm k Hk. apply in_map_iff in Hk as ([k' v] & Hfst & Hin). cbn [fst] in Hfst.
  subst k'. unfold entries_match in Hm. rewrite forallb_forall in Hm.
  specialize (Hm (k, v) Hin). cbn [fst snd] in Hm.
  destruct (dict_get k b) as [v'|] eqn:Hget; [|discriminate].
  destruct (json_dict_key a k v Ha Hin) as [s ->].
  destruct (dict_get_in _ _ _ Hget) as (k' & Hin' & Hk').
  apply key_eqb_str in Hk'. subst k'.
  apply in_map_iff. exists (KStr s, v'). auto.
Qed.

Lemma entries_match_turn a b :
  json_dict a -> json_dict b -> length a = length b ->
  (forall k v v', In (k, v) a -> In (k, v') b ->
                  py_cmp true v v' = true -> py_cmp true v' v = true) ->
  entries_match a b = true -> entries_match b a = true.
Proof.
  intros Ha Hb Hlen Hturn Hm.
  pose proof (entries_match_keys a b Ha Hm) as Hincl.
  assert (Hback : incl (map fst b) (map fst a)).
  { apply (NoDup_length_incl (proj1 (NoDup_ListNoDup _) (proj2 Ha))); [|exact Hincl].
    rewrite !length_map. lia. }
  unfold entries_match. apply forallb_forall. intros [k v'] Hin'. cbn [fst snd].
  assert (Hk : In k (map fst a)).
  { apply Hback. apply in_map_iff. exists (k, v'). auto. }
  apply in_map_iff in Hk as ([k0 v] & Hfst & Hin). cbn [fst] in Hfst. subst k0.
  rewrite (dict_get_self a k v Ha Hin).
  apply (Hturn k v v' Hin Hin').
  unfold entries_match in Hm. rewrite forallb_forall in Hm.
  specialize (Hm (k, v) Hin). cbn [fst snd] in Hm.
  now rewrite (dict_get_self b k v' Hb Hin') in Hm.
Qed.

Lemma json_value_scalar v :
  json_value v ->
  match v with
  | PyTuple _ | PyDatetime _ | PyObject _ _ => False
  | _ => True
  end.
Proof. now destruct 1. Qed.

Lemma json_value_items l : json_value (PyList l) -> Forall json_value l.
Proof. now inversion 1. Qed.

Lemma json_value_entries d :
  json_value (PyDict d) -> json_dict d /\ Forall (fun kv => json_value (snd kv)) d.
Proof. now inversion 1. Qed.

(** Equality is symmetric on the values [json.loads] returns. *)
Lemma py_cmp_sym x :
  json_value x -> forall y, json_value y -> forall b, py_cmp b x y = py_cmp b y x.
Proof.
  induction x as [| c | n | f | s | a IH | a IH | a IH | iso | t i] using pyval_ind;
    intros Hx y Hy b;
    try (now apply json_value_scalar in Hx);
    try (destruct y; try (now apply json_value_scalar in Hy);
         cbn [py_cmp]; first [apply scalar_cmp_sym | cbn; now rewrite ?andb_false_r]; fail).
  - destruct y; try (now apply json_value_scalar in Hy); cbn [py_cmp];
      try reflexivity;
      try (cbn; now rewrite ?andb_false_r).
    apply (forall2b_sym (py_cmp true) json_value).
    + apply json_value_items in Hx. rewrite Forall_forall in *.
      intros v Hv y Hy'. now apply IH; [|apply Hx|].
    + now apply json_value_items.
  - destruct y as [| ? | ? | ? | ? | ? | ? | d | ? | ? ?];
      try (now apply json_value_scalar in Hy); cbn [py_cmp];
      try reflexivity;
      try (cbn; now rewrite ?andb_false_r).
    destruct (json_value_entries a Hx) as [Ha Hva].
    destruct (json_value_entries d Hy) as [Hd Hvd].
    rewrite (Nat.eqb_sym (length d) (length a)).
    destruct (Nat.eqb_spec (length a) (length d)) as [Hlen|]; [|reflexivity].
    cbn [andb]. fold (entries_match a d). fold (entries_match d a).
    rewrite Forall_forall in IH, Hva, Hvd.
    assert (Hval : forall k v v', In (k, v) a -> In (k, v') d ->
                     py_cmp true v v' = py_cmp true v' v).
    { intros k v v' Hin Hin'.
      apply (IH (k, v)); [now apply list_elem_of_In| |].
      - apply (Hva (k, v)). now apply list_elem_of_In.
      - apply (Hvd (k, v')). now apply list_elem_of_In. }
    destruct (entries_match a d) eqn:E1, (entries_match d a) eqn:E2; try reflexivity.
    + rewrite (entries_match_turn a d Ha Hd Hlen) in E2; [discriminate| |exact E1].
      intros k v v' Hin Hin' Hc. now rewrite <- (Hval k v v' Hin Hin').
    + rewrite (entries_match_turn d a Hd Ha (eq_sym Hlen)) in E1; [discriminate| |exact E2].
      intros k v' v Hin' Hin Hc. now rewrite (Hval k v v' Hin Hin').
Qed.

(** X23. [compare_entities] is symmetric. *)
Theorem compare_entities_symmetric `{Python} (e1 e2 : dict) :
  compare_entities e1 e2 = compare_entities e2 e1.
Proof.
  rewrite !compare_entities_unfold.
  destruct (serialised e1) as [j1|x1], (serialised e2) as [j2|x2]; try reflexivity.
  unfold py_eqb. f_equal. apply py_cmp_sym; apply json_loads_value.
Qed.

Lemma mapM_ext {A B} (f g : A -> result B) l ys :
  Forall (fun x => forall y, f x = Ok y -> g x = Ok y) l ->
  mapM f l = Ok ys -> mapM g l = Ok ys.
Proof.
  intros Hl. revert ys. induction Hl as [|x l Hx _ IH]; intros ys; [trivial|].
  cbn [mapM]. unfold mbind, result_bind.
  destruct (f x) as [y|e] eqn:Hf; [|discriminate]. rewrite (Hx y eq_refl).
  destruct (mapM f l) as [ys'|e]; [|discriminate]. intros Hys.
  now rewrite (IH ys' eq_refl).
Qed.

Lemma json_dumps_extends `{Python} v :
  forall j, json_dumps JSONEncoder_default v = Ok j ->
            json_dumps JSONDateEncoder_default v = Ok j.
Proof.
  induction v as [| c | n | f | s | a IH | a IH | a IH | iso | t i] using pyval_ind;
    intros j; cbn [json_dumps]; try (intros Hj; exact Hj); try discriminate.
  - destruct (mapM (json_dumps JSONEncoder_default) a) as [js|e] eqn:E; [|discriminate].
    now rewrite (mapM_ext _ (json_dumps JSONDateEncoder_default) a js IH E).
  - destruct (mapM (json_dumps JSONEncoder_default) a) as [js|e] eqn:E; [|discriminate].
    now rewrite (mapM_ext _ (json_dumps JSONDateEncoder_default) a js IH E).
  - match goal with
    | |- JObj <$> mapM ?f a = _ -> JObj <$> mapM ?g a = _ =>
        destruct (mapM f a) as [ms|e] eqn:E; [|discriminate];
        rewrite (mapM_ext f g a ms); [trivial| |exact E]
    end.
    rewrite Forall_forall in *. intros kv Hkv y. unfold mbind, result_bind.
    destruct (json_key (fst kv)); [|discriminate].
    destruct (json_dumps JSONEncoder_default (snd kv)) as [j'|e] eqn:E'; [|discriminate].
    now rewrite (IH kv Hkv j' E').
Qed.

(** X24. [JSONDateEncoder] only adds datetimes to the base encoder: whatever
    the base encoder writes, the date encoder writes the same document; a
    datetime, which the base encoder refuses, is written as its ISO text;
    an object of another type is still refused. *)
Theorem date_encoder_extends_base `{Python} :
  (forall v j, json_dumps JSONEncoder_default v = Ok j ->
               json_dumps JSONDateEncoder_default v = Ok j)
  /\ (forall iso,
        json_dumps JSONDateEncoder_default (PyDatetime iso) = Ok (JStr iso)
        /\ exists msg, json_dumps JSONEncoder_default (PyDatetime iso) = Raise (TypeError msg))
  /\ (forall t i,
        exists msg, json_dumps JSONDateEncoder_default (PyObject t i) = Raise (TypeError msg)).
Proof.
  split; [exact json_dumps_extends|]. split.
  - intros iso. split; [reflexivity|]. eexists. reflexivity.
  - intros t i. eexists. reflexivity.
Qed.

Lemma date_encoder_extends_base_witness :
  @json_dumps sample_python JSONDateEncoder_default
    (PyDict [(KStr "id", PyStr "host-1"); (KStr "ports", PyList [PyInt 80])])
  = Ok (JObj [("id", JStr "host-1"); ("ports", JArr [JInt 80])]).
Proof.
  exact (proj1 (@date_encoder_extends_base sample_python)
           (PyDict [(KStr "id", PyStr "host-1"); (KStr "ports", PyList [PyInt 80])])
           (JObj [("id", JStr "host-1"); ("ports", JArr [JInt 80])]) eq_refl).
Defined.




















(** ** The command line *)

Lemma init_session `{Python} u token username password tmo vfy ua z :
  __init__ u token username password tmo vfy ua = Ok z ->
  session z = configured_session token username password tmo vfy ua.
Proof.
  unfold __init__, mbind, result_bind.
  destruct (urlsplit u EmptyString) as [sp|e]; [|discriminate].
  destruct (urljoin _ _) as [api|e]; [|discriminate].
  intros [= <-]. reflexivity.
Qed.

Lemma init_https `{Python} h p token username password tmo vfy ua :
  plain_host h = true -> p = EmptyString \/ starts_in netloc_end p = true ->
  __init__ ("https://" +:+ h +:+ p) token username password tmo vfy ua
  = Ok (mkZmon tmo ("https://" +:+ h) ("https://" +:+ h +:+ "/api/v1/")
          (configured_session token username password tmo vfy ua) ua).
Proof.
  intros Hh Hp. destruct (init_run h p token username password tmo vfy ua Hh Hp)
    as (s & Hz & _).
  rewrite Hz. f_equal. f_equal. exact (init_session _ _ _ _ _ _ _ _ Hz).
Qed.

Lemma configured_headers token username password tmo vfy ua :
  headers (configured_session token username password tmo vfy ua) !! "Authorization"
  = if given token then Some ("Bearer " +:+ default EmptyString token) else None.
Proof.
  unfold configured_session.
  destruct (negb vfy), (given token), (given username && given password && is_None token);
    cbn [headers set_verify set_header set_auth set_timeout new_session];
    rewrite ?lookup_insert_eq; try reflexivity;
    rewrite !lookup_insert_ne by discriminate; apply default_headers_no_authorization.
Qed.

Lemma configured_auth token username password tmo vfy ua :
  auth (configured_session token username password tmo vfy ua)
  = if given username && given password && is_None token
    then Some (default EmptyString username, default EmptyString password)
    else None.
Proof.
  unfold configured_session.
  destruct (negb vfy), (given token), (given username && given password && is_None token);
    reflexivity.
Qed.

Lemma configured_verify token username password tmo vfy ua :
  verify (configured_session token username password tmo vfy ua) = vfy.
Proof.
  unfold configured_session.
  destruct vfy, (given token), (given username && given password && is_None token);
    reflexivity.
Qed.

Section ClientConfiguration.

Variable version : string.

Lemma present_spec (c : gmap string string) k :
  bool_decide (is_Some (c !! k)) = match c !! k with Some _ => true | None => false end.
Proof.
  destruct (c !! k) eqn:E.
  - apply bool_decide_eq_true. eauto.
  - apply bool_decide_eq_false. intros [x Hx]. discriminate.
Qed.

(** X27. [get_client] on a configuration whose url is https://host...: with a
    user and a password it builds a client with basic authentication
    (when both are non-empty) and no Authorization header; with a token
    and not both of user and password, a client with the Bearer header
    (when the token is non-empty) and no basic authentication. In both
    cases the client has the bases of the host, the default user agent
    and the verify flag of the configuration (true when absent). *)
Theorem get_client_credentials `{Python} (config : Config) (h p : string) :
  entries config !! "url" = Some ("https://" +:+ h +:+ p) ->
  plain_host h = true -> p = EmptyString \/ starts_in netloc_end p = true ->
  let c := entries config in
  (forall user password,
     c !! "user" = Some user -> c !! "password" = Some password ->
     exists z,
       get_client version config = Client z
       /\ api_client z h /\ web_client z h
       /\ user_agent z = "zmon-client/" +:+ version
       /\ verify (session z) = default true (verify_entry config)
       /\ headers (session z) !! "Authorization" = None
       /\ auth (session z)
          = if nonempty user && nonempty password then Some (user, password) else None)
  /\ (forall token,
        c !! "user" = None \/ c !! "password" = None -> c !! "token" = Some token ->
        exists z,
          get_client version config = Client z
          /\ api_client z h /\ web_client z h
          /\ user_agent z = "zmon-client/" +:+ version
          /\ verify (session z) = default true (verify_entry config)
          /\ auth (session z) = None
          /\ headers (session z) !! "Authorization"
             = if nonempty token then Some ("Bearer " +:+ token) else None).
Proof.
  intros Hurl Hh Hp c. subst c. unfold get_client. rewrite !present_spec, Hurl. split.
  - intros user password Hu Hpw. rewrite Hu, Hpw. cbn [andb]. unfold new_client.
    rewrite (init_https h p _ _ _ _ _ _ Hh Hp). eexists. split; [reflexivity|].
    cbn [session user_agent]. rewrite configured_headers, configured_auth, configured_verify.
    cbn [given is_None default]. rewrite andb_true_r.
    repeat split; try reflexivity; assumption.
  - intros token Hup Ht. rewrite Ht.
    assert (Hc : match entries config !! "user" with Some _ => true | None => false end
                 && match entries config !! "password" with Some _ => true | None => false end
                 = false).
    { destruct Hup as [-> | ->]; [reflexivity|]. apply andb_false_r. }
    rewrite Hc. unfold new_client.
    rewrite (init_https h p _ _ _ _ _ _ Hh Hp). eexists. split; [reflexivity|].
    cbn [session user_agent]. rewrite configured_headers, configured_auth, configured_verify.
    cbn [given is_None default andb].
    repeat split; try reflexivity; assumption.
Qed.

(** X28. [get_client] raises RuntimeError when the configuration has neither
    a user with a password nor a token, whether or not it has a url; with
    credentials but no url it raises KeyError for the url; and when user
    and password are present a token is ignored. *)
Theorem get_client_errors `{Python} (config : Config) :
  let c := entries config in
  (c !! "user" = None \/ c !! "password" = None -> c !! "token" = None ->
     get_client version config
     = RuntimeError "Failed to intitialize ZMON client. Invalid configuration!")
  /\ ((is_Some (c !! "user") /\ is_Some (c !! "password")) \/ is_Some (c !! "token") ->
      c !! "url" = None ->
      get_client version config = ClientError (KeyError "url"))
  /\ (is_Some (c !! "user") -> is_Some (c !! "password") ->
      forall token,
        get_client version (mkConfig (<["token" := token]> c) (verify_entry config))
        = get_client version config).
Proof.
  intros c. subst c. unfold get_client. split; [|split].
  - intros Hup Ht. rewrite !present_spec, Ht.
    destruct Hup as [-> | ->]; [reflexivity|]. now rewrite andb_false_r.
  - intros Hc Hurl. rewrite !present_spec, Hurl.
    destruct Hc as [[[u ->] [pw ->]] | [t ->]]; [reflexivity|].
    destruct (entries config !! "user"), (entries config !! "password"); reflexivity.
  - intros [u Hu] [pw Hpw] token. cbn [entries verify_entry].
    rewrite !present_spec.
    rewrite !(lookup_insert_ne (entries config) "token") by discriminate.
    now rewrite Hu, Hpw.
Qed.

End ClientConfiguration.

Lemma get_client_credentials_witness :
  exists z,
    @get_client "1.0" sample_python
      (mkConfig (<["url" := "https://" +:+ "zmon.example" +:+ "/"]>
                   (<["token" := "s3cr3t"]> ∅)) None)
    = Client z
    /\ headers (session z) !! "Authorization" = Some "Bearer s3cr3t".
Proof.
  set (config := mkConfig (<["url" := "https://" +:+ "zmon.example" +:+ "/"]>
                             (<["token" := "s3cr3t"]> ∅)) None).
  assert (Hurl : entries config !! "url" = Some ("https://" +:+ "zmon.example" +:+ "/"))
    by apply lookup_insert_eq.
  assert (Huser : entries config !! "user" = None).
  { cbn [entries config]. now rewrite !lookup_insert_ne, lookup_empty by discriminate. }
  assert (Htoken : entries config !! "token" = Some "s3cr3t").
  { cbn [entries config]. rewrite lookup_insert_ne by discriminate. apply lookup_insert_eq. }
  destruct (proj2 (@get_client_credentials "1.0" sample_python config "zmon.example" "/"
                     Hurl eq_refl (or_intror eq_refl))
              "s3cr3t" (or_introl Huser) Htoken)
    as (z & Hz & _ & _ & _ & _ & _ & Hh).
  exists z. split; [exact Hz|exact Hh].
Defined.

Lemma get_client_errors_witness :
  @get_client "1.0" sample_python (mkConfig (<["url" := "https://zmon.example/"]> ∅) None)
  = RuntimeError "Failed to intitialize ZMON client. Invalid configuration!".
Proof.
  apply (proj1 (@get_client_errors "1.0" sample_python
                  (mkConfig (<["url" := "https://zmon.example/"]> ∅) None))).
  - left. cbn [entries]. now rewrite lookup_insert_ne, lookup_empty by discriminate.
  - cbn [entries]. now rewrite lookup_insert_ne, lookup_empty by discriminate.
Defined.

(** ** Requests *)

Section Frame.
Context `{Python} (self : Zmon).

Lemma quiet_ret {A} (a : A) : issues 0 (mret a).
Proof. intros w. exists []. cbn. rewrite app_nil_r. auto. Qed.

Lemma quiet_lift {A} (r : result A) : issues 0 (lift r).
Proof. intros w. exists []. cbn. rewrite app_nil_r. auto. Qed.

Lemma early_throw {A} n e : issues n (@throw A e).
Proof.
  intros w. exists []. cbn. rewrite app_nil_r. split; [reflexivity|].
  destruct n; [now left|right]. split; [lia|eauto].
Qed.

Lemma one_request m u params body :
  issues 1 (session_request (session self) m u params body).
Proof. intros w. eexists [_]. cbn. split; [reflexivity|now left]. Qed.

Lemma frame_bind {A B} n k (m : M A) (f : A -> M B) :
  issues n m -> (forall a, issues k (f a)) -> issues (n + k) (m ≫= f).
Proof.
  intros Hm Hf w. destruct (Hm w) as (rs & Hs & Hc).
  unfold mbind, M_bind. destruct (m w) as [[a|e] w1]; cbn [fst snd] in *.
  - destruct Hc as [Hn|[_ [e He]]]; [|discriminate].
    destruct (Hf a w1) as (rs' & Hs' & Hc').
    exists (rs ++ rs')%list. rewrite Hs', Hs, <- app_assoc, length_app.
    split; [reflexivity|]. destruct Hc' as [Hk|[Hk He]]; [left; lia|right].
    split; [lia|exact He].
  - exists rs. split; [exact Hs|].
    destruct Hc as [Hn|[Hn _]]; [|right; split; [lia|eauto]].
    destruct k; [left; lia|right]. split; [lia|eauto].
Qed.

Lemma frame_before {A B} n (m : M A) (f : A -> M B) :
  issues 0 m -> (forall a, issues n (f a)) -> issues n (m ≫= f).
Proof. intros Hm Hf. exact (frame_bind 0 n m f Hm Hf). Qed.

Lemma frame_after {A B} n (m : M A) (f : A -> M B) :
  issues n m -> (forall a, issues 0 (f a)) -> issues n (m ≫= f).
Proof.
  intros Hm Hf. pose proof (frame_bind n 0 m f Hm Hf) as Hb.
  now rewrite Nat.add_0_r in Hb.
Qed.

Lemma one_request_json m u obj :
  issues 1 (session_request_json (session self) m u obj).
Proof.
  unfold session_request_json. apply frame_before; [apply quiet_lift|].
  intros body. apply one_request.
Qed.

End Frame.

(** A computation that returns without a request does not issue one. *)
Example returning_is_no_request : ~ issues 1 (mret tt : M unit).
Proof.
  intros Hs.
  destruct (Hs (answering (mkResponse 200 "OK" "1"))) as (rs & Hsent & [Hl|[_ [e He]]]).
  - cbn in Hsent. now subst rs.
  - discriminate He.
Qed.

Ltac quiet :=
  first [ apply quiet_ret | apply quiet_lift | apply early_throw
        | match goal with
          | |- issues _ (if ?c then _ else _) => destruct c; quiet
          end
        | apply frame_before; [quiet | intros ?; quiet] ].

Ltac frame :=
  first [ apply one_request | apply one_request_json | apply early_throw
        | match goal with
          | |- issues _ (if ?c then _ else _) => destruct c; frame
          end
        | apply frame_before; [quiet | intros ?; frame]
        | apply frame_after; [frame | intros ?; quiet] ].

Section Operations.

Variable object_contains : nat -> string -> result bool.
Variable json_text : jdoc -> string.

(** X29. Every operation listed issues one request, behind those issued
    before, and may issue none only when it raises: a call that returns
    has sent exactly one request, a call that raises at most one.
    [switch_active_user] issues two: exactly two when it returns, at most
    two when it raises. *)
Theorem operations_frame `{Python} (self : Zmon) :
  issues 1 (zmon_status self)
  /\ (forall q, issues 1 (get_entities json_text self q))
  /\ (forall i, issues 1 (get_entity self i))
  /\ (forall e, issues 1 (add_entity self e))
  /\ (forall i, issues 1 (delete_entity self i))
  /\ (forall i, issues 1 (get_dashboard self i))
  /\ (forall d, issues 1 (update_dashboard self d))
  /\ (forall i, issues 1 (get_check_definition self i))
  /\ (forall i, issues 1 (delete_check_definition self i))
  /\ (forall i, issues 1 (get_alert_definition self i))
  /\ (forall i, issues 1 (delete_alert_definition self i))
  /\ (forall i, issues 1 (get_alert_data self i))
  /\ (forall q t, issues 1 (search self q t))
  /\ issues 1 (list_onetime_tokens self)
  /\ issues 1 (get_onetime_token self)
  /\ (forall i, issues 1 (get_grafana_dashboard self i))
  /\ (forall d, issues 1 (update_grafana_dashboard object_contains self d))
  /\ (forall d, issues 1 (create_downtime self d))
  /\ issues 1 (get_groups self)
  /\ (forall g n, issues 2 (switch_active_user self g n))
  /\ (forall g n, issues 1 (add_member self g n))
  /\ (forall g n, issues 1 (remove_member self g n))
  /\ (forall e p, issues 1 (add_phone self e p))
  /\ (forall e p, issues 1 (remove_phone self e p))
  /\ (forall e n, issues 1 (set_name self e n)).
Proof.
  repeat split; intros;
    unfold zmon_status, get_entities, get_entity, add_entity, delete_entity, get_dashboard,
      update_dashboard, get_check_definition, delete_check_definition,
      get_alert_definition, delete_alert_definition, get_alert_data, search,
      list_onetime_tokens, get_onetime_token, get_grafana_dashboard,
      update_grafana_dashboard, create_downtime, get_groups, add_member, remove_member,
      add_phone,
      remove_phone, set_name;
    try (frame; fail).
  unfold switch_active_user. apply frame_before; [quiet|]. intros u.
  apply (frame_bind 1 1); [apply one_request|]. intros resp.
  apply frame_before; [quiet|]. intros _. frame.
Qed.

End Operations.

Example switch_active_user_requests :
  sent (snd (@switch_active_user sample_python sample_client (PyStr "ops") (PyStr "alice")
               (answering (mkResponse 200 "OK" "1"))))
  = [the_request sample_client DELETE "https://zmon.example/api/v1/groups/ops/active/"
       None None;
     the_request sample_client PUT "https://zmon.example/api/v1/groups/ops/active/alice/"
       None None].
Proof. reflexivity. Qed.

